(** * scripts/load_merge.py: the casualty join pipeline

    A shallow embedding of [scripts/load_merge.py] and the properties of its
    stages: column normalisation, date-column resolution and derivation, the
    two left merges, the projection onto the tidy column list, the target
    rename and the final write.

    The pandas and Python calls the script makes are modelled by the
    functions of the modules [Py] and [Pd]; the script itself is the
    section [Script], with [main] written in a state-and-error monad over
    the files it reads and writes.

    Scope of the model:
    - strings are byte strings, and [strip] and [lower] act on the ASCII
      range;
    - a frame is its index length and its labelled columns, in order;
      labels may repeat, as pandas allows;
    - a file holds its table: parsing CSV and writing Parquet are not
      modelled, and neither are directories ([PROC.mkdir]);
    - cells compare by equality, so missing keys match each other in a
      merge, as in pandas; the dtype of a column is the one [read_csv]
      infers from its cells, and a merge checks it on the key columns;
    - how [pd.to_datetime] reads a column is a parameter of the script: a
      reading of each cell that may depend on the whole column, as the
      format pandas infers does; [DayFirst] instantiates it for text
      columns of day-month-year dates. *)

From Stdlib Require Import ZArith String Ascii List Bool Lia.
From stdpp Require Import base decidable option list gmap strings.

Import ListNotations.
Local Open Scope nat_scope.
Local Open Scope list_scope.
Local Open Scope stdpp_scope.

(** ** Python strings *)

Module Py.

(** [str.isspace] on the ASCII range: tab, line feed, vertical tab, form
    feed, carriage return, the four separators 0x1c-0x1f and the space. *)
Definition isspace (c : ascii) : bool :=
  let n := nat_of_ascii c in
  (Nat.leb 9 n && Nat.leb n 13) || (Nat.leb 28 n && Nat.leb n 32).

(** [str.lower] on one character; characters outside A-Z are kept. *)
Definition lower_char (c : ascii) : ascii :=
  let n := nat_of_ascii c in
  if Nat.leb 65 n && Nat.leb n 90 then ascii_of_nat (n + 32) else c.

Fixpoint lstrip (s : string) : string :=
  match s with
  | EmptyString => EmptyString
  | String c s' => if isspace c then lstrip s' else s
  end.

Fixpoint rstrip (s : string) : string :=
  match s with
  | EmptyString => EmptyString
  | String c s' =>
      match rstrip s' with
      | EmptyString => if isspace c then EmptyString else String c EmptyString
      | t => String c t
      end
  end.

(** [s.strip()] *)
Definition strip (s : string) : string := rstrip (lstrip s).

Fixpoint map_chars (f : ascii -> ascii) (s : string) : string :=
  match s with
  | EmptyString => EmptyString
  | String c s' => String (f c) (map_chars f s')
  end.

(** [s.lower()] *)
Definition lower (s : string) : string := map_chars lower_char s.

(** [s.replace(old, new)] for one-character [old] and [new]. *)
Definition replace (old new : ascii) (s : string) : string :=
  map_chars (fun c => if Ascii.eqb c old then new else c) s.

(** Truth value of a string: the empty string is false. *)
Definition truthy (s : string) : bool :=
  match s with EmptyString => false | _ => true end.

(** [x in xs] for a list of strings. *)
Definition str_in (x : string) (xs : list string) : bool :=
  existsb (String.eqb x) xs.

(** No whitespace at the start, respectively at the end. *)
Definition starts_clean (s : string) : bool :=
  match s with
  | EmptyString => true
  | String c _ => negb (isspace c)
  end.

Fixpoint ends_clean (s : string) : bool :=
  match s with
  | EmptyString => true
  | String c EmptyString => negb (isspace c)
  | String _ s' => ends_clean s'
  end.

(** What [replace(" ", "_")] does to one character. *)
Definition space_to_underscore (c : ascii) : ascii :=
  if Ascii.eqb c " " then "_"%char else c.

End Py.

(** ** Errors and results *)

Inductive error : Type :=
| FileNotFoundError (path : string)
| KeyError (label : string)
| ValueError (msg : string)
| MergeError (msg : string).

Inductive result (A : Type) : Type :=
| Ok (a : A)
| Err (e : error).
Arguments Ok {A} a.
Arguments Err {A} e.

Global Instance result_ret : MRet result := fun A a => Ok a.
Global Instance result_bind : MBind result := fun A B k r =>
  match r with
  | Ok a => k a
  | Err e => Err e
  end.

Fixpoint mapM_result {A B} (f : A -> result B) (l : list A) : result (list B) :=
  match l with
  | [] => Ok []
  | a :: l' => b ← f a; bs ← mapM_result f l'; Ok (b :: bs)
  end.

(** ** Frames *)

Record date : Type := mkDate { d_year : Z; d_month : Z; d_day : Z }.

(** A cell of a column: missing (NaN, NaT, None), a string, an integer or a
    calendar timestamp at midnight. *)
Inductive cell : Type :=
| NA
| Str (s : string)
| Num (z : Z)
| Ts (d : date).

Global Instance date_eq_dec : EqDecision date.
Proof. solve_decision. Defined.
Global Instance cell_eq_dec : EqDecision cell.
Proof. solve_decision. Defined.
Global Instance error_eq_dec : EqDecision error.
Proof. solve_decision. Defined.

Definition Series : Type := list cell.

(** [index] is [len(df)]; [data] holds the columns in order, each with its
    label. *)
Record DataFrame : Type := mkDF {
  index : nat;
  data : list (string * Series)
}.

Global Instance DataFrame_eq_dec : EqDecision DataFrame.
Proof. solve_decision. Defined.

(** [df.columns] *)
Definition columns (df : DataFrame) : list string := map fst (data df).

(** Every column is as long as the index. *)
Definition aligned (df : DataFrame) : Prop :=
  Forall (fun c => length (snd c) = index df) (data df).

(** No two columns carry the same label. *)
Definition unique_labels (df : DataFrame) : Prop := NoDup (columns df).

(** ** The pandas operations the script calls *)

Module Pd.

(** A dict built by a comprehension or a literal: later bindings of a key
    replace earlier ones. *)
Definition dict_of {V} (kvs : list (string * V)) : gmap string V :=
  fold_left (fun m kv => <[kv.1 := kv.2]> m) kvs ∅.

(** [df.rename(columns=mapper)]: a label that is a key of [mapper] is
    replaced by its value, any other label is kept; the values of the
    columns are untouched. *)
Definition rename (mapper : gmap string string) (df : DataFrame) : DataFrame :=
  {| index := index df;
     data := map (fun c => (default c.1 (mapper !! c.1), c.2)) (data df) |}.

(** The columns of [df] labelled [label], in order. *)
Definition labelled (label : string) (df : DataFrame) : list (string * Series) :=
  List.filter (fun c => String.eqb c.1 label) (data df).

(** [df[label]] used as one column: a missing label raises KeyError; a
    label carried by several columns does not give a Series, and both
    [pd.to_datetime] and [merge] refuse it with a ValueError. *)
Definition getitem (label : string) (df : DataFrame) : result Series :=
  match labelled label df with
  | [] => Err (KeyError label)
  | [c] => Ok c.2
  | _ => Err (ValueError "label is not unique")
  end.

(** [df[labels]]: KeyError when a label is missing; otherwise, for each
    label in turn, every column carrying it. *)
Definition getitem_list (labels : list string) (df : DataFrame) : result DataFrame :=
  match List.find (fun l => negb (Py.str_in l (columns df))) labels with
  | Some l => Err (KeyError l)
  | None =>
      Ok {| index := index df;
            data := flat_map (fun l => labelled l df) labels |}
  end.

(** [df[label] = s]: replaces the values of the columns labelled [label];
    appends a new column when there is none. *)
Definition setitem (label : string) (s : Series) (df : DataFrame) : DataFrame :=
  {| index := index df;
     data :=
       if Py.str_in label (columns df)
       then map (fun c => if String.eqb c.1 label then (c.1, s) else c) (data df)
       else data df ++ [(label, s)] |}.

(** The first column labelled [label] (empty when there is none). *)
Definition column (label : string) (df : DataFrame) : Series :=
  match labelled label df with
  | c :: _ => c.2
  | [] => []
  end.

(** *** Datetimes *)

(** [pd.to_datetime(s, errors="coerce", ...)]: pandas settles how to read
    the column from the column as a whole (for text, one format inferred
    from its first value) and then reads cell by cell; what it cannot read
    becomes NaT.  [parse s] is the reading of the cells of column [s]. *)
Definition to_datetime (parse : Series -> cell -> option date) (s : Series) : Series :=
  map (fun c => match parse s c with Some d => Ts d | None => NA end) s.

(** [s.dt.year] *)
Definition dt_year (s : Series) : Series :=
  map (fun c => match c with Ts d => Num (d_year d) | _ => NA end) s.

(** [s.dt.to_period("M").dt.to_timestamp()]: the first day of the month. *)
Definition dt_month_start (s : Series) : Series :=
  map (fun c => match c with
                | Ts d => Ts (mkDate (d_year d) (d_month d) 1)
                | _ => NA
                end) s.

(** *** Left merge *)

(** The key of row [i]: its cells in the key columns. *)
Definition row_key (keys : list Series) (i : nat) : list cell :=
  map (fun s => nth i s NA) keys.

(** Rows of the right frame whose key equals the key of left row [i], in
    the right frame's order.  Missing values match each other. *)
Definition matches (lkeys rkeys : list Series) (nr : nat) (i : nat) : list nat :=
  List.filter (fun j => bool_decide (row_key rkeys j = row_key lkeys i)) (seq 0 nr).

(** The row plan of [how="left"]: every left row in order, once per match
    and once with no partner when nothing matches. *)
Definition left_indexer (lkeys rkeys : list Series) (nl nr : nat)
  : list (nat * option nat) :=
  flat_map (fun i =>
              match matches lkeys rkeys nr i with
              | [] => [(i, None)]
              | js => map (fun j => (i, Some j)) js
              end) (seq 0 nl).

Definition take_left (ix : list (nat * option nat)) (s : Series) : Series :=
  map (fun p => nth p.1 s NA) ix.

Definition take_right (ix : list (nat * option nat)) (s : Series) : Series :=
  map (fun p => match p.2 with Some j => nth j s NA | None => NA end) ix.

(** A label shared by both sides gets the side's suffix. *)
Definition renamer (to_rename : list string) (suffix : string) (x : string) : string :=
  if Py.str_in x to_rename then x +:+ suffix else x.

(** Positions at which suffixing made a label repeat an earlier one while
    the original label did not. *)
Fixpoint suffix_dups (seen_old seen_new : list string) (old new : list string) : bool :=
  match old, new with
  | o :: old', n :: new' =>
      (Py.str_in n seen_new && negb (Py.str_in o seen_old))
      || suffix_dups (o :: seen_old) (n :: seen_new) old' new'
  | _, _ => false
  end.

(** The key columns of both sides, pair by pair, and the right labels to
    drop: a right key column with the same label as its left partner is
    dropped, so the key appears once, with the left values. *)
Definition get_merge_keys (left right : DataFrame) (left_on right_on : list string)
  : result (list Series * list Series * list string) :=
  keys ← mapM_result (fun lr : string * string =>
                        rk ← getitem lr.2 right;
                        lk ← getitem lr.1 left;
                        Ok (lk, rk)) (zip left_on right_on);
  Ok (map fst keys, map snd keys,
      map fst (List.filter (fun lr : string * string => String.eqb lr.1 lr.2)
                           (zip left_on right_on))).

Definition drop_labels (labels : list string) (df : DataFrame) : list (string * Series) :=
  List.filter (fun c => negb (Py.str_in c.1 labels)) (data df).

(** The labels of the two sides of the result: labels found on both sides
    take their side's suffix.  Overlap with two empty suffixes is refused,
    and so is a suffix that makes a label collide on its own side. *)
Definition items_overlap_with_suffix (left right : list string)
    (suffixes : string * string) : result (list string * list string) :=
  let to_rename := List.filter (fun l => Py.str_in l right) left in
  match to_rename with
  | [] => Ok (left, right)
  | _ :: _ =>
      if negb (Py.truthy suffixes.1) && negb (Py.truthy suffixes.2)
      then Err (ValueError "columns overlap but no suffix specified")
      else
        let llabels := map (renamer to_rename suffixes.1) left in
        let rlabels := map (renamer to_rename suffixes.2) right in
        if suffix_dups [] [] left llabels || suffix_dups [] [] right rlabels
        then Err (MergeError "suffixes cause duplicate columns")
        else Ok (llabels, rlabels)
  end.

(** The dtype of a column, as [read_csv] infers it from the cells: numbers,
    with or without missing values, give a numeric column (int64, or
    float64 when a value is missing or all are); timestamps give a
    datetime64 column; a column that holds text, or mixes kinds, is an
    object column. *)
Inductive dtype : Type := numeric | datetime64 | object.

Definition is_number (c : cell) : bool :=
  match c with Num _ => true | _ => false end.

Definition dtype_of (s : Series) : dtype :=
  if forallb (fun c => match c with NA | Num _ => true | _ => false end) s
  then numeric
  else if forallb (fun c => match c with NA | Ts _ => true | _ => false end) s
  then datetime64
  else object.

(** The check of [_maybe_coerce_merge_keys] on one pair of key columns.
    It is skipped when exactly one side has no row.  Equal dtypes pass,
    and so do two numeric columns.  An object column against a numeric
    one is refused when the object column infers as text ("string" or
    "mixed"); it passes when it holds an integer ("mixed-integer").  A
    datetime64 column merges only with a datetime64 column. *)
Definition mergeable (lk rk : Series) : bool :=
  if xorb (Nat.eqb (length lk) 0) (Nat.eqb (length rk) 0) then true
  else match dtype_of lk, dtype_of rk with
       | numeric, numeric | datetime64, datetime64 | object, object => true
       | object, numeric => existsb is_number lk
       | numeric, object => existsb is_number rk
       | _, _ => false
       end.

(** [_maybe_coerce_merge_keys]: the key pairs are checked in turn. *)
Definition maybe_coerce_merge_keys (lkeys rkeys : list Series) : result unit :=
  if forallb (fun p : Series * Series => mergeable p.1 p.2) (zip lkeys rkeys)
  then Ok tt
  else Err (ValueError "You are trying to merge on columns of incompatible dtypes").

(** [left.merge(right, how="left", left_on=, right_on=, suffixes=)]: the
    keys are looked up, then their dtypes checked, and the labels of the
    result are settled when the result is built. *)
Definition merge_left (left right : DataFrame) (left_on right_on : list string)
    (suffixes : string * string) : result DataFrame :=
  '(lkeys, rkeys, right_drop) ← get_merge_keys left right left_on right_on;
  maybe_coerce_merge_keys lkeys rkeys;;
  let rdata := drop_labels right_drop right in
  '(llabels, rlabels) ← items_overlap_with_suffix (columns left) (map fst rdata) suffixes;
  let ix := left_indexer lkeys rkeys (index left) (index right) in
  Ok {| index := length ix;
        data := zip llabels (map (fun c => take_left ix c.2) (data left))
                ++ zip rlabels (map (fun c => take_right ix c.2) rdata) |}.

(** The keys of the rows of [df], in row order. *)
Definition key_rows (on : list string) (df : DataFrame) : list (list cell) :=
  map (row_key (map (fun l => column l df) on)) (seq 0 (index df)).

(** [df.to_parquet(...)] refuses a frame with repeated column labels. *)
Definition parquet_writable (df : DataFrame) : bool :=
  bool_decide (NoDup (columns df)).

End Pd.

(** ** The files the script reads and writes *)

(** The state outside the script: the tables stored under each path and the
    lines printed so far (a line is the path, row count and column count of
    the summary). *)
Record world : Type := mkWorld {
  files : gmap string DataFrame;
  stdout : list (string * nat * nat)
}.

Definition IO (A : Type) : Type := world -> world * result A.

Global Instance IO_ret : MRet IO := fun A a w => (w, Ok a).
Global Instance IO_bind : MBind IO := fun A B k m w =>
  match m w with
  | (w', Ok a) => k a w'
  | (w', Err e) => (w', Err e)
  end.

Global Instance IO_fmap : FMap IO := fun A B f m w =>
  match m w with
  | (w', Ok a) => (w', Ok (f a))
  | (w', Err e) => (w', Err e)
  end.

Definition lift {A} (r : result A) : IO A := fun w => (w, r).

(** [Path(a) / b] *)
Definition path_join (a b : string) : string := a +:+ "/" +:+ b.
Infix "//" := path_join (at level 40, left associativity).

(** [path.exists()] *)
Definition path_exists (path : string) : IO bool :=
  fun w => (w, Ok (bool_decide (is_Some (files w !! path)))).

Definition RAW : string := "data/raw/dft_road_safety_last_5_years".
Definition PROC : string := "data/processed".

(** Detect naming (some bundles use Collisions.csv instead of Accidents.csv) *)
Definition ACC_FILE : IO string :=
  b ← path_exists (RAW // "Accidents.csv");
  mret (RAW // (if b : bool then "Accidents.csv" else "Collisions.csv")).
Definition VEH_FILE : string := RAW // "Vehicles.csv".
Definition CAS_FILE : string := RAW // "Casualties.csv".

(** [pd.read_csv(path, engine="pyarrow")]: the table stored at [path]. *)
Definition read_csv_fast (path : string) : IO DataFrame :=
  fun w => (w, match files w !! path with
               | Some df => Ok df
               | None => Err (FileNotFoundError path)
               end).

(** [c.strip().lower().replace(" ", "_")] *)
Definition normalise_name (c : string) : string :=
  Py.replace " " "_" (Py.lower (Py.strip c)).

Definition normalise_cols (df : DataFrame) : DataFrame :=
  Pd.rename (Pd.dict_of (map (fun c => (c, normalise_name c)) (columns df))) df.

(** [tidy.to_parquet(out, index=False)] *)
Definition to_parquet (out : string) (df : DataFrame) : IO unit :=
  fun w =>
    if Pd.parquet_writable df
    then (mkWorld (<[out := df]> (files w)) (stdout w), Ok tt)
    else (w, Err (ValueError "Duplicate column names found")).

(** [print(f"Saved {out} with {len(tidy):,} rows and {len(tidy.columns)} columns")] *)
Definition print_saved (out : string) (df : DataFrame) : IO unit :=
  fun w => (mkWorld (files w) (stdout w ++ [(out, index df, length (columns df))]), Ok tt).

(** ** main *)

Section Script.

(** How [pd.to_datetime(..., dayfirst=True)] reads a column: [parse_date s c]
    is the date read from cell [c] of column [s], if any. *)
Variable parse_date : Series -> cell -> option date.

(** key columns *)
Definition acc_id : string := "accident_index".
Definition veh_id : string := "accident_index".
Definition veh_ref : string := "vehicle_reference".
Definition cas_id : string := "accident_index".
Definition cas_ref : string := "vehicle_reference".

(** [next((c for c in acc.columns if c in ["date","accident_date"]), None)] *)
Definition date_col_of (acc : DataFrame) : option string :=
  List.find (fun c => Py.str_in c ["date"; "accident_date"]) (columns acc).

(** minimal type fixes (dates): the [if date_col:] block. *)
Definition fix_dates (date_col : option string) (acc : DataFrame) : result DataFrame :=
  match date_col with
  | Some dc =>
      if Py.truthy dc then
        s ← Pd.getitem dc acc;
        let acc := Pd.setitem dc (Pd.to_datetime parse_date s) acc in
        s ← Pd.getitem dc acc;
        let acc := Pd.setitem "year" (Pd.dt_year s) acc in
        s ← Pd.getitem dc acc;
        Ok (Pd.setitem "month" (Pd.dt_month_start s) acc)
      else Ok acc
  | None => Ok acc
  end.

(** join vehicles -> casualties (on accident + vehicle) *)
Definition join_vehicles (cas veh : DataFrame) : result DataFrame :=
  veh_keys ← Pd.getitem_list [veh_id; veh_ref] veh;
  Pd.merge_left cas veh_keys [cas_id; cas_ref] [veh_id; veh_ref] ("", "").

(** join accidents -> casualties (1-to-many) *)
Definition join_accidents (cas acc : DataFrame) : result DataFrame :=
  Pd.merge_left cas acc [cas_id] [acc_id] ("_cas", "_acc").

(** The literal list bound to [keep_cols], before its filter; [None] is
    Python's None. *)
Definition keep_candidates (joined : DataFrame) (date_col : option string)
  : list (option string) :=
  let present c := Py.str_in c (columns joined) in
  let optional c := if present c then Some c else None in
  [ Some cas_id; Some cas_ref;
    Some (if present "severity" then "severity" else "casualty_severity");
    Some "casualty_class"; Some "sex_of_casualty"; Some "age_band_of_casualty";
    optional "sex_of_driver";
    optional "age_band_of_driver";
    optional "vehicle_type";
    date_col; Some "year"; Some "month";
    Some "light_conditions"; Some "weather_conditions"; Some "road_type";
    Some "speed_limit";
    optional "local_authority_(district)";
    optional "police_force";
    optional "number_of_vehicles";
    optional "number_of_casualties";
    optional "longitude";
    optional "latitude" ].

(** The filter condition [c and c in joined.columns]. *)
Definition kept (joined : DataFrame) (c : option string) : option string :=
  match c with
  | Some s => if Py.truthy s && Py.str_in s (columns joined) then Some s else None
  | None => None
  end.

(** [[c for c in keep_cols if c and c in joined.columns]] *)
Definition keep_cols (joined : DataFrame) (date_col : option string) : list string :=
  omap (kept joined) (keep_candidates joined date_col).

(** Standardise target column name *)
Definition standardise_target (tidy : DataFrame) : DataFrame :=
  if Py.str_in "casualty_severity" (columns tidy)
     && negb (Py.str_in "severity" (columns tidy))
  then Pd.rename (Pd.dict_of [("casualty_severity", "severity")]) tidy
  else tidy.

(** [joined[keep_cols].copy()] followed by the rename. *)
Definition tidy_of (joined : DataFrame) (date_col : option string) : result DataFrame :=
  tidy ← Pd.getitem_list (keep_cols joined date_col) joined;
  Ok (standardise_target tidy).

(** The type fixes and the two joins: from the loaded frames to [joined]. *)
Definition joined_of (acc veh cas : DataFrame) : result DataFrame :=
  acc ← fix_dates (date_col_of acc) acc;
  cas ← join_vehicles cas veh;
  join_accidents cas acc.

Definition out_path : string := PROC // "casualty_joined.parquet".

(** The end of [main]: projection, rename, save and summary line. *)
Definition save (joined : DataFrame) (date_col : option string) : IO unit :=
  tidy ← lift (tidy_of joined date_col);
  to_parquet out_path tidy;;
  print_saved out_path tidy.

(** [ACC_FILE] is bound when the module is loaded, immediately before
    [main] runs, so it is evaluated here on entry. *)
Definition main : IO unit :=
  acc_file ← ACC_FILE;
  acc ← normalise_cols <$> read_csv_fast acc_file;
  veh ← normalise_cols <$> read_csv_fast VEH_FILE;
  cas ← normalise_cols <$> read_csv_fast CAS_FILE;
  joined ← lift (joined_of acc veh cas);
  save joined (date_col_of acc).

End Script.

(** ** Day-first dates *)

(** The reading [pd.to_datetime(..., errors="coerce", dayfirst=True)] gives
    a text column of numeric day-month-year dates: one or two digits for
    the day and for the month, four for the year, with [/] or [-] between
    them.  The format is guessed from the first value of the column that
    is not missing, and every cell is read by it, so a date written with
    the other separator is not read; when that first value is no such
    date, no format is guessed and each cell is read on its own.  A cell
    that is already a timestamp is kept and a missing cell stays missing.
    Other spellings of a date (ISO, month names, times), numeric cells,
    which pandas reads as epoch offsets, and the bounds of a nanosecond
    timestamp are outside this reading: it leaves such cells unread. *)
Module DayFirst.

Local Open Scope Z_scope.

(** [s.split(sep)] for a one-character separator. *)
Fixpoint split (sep : ascii) (s : string) : list string :=
  match s with
  | EmptyString => [EmptyString]
  | String c s' =>
      if Ascii.eqb c sep then EmptyString :: split sep s'
      else match split sep s' with
           | w :: ws => String c w :: ws
           | [] => [String c EmptyString]
           end
  end.

Definition digit (c : ascii) : option Z :=
  let n := nat_of_ascii c in
  if Nat.leb 48 n && Nat.leb n 57 then Some (Z.of_nat n - 48) else None.

Fixpoint digits (acc : Z) (s : string) : option Z :=
  match s with
  | EmptyString => Some acc
  | String c s' =>
      match digit c with
      | Some d => digits (10 * acc + d) s'
      | None => None
      end
  end.

(** A non-empty run of at most [width] decimal digits. *)
Definition number (width : nat) (s : string) : option Z :=
  if Nat.leb 1 (String.length s) && Nat.leb (String.length s) width
  then digits 0 s else None.

Definition is_leap (y : Z) : bool :=
  (y mod 4 =? 0) && (negb (y mod 100 =? 0) || (y mod 400 =? 0)).

Definition days_in_month (y m : Z) : Z :=
  if m =? 2 then (if is_leap y then 29 else 28)
  else if (m =? 4) || (m =? 6) || (m =? 9) || (m =? 11) then 30
  else 31.

(** A date written day, month, year with [sep] between the fields: the
    format [%d<sep>%m<sep>%Y]. *)
Definition parse_with (sep : ascii) (s : string) : option date :=
  match split sep s with
  | [sd; sm; sy] =>
      match number 2 sd, number 2 sm, number 4 sy with
      | Some d, Some m, Some y =>
          if Nat.eqb (String.length sy) 4
             && (1 <=? m) && (m <=? 12) && (1 <=? d) && (d <=? days_in_month y m)
          then Some (mkDate y m d) else None
      | _, _, _ => None
      end
  | _ => None
  end.

(** The format [%d/%m/%Y]. *)
Definition parse (s : string) : option date := parse_with "/" s.

(** The texts the format guess passes over, with the missing cells. *)
Definition passed_over (c : cell) : bool :=
  match c with
  | NA => true
  | Str s => Py.str_in s [""; "NaT"; "nat"; "NAT"; "nan"; "NaN"; "NAN"; "now"; "today"]
  | _ => false
  end.

(** The first value of the column the format is guessed from. *)
Definition first_valid (col : Series) : option cell :=
  List.find (fun c => negb (passed_over c)) col.

(** The separator of the guessed format, if the value is such a date. *)
Definition guess (s : string) : option ascii :=
  match parse_with "/" s, parse_with "-" s with
  | Some _, _ => Some "/"%char
  | None, Some _ => Some "-"%char
  | None, None => None
  end.

Definition format_of (col : Series) : option ascii :=
  match first_valid col with
  | Some (Str v) => guess v
  | _ => None
  end.

(** One cell read by the format of the column, or on its own when there
    is none. *)
Definition read (fmt : option ascii) (c : cell) : option date :=
  match c with
  | Ts d => Some d
  | Str s =>
      match fmt with
      | Some sep => parse_with sep s
      | None =>
          match parse_with "/" s with
          | Some d => Some d
          | None => parse_with "-" s
          end
      end
  | _ => None
  end.

(** The reading of cell [c] of column [col]. *)
Definition parse_cell (col : Series) (c : cell) : option date :=
  read (format_of col) c.

End DayFirst.

(** ** Sample releases *)

Module Sample.

(** Two collisions, two vehicles, three casualties; the second casualty
    of A1 has no vehicle row. *)
Definition accidents : DataFrame :=
  mkDF 2 [ ("Accident_Index", [Str "A1"; Str "A2"]);
           ("Date", [Str "31/12/2020"; Str "not-a-date"]);
           ("Speed_limit", [Num 30; Num 40]) ].

Definition vehicles : DataFrame :=
  mkDF 2 [ ("Accident_Index", [Str "A1"; Str "A2"]);
           ("Vehicle_Reference", [Num 1; Num 1]);
           ("Vehicle_Type", [Str "Car"; Str "Bus"]);
           ("Sex_of_Driver", [Str "Male"; Str "Female"]);
           ("Age_Band_of_Driver", [Num 6; Num 7]) ].

Definition casualties : DataFrame :=
  mkDF 3 [ ("Accident_Index", [Str "A1"; Str "A1"; Str "A2"]);
           ("Vehicle_Reference", [Num 1; Num 2; Num 1]);
           ("Casualty_Severity", [Num 3; Num 2; Num 1]);
           ("Casualty_Class", [Num 1; Num 3; Num 2]) ].

Definition release : world :=
  mkWorld (Pd.dict_of [ (RAW // "Accidents.csv", accidents);
                        (VEH_FILE, vehicles);
                        (CAS_FILE, casualties) ]) [].

(** What [main] writes for [release]. *)
Definition tidy : DataFrame :=
  mkDF 3 [ ("accident_index", [Str "A1"; Str "A1"; Str "A2"]);
           ("vehicle_reference", [Num 1; Num 2; Num 1]);
           ("severity", [Num 3; Num 2; Num 1]);
           ("casualty_class", [Num 1; Num 3; Num 2]);
           ("date", [Ts (mkDate 2020 12 31); Ts (mkDate 2020 12 31); NA]);
           ("year", [Num 2020; Num 2020; NA]);
           ("month", [Ts (mkDate 2020 12 1); Ts (mkDate 2020 12 1); NA]);
           ("speed_limit", [Num 30; Num 30; Num 40]) ].

(** A collision table carrying both date spellings, the newer one first. *)
Definition both_dates : DataFrame :=
  mkDF 1 [ ("accident_index", [Str "A1"]);
           ("accident_date", [Str "31/12/2020"]);
           ("date", [Str "31/12/2020"]) ].

(** The three tables as [main] holds them after loading. *)
Definition acc : DataFrame := normalise_cols accidents.
Definition veh : DataFrame := normalise_cols vehicles.
Definition cas : DataFrame := normalise_cols casualties.

(** The joined table of [release]. *)
Definition joined : DataFrame :=
  mkDF 3 [ ("accident_index", [Str "A1"; Str "A1"; Str "A2"]);
           ("vehicle_reference", [Num 1; Num 2; Num 1]);
           ("casualty_severity", [Num 3; Num 2; Num 1]);
           ("casualty_class", [Num 1; Num 3; Num 2]);
           ("date", [Ts (mkDate 2020 12 31); Ts (mkDate 2020 12 31); NA]);
           ("speed_limit", [Num 30; Num 30; Num 40]);
           ("year", [Num 2020; Num 2020; NA]);
           ("month", [Ts (mkDate 2020 12 1); Ts (mkDate 2020 12 1); NA]) ].

(** A release whose casualty file has no outcome column. *)
Definition casualties_plain : DataFrame :=
  mkDF 3 [ ("Accident_Index", [Str "A1"; Str "A1"; Str "A2"]);
           ("Vehicle_Reference", [Num 1; Num 2; Num 1]);
           ("Casualty_Class", [Num 1; Num 3; Num 2]) ].

Definition plain : world :=
  mkWorld (Pd.dict_of [ (RAW // "Accidents.csv", accidents);
                        (VEH_FILE, vehicles);
                        (CAS_FILE, casualties_plain) ]) [].

(** A release without outcome column in which two headers of the casualty
    file, [Casualty_Class] and [casualty class], normalise to one label. *)
Definition casualties_twice_classed : DataFrame :=
  mkDF 3 [ ("Accident_Index", [Str "A1"; Str "A1"; Str "A2"]);
           ("Vehicle_Reference", [Num 1; Num 2; Num 1]);
           ("Casualty_Class", [Num 1; Num 3; Num 2]);
           ("casualty class", [Num 1; Num 3; Num 2]) ].

Definition twice_classed : world :=
  mkWorld (Pd.dict_of [ (RAW // "Accidents.csv", accidents);
                        (VEH_FILE, vehicles);
                        (CAS_FILE, casualties_twice_classed) ]) [].

(** The joined tables of [plain] and [twice_classed], and what [main]
    writes for [plain]. *)
Definition joined_plain : DataFrame :=
  mkDF 3 [ ("accident_index", [Str "A1"; Str "A1"; Str "A2"]);
           ("vehicle_reference", [Num 1; Num 2; Num 1]);
           ("casualty_class", [Num 1; Num 3; Num 2]);
           ("date", [Ts (mkDate 2020 12 31); Ts (mkDate 2020 12 31); NA]);
           ("speed_limit", [Num 30; Num 30; Num 40]);
           ("year", [Num 2020; Num 2020; NA]);
           ("month", [Ts (mkDate 2020 12 1); Ts (mkDate 2020 12 1); NA]) ].

Definition tidy_plain : DataFrame :=
  mkDF 3 [ ("accident_index", [Str "A1"; Str "A1"; Str "A2"]);
           ("vehicle_reference", [Num 1; Num 2; Num 1]);
           ("casualty_class", [Num 1; Num 3; Num 2]);
           ("date", [Ts (mkDate 2020 12 31); Ts (mkDate 2020 12 31); NA]);
           ("year", [Num 2020; Num 2020; NA]);
           ("month", [Ts (mkDate 2020 12 1); Ts (mkDate 2020 12 1); NA]);
           ("speed_limit", [Num 30; Num 30; Num 40]) ].

Definition joined_twice_classed : DataFrame :=
  mkDF 3 [ ("accident_index", [Str "A1"; Str "A1"; Str "A2"]);
           ("vehicle_reference", [Num 1; Num 2; Num 1]);
           ("casualty_class", [Num 1; Num 3; Num 2]);
           ("casualty_class", [Num 1; Num 3; Num 2]);
           ("date", [Ts (mkDate 2020 12 31); Ts (mkDate 2020 12 31); NA]);
           ("speed_limit", [Num 30; Num 30; Num 40]);
           ("year", [Num 2020; Num 2020; NA]);
           ("month", [Ts (mkDate 2020 12 1); Ts (mkDate 2020 12 1); NA]) ].



(** The sample release with a Collisions.csv beside its Accidents.csv. *)
Definition collisions : DataFrame :=
  mkDF 1 [ ("Accident_Index", [Str "B7"]);
           ("Date", [Str "01/02/2019"]);
           ("Speed_limit", [Num 70]) ].

Definition both_named : world :=
  mkWorld (Pd.dict_of [ (RAW // "Accidents.csv", accidents);
                        (RAW // "Collisions.csv", collisions);
                        (VEH_FILE, vehicles);
                        (CAS_FILE, casualties) ]) [].

(** A source directory with no file in it. *)
Definition nothing : world := mkWorld ∅ [].

(** A vehicle table in which the key (A1, 1) occurs twice, and what the
    vehicle join makes of the casualties with it. *)
Definition veh_twice : DataFrame :=
  mkDF 3 [ ("accident_index", [Str "A1"; Str "A1"; Str "A2"]);
           ("vehicle_reference", [Num 1; Num 1; Num 1]);
           ("vehicle_type", [Str "Car"; Str "Van"; Str "Bus"]) ].

Definition cas_twice : DataFrame :=
  mkDF 4 [ ("accident_index", [Str "A1"; Str "A1"; Str "A1"; Str "A2"]);
           ("vehicle_reference", [Num 1; Num 1; Num 2; Num 1]);
           ("casualty_severity", [Num 3; Num 3; Num 2; Num 1]);
           ("casualty_class", [Num 1; Num 1; Num 3; Num 2]) ].

(** A casualty and a collision table that both carry [accident_year], and
    their join. *)
Definition cas_year : DataFrame :=
  mkDF 2 [ ("accident_index", [Str "A1"; Str "A2"]);
           ("vehicle_reference", [Num 1; Num 1]);
           ("accident_year", [Num 2020; Num 2021]) ].

Definition acc_year : DataFrame :=
  mkDF 2 [ ("accident_index", [Str "A1"; Str "A2"]);
           ("accident_year", [Num 2020; Num 2021]);
           ("speed_limit", [Num 30; Num 40]) ].

Definition joined_year : DataFrame :=
  mkDF 2 [ ("accident_index", [Str "A1"; Str "A2"]);
           ("vehicle_reference", [Num 1; Num 1]);
           ("accident_year_cas", [Num 2020; Num 2021]);
           ("accident_year_acc", [Num 2020; Num 2021]);
           ("speed_limit", [Num 30; Num 40]) ].

(** A source directory with the collision file only. *)
Definition only_accidents : world :=
  mkWorld (Pd.dict_of [ (RAW // "Accidents.csv", accidents) ]) [].

(** The world [main] leaves for [release]. *)
Definition released : world :=
  mkWorld (<[PROC // "casualty_joined.parquet" := tidy]> (files release))
          [(PROC // "casualty_joined.parquet", 3, 8)].

End Sample.

(** ** Auxiliary definitions for the proofs *)

(** Closes a decidable closed goal by evaluation. *)
Ltac decided := apply (bool_decide_unpack _); vm_compute; reflexivity.

(** Case analysis on the 256 characters. *)
Ltac by_cases_on_char c :=
  destruct c as [[|] [|] [|] [|] [|] [|] [|] [|]]; vm_compute; congruence.

(** The pairs of [d] labelled [l], in order. *)
Definition with_label {V : Type} (l : string) (d : list (string * V)) : list (string * V) :=
  List.filter (fun c => String.eqb c.1 l) d.

(** The names [keep_cols] can select, in order: [sev] is the outcome name
    chosen for the table and [dc] the resolved date column. *)
Definition keep_names (sev : string) (dc : option string) : list (option string) :=
  [ Some cas_id; Some cas_ref; Some sev;
    Some "casualty_class"; Some "sex_of_casualty"; Some "age_band_of_casualty";
    Some "sex_of_driver"; Some "age_band_of_driver"; Some "vehicle_type";
    dc; Some "year"; Some "month";
    Some "light_conditions"; Some "weather_conditions"; Some "road_type";
    Some "speed_limit";
    Some "local_authority_(district)"; Some "police_force";
    Some "number_of_vehicles"; Some "number_of_casualties";
    Some "longitude"; Some "latitude" ].

(** The outcome name line 58 picks. *)
Definition outcome_name (joined : DataFrame) : string :=
  if Py.str_in "severity" (columns joined) then "severity" else "casualty_severity".

(** The fields included through [... if ... in joined.columns else None]. *)
Definition optional_fields : list string :=
  [ "sex_of_driver"; "age_band_of_driver"; "vehicle_type";
    "local_authority_(district)"; "police_force";
    "number_of_vehicles"; "number_of_casualties"; "longitude"; "latitude" ].

(** The frame selected from a table with distinct labels, before the
    target rename. *)
Definition selected (joined : DataFrame) (dc : option string) : DataFrame :=
  {| index := index joined;
     data := map (fun l => (l, Pd.column l joined)) (keep_cols joined dc) |}.

(** The partner of left row [i], if any. *)
Definition partner (lkeys rkeys : list Series) (nr i : nat) : option nat :=
  List.find (fun j => bool_decide (Pd.row_key rkeys j = Pd.row_key lkeys i)) (seq 0 nr).

(** The labels shared by two sides. *)
Definition shared (left right : list string) : list string :=
  List.filter (fun l => Py.str_in l right) left.

(** No label of either side is a shared label followed by that side's
    suffix. *)
Definition suffix_free (left right : list string) (suffixes : string * string) : Prop :=
  forall l, In l left -> In l right ->
            ~ In (l +:+ suffixes.1) left /\ ~ In (l +:+ suffixes.2) right.

(** The columns of the collision table that reach the joined table: all
    but the key, which the merge drops in favour of the casualty side. *)
Definition collision_side (acc : DataFrame) : list (string * Series) :=
  Pd.drop_labels [acc_id] acc.

(** The collision row of casualty row [i]: the first collision row with the
    same [accident_index], if any. *)
Definition collision_of (cas acc : DataFrame) (i : nat) : option nat :=
  partner [Pd.column cas_id cas] [Pd.column acc_id acc] (index acc) i.

(** What a collision column contributes to the joined table: per casualty
    row, the cell of its collision row, or a missing value. *)
Definition collision_cells (cas acc : DataFrame) (s : Series) : Series :=
  map (fun i => match collision_of cas acc i with
                | Some j => nth j s NA
                | None => NA
                end) (seq 0 (index cas)).

(** The joined table when every casualty row has at most one partner. *)
Definition joined_frame (cas acc : DataFrame) : DataFrame :=
  let overlap := shared (columns cas) (map fst (collision_side acc)) in
  {| index := index cas;
     data := zip (map (Pd.renamer overlap "_cas") (columns cas)) (map snd (data cas))
             ++ zip (map (Pd.renamer overlap "_acc") (map fst (collision_side acc)))
                    (map (fun c => collision_cells cas acc c.2) (collision_side acc)) |}.

(** [s.endswith(suffix)] *)
Fixpoint ends_with (suffix s : string) : bool :=
  String.eqb s suffix
  || match s with
     | EmptyString => false
     | String _ s' => ends_with suffix s'
     end.

(** The world with [df] stored at [path]. *)
Definition with_file (path : string) (df : DataFrame) (w : world) : world :=
  mkWorld (<[path := df]> (files w)) (stdout w).

(** [main] after its first line: the run once the collision table is
    loaded and normalised as [acc]. *)
Definition main_from (parse_date : Series -> cell -> option date) (acc : DataFrame)
  : IO unit :=
  veh ← normalise_cols <$> read_csv_fast VEH_FILE;
  cas ← normalise_cols <$> read_csv_fast CAS_FILE;
  joined ← lift (joined_of parse_date acc veh cas);
  save joined (date_col_of acc).

(** The columns of the saved table, in order, when every field is present:
    [dc] is the resolved date column. *)
Definition tidy_schema (dc : option string) : list string :=
  omap id (keep_names "severity" dc).

(** The number of rows a left merge yields for left row [i]: one per
    matching right row, and one when nothing matches. *)
Definition rows_for (lkeys rkeys : list Series) (nr i : nat) : nat :=
  Nat.max 1 (length (Pd.matches lkeys rkeys nr i)).

(** The row plan a left merge on [left_on]/[right_on] follows. *)
Definition merge_plan (left right : DataFrame) (left_on right_on : list string)
  : list (nat * option nat) :=
  Pd.left_indexer (map (fun l => Pd.column l left) left_on)
                  (map (fun l => Pd.column l right) right_on)
                  (index left) (index right).

(** * Properties *)

(** ** Schema normaliser *)

Module PyFacts.
Import Py.

Lemma lstrip_starts_clean s : Py.starts_clean (lstrip s) = true.
Proof.
  induction s as [|c s IH]; simpl; [done|].
  destruct (isspace c) eqn:E; [done|]. simpl. by rewrite E.
Qed.

Lemma lstrip_id s : Py.starts_clean s = true -> lstrip s = s.
Proof.
  destruct s as [|c s]; simpl; [done|].
  by destruct (isspace c).
Qed.

Lemma rstrip_ends_clean s : Py.ends_clean (rstrip s) = true.
Proof.
  induction s as [|c s IH]; simpl; [done|].
  destruct (rstrip s) as [|a t] eqn:E.
  - destruct (isspace c) eqn:Ec; simpl; [done|]. by rewrite Ec.
  - exact IH.
Qed.

Lemma rstrip_id s : Py.ends_clean s = true -> rstrip s = s.
Proof.
  induction s as [|c s IH]; simpl; [done|].
  destruct s as [|a t].
  - simpl. intros H. by destruct (isspace c).
  - intros H. by rewrite (IH H).
Qed.

Lemma rstrip_starts_clean s : Py.starts_clean s = true -> Py.starts_clean (rstrip s) = true.
Proof.
  destruct s as [|c s]; simpl; [done|].
  intros H. destruct (rstrip s); [|done].
  destruct (isspace c) eqn:E; simpl in *; [done|]. by rewrite E.
Qed.

Lemma strip_clean s : Py.starts_clean (strip s) = true /\ Py.ends_clean (strip s) = true.
Proof.
  unfold strip. split.
  - apply rstrip_starts_clean, lstrip_starts_clean.
  - apply rstrip_ends_clean.
Qed.

Lemma strip_id s : Py.starts_clean s = true -> Py.ends_clean s = true -> strip s = s.
Proof.
  intros Hs He. unfold strip. rewrite (lstrip_id s Hs). by apply rstrip_id.
Qed.

Section CharMap.
Variable f : ascii -> ascii.
Hypothesis f_keeps_text : forall c, isspace c = false -> isspace (f c) = false.

Lemma map_starts_clean s :
  Py.starts_clean s = true -> Py.starts_clean (map_chars f s) = true.
Proof.
  destruct s as [|c s]; simpl; [done|].
  intros H. apply negb_true_iff in H. by rewrite (f_keeps_text c H).
Qed.

Lemma map_ends_clean s :
  Py.ends_clean s = true -> Py.ends_clean (map_chars f s) = true.
Proof.
  induction s as [|c s IH]; [done|].
  destruct s as [|a t].
  - simpl. intros H. apply negb_true_iff in H. by rewrite (f_keeps_text c H).
  - intros H. change (Py.ends_clean (map_chars f (String a t)) = true).
    by apply IH.
Qed.
End CharMap.

Lemma map_chars_compose f g s :
  map_chars f (map_chars g s) = map_chars (fun c => f (g c)) s.
Proof. induction s as [|c s IH]; simpl; by rewrite ?IH. Qed.

Lemma map_chars_ext f g s :
  (forall c, f c = g c) -> map_chars f s = map_chars g s.
Proof. intros H. induction s as [|c s IH]; simpl; by rewrite ?IH, ?H. Qed.

Lemma lower_char_keeps_text c : isspace c = false -> isspace (lower_char c) = false.
Proof. by_cases_on_char c. Qed.

Lemma underscore_keeps_text c :
  isspace c = false -> isspace (space_to_underscore c) = false.
Proof. by_cases_on_char c. Qed.

Lemma norm_char_idem c :
  space_to_underscore (lower_char (space_to_underscore (lower_char c)))
  = space_to_underscore (lower_char c).
Proof. by_cases_on_char c. Qed.

End PyFacts.

Lemma normalise_name_clean c :
  Py.starts_clean (normalise_name c) = true
  /\ Py.ends_clean (normalise_name c) = true.
Proof.
  unfold normalise_name, Py.replace, Py.lower.
  destruct (PyFacts.strip_clean c) as [Hs He]. split.
  - apply (PyFacts.map_starts_clean _ PyFacts.underscore_keeps_text).
    by apply (PyFacts.map_starts_clean _ PyFacts.lower_char_keeps_text).
  - apply (PyFacts.map_ends_clean _ PyFacts.underscore_keeps_text).
    by apply (PyFacts.map_ends_clean _ PyFacts.lower_char_keeps_text).
Qed.

Lemma normalise_name_idem c : normalise_name (normalise_name c) = normalise_name c.
Proof.
  destruct (normalise_name_clean c) as [Hs He].
  unfold normalise_name at 1. rewrite (PyFacts.strip_id _ Hs He).
  unfold normalise_name, Py.replace, Py.lower.
  rewrite !PyFacts.map_chars_compose.
  apply PyFacts.map_chars_ext. intros a. apply PyFacts.norm_char_idem.
Qed.

Lemma str_in_In x xs : Py.str_in x xs = true <-> In x xs.
Proof.
  unfold Py.str_in. rewrite existsb_exists. split.
  - intros (y & Hy & E). apply String.eqb_eq in E. by subst.
  - intros H. exists x. split; [done|]. apply String.eqb_refl.
Qed.

Lemma str_in_not_In x xs : Py.str_in x xs = false <-> ~ In x xs.
Proof. rewrite <- str_in_In. by destruct (Py.str_in x xs). Qed.

(** A dict comprehension [{c: f(c) for c in cs}] maps each of its keys
    through [f]. *)
Lemma dict_comprehension_lookup (f : string -> string) cs (m : gmap string string) k :
  fold_left (fun m kv => <[kv.1 := kv.2]> m) (map (fun c => (c, f c)) cs) m !! k
  = if Py.str_in k cs then Some (f k) else m !! k.
Proof.
  revert m. induction cs as [|c cs IH]; intros m; simpl; [done|].
  rewrite IH. destruct (Py.str_in k cs); [by rewrite orb_true_r|].
  rewrite orb_false_r. destruct (String.eqb_spec k c) as [->|Hne].
  - by rewrite lookup_insert_eq.
  - by rewrite lookup_insert_ne.
Qed.

Lemma rename_comprehension (f : string -> string) df :
  Pd.rename (Pd.dict_of (map (fun c => (c, f c)) (columns df))) df
  = {| index := index df; data := map (fun c => (f c.1, c.2)) (data df) |}.
Proof.
  unfold Pd.rename, Pd.dict_of. f_equal.
  apply map_ext_in. intros [l s] Hin. simpl.
  rewrite dict_comprehension_lookup, lookup_empty.
  assert (Py.str_in l (columns df) = true) as ->; [|done].
  apply str_in_In. unfold columns. by apply (in_map fst) in Hin.
Qed.

Lemma normalise_cols_eq df :
  normalise_cols df
  = {| index := index df; data := map (fun c => (normalise_name c.1, c.2)) (data df) |}.
Proof. apply rename_comprehension. Qed.

(** C7: normalising the column names of an already normalised frame gives
    the same frame, and normalising keeps the number of rows and the values
    of every column in their order. *)
Theorem normalise_cols_idempotent (df : DataFrame) :
  normalise_cols (normalise_cols df) = normalise_cols df
  /\ index (normalise_cols df) = index df
  /\ map snd (data (normalise_cols df)) = map snd (data df).
Proof.
  rewrite !normalise_cols_eq. simpl. split; [|split]; [|done|].
  - f_equal. rewrite map_map. apply map_ext. intros [l s]. simpl.
    by rewrite normalise_name_idem.
  - rewrite map_map. by apply map_ext.
Qed.

(** ** Column resolver *)

Lemma find_first {A} (p : A -> bool) (l : list A) (c : A) :
  List.find p l = Some c <->
  p c = true /\ exists before after,
      l = before ++ c :: after /\ Forall (fun x => p x = false) before.
Proof.
  induction l as [|a l IH]; simpl.
  - split; [done|]. intros (_ & before & after & E & _). by destruct before.
  - destruct (p a) eqn:Ea.
    + split.
      * intros [= ->]. split; [done|]. by exists [], l.
      * intros (Hc & before & after & E & Hb).
        destruct before as [|b before]; simpl in E.
        -- by injection E as -> _.
        -- injection E as -> _. apply Forall_cons in Hb as [Hb _]. congruence.
    + rewrite IH. split.
      * intros (Hc & before & after & -> & Hb). split; [done|].
        exists (a :: before), after. split; [done|]. by apply Forall_cons.
      * intros (Hc & before & after & E & Hb). split; [done|].
        destruct before as [|b before]; simpl in E.
        -- injection E as -> _. congruence.
        -- injection E as -> ->. apply Forall_cons in Hb as [_ Hb].
           by exists before, after.
Qed.

Lemma find_none_iff {A} (p : A -> bool) (l : list A) :
  List.find p l = None <-> Forall (fun x => p x = false) l.
Proof.
  induction l as [|a l IH]; simpl; [by split|].
  destruct (p a) eqn:Ea.
  - split; [done|]. intros [H _]%Forall_cons. congruence.
  - rewrite IH, Forall_cons. tauto.
Qed.

Lemma is_date_name c :
  Py.str_in c ["date"; "accident_date"] = true <-> c = "date" \/ c = "accident_date".
Proof. rewrite str_in_In. simpl. intuition. Qed.

Lemma no_date_name (l : list string) :
  Forall (fun x => Py.str_in x ["date"; "accident_date"] = false) l
  <-> ~ In "date" l /\ ~ In "accident_date" l.
Proof.
  rewrite Forall_forall. split.
  - intros H. split; intros Hin; apply list_elem_of_In, H in Hin; by vm_compute in Hin.
  - intros [H1 H2] x Hx%list_elem_of_In. apply not_true_iff_false.
    rewrite is_date_name. by intros [->| ->].
Qed.

Lemma date_col_of_name acc c :
  date_col_of acc = Some c -> c = "date" \/ c = "accident_date".
Proof. intros H. apply find_first in H as [H _]. by apply is_date_name. Qed.

Lemma date_col_of_first acc c :
  date_col_of acc = Some c <->
  (c = "date" \/ c = "accident_date")
  /\ exists before after, columns acc = before ++ c :: after
       /\ ~ In "date" before /\ ~ In "accident_date" before.
Proof.
  unfold date_col_of. rewrite find_first, is_date_name.
  split; intros (Hc & before & after & E & Hb); (split; [done|]);
    exists before, after; (split; [done|]); by apply no_date_name.
Qed.

Lemma date_col_of_in acc c : date_col_of acc = Some c -> In c (columns acc).
Proof.
  intros Hc. apply date_col_of_first in Hc as (_ & before & after & -> & _).
  apply in_elt.
Qed.

Lemma date_col_of_none acc :
  date_col_of acc = None
  <-> ~ In "date" (columns acc) /\ ~ In "accident_date" (columns acc).
Proof. unfold date_col_of. by rewrite find_none_iff, no_date_name. Qed.

(** C3 (as the code has it): the date column is the first column of the
    table, in the table's own order, that is called [date] or
    [accident_date]; a table with only one of the two resolves to that one,
    and a table with neither resolves to None. *)
Theorem date_col_of_first_in_table (acc : DataFrame) :
  (forall c, date_col_of acc = Some c <->
     (c = "date" \/ c = "accident_date")
     /\ exists before after, columns acc = before ++ c :: after
          /\ ~ In "date" before /\ ~ In "accident_date" before)
  /\ (In "accident_date" (columns acc) /\ ~ In "date" (columns acc)
      -> date_col_of acc = Some "accident_date")
  /\ (In "date" (columns acc) /\ ~ In "accident_date" (columns acc)
      -> date_col_of acc = Some "date")
  /\ (date_col_of acc = None
      <-> ~ In "date" (columns acc) /\ ~ In "accident_date" (columns acc)).
Proof.
  split; [apply date_col_of_first|].
  split; [|split; [|apply date_col_of_none]].
  - intros [Hacc Hno]. destruct (date_col_of acc) as [c|] eqn:E.
    + destruct (date_col_of_name _ _ E) as [-> | ->]; [|done].
      by apply date_col_of_in in E.
    + apply date_col_of_none in E. tauto.
  - intros [Hd Hno]. destruct (date_col_of acc) as [c|] eqn:E.
    + destruct (date_col_of_name _ _ E) as [-> | ->]; [done|].
      by apply date_col_of_in in E.
    + apply date_col_of_none in E. tauto.
Qed.

(** C3 (as stated) fails: with both spellings present and [accident_date]
    the earlier column, the resolver returns [accident_date], not [date]. *)
Lemma date_col_of_not_by_priority :
  In "date" (columns Sample.both_dates)
  /\ In "accident_date" (columns Sample.both_dates)
  /\ date_col_of Sample.both_dates = Some "accident_date"
  /\ date_col_of Sample.both_dates <> Some "date".
Proof. vm_compute. intuition congruence. Qed.

(** ** Frames: selection, assignment, renaming *)

Section Labels.
Context {V : Type}.
Implicit Types (d : list (string * V)) (l : string).

Lemma with_label_absent l d : ~ In l (map fst d) -> with_label l d = [].
Proof.
  induction d as [|[k v] d IH]; simpl; [done|]. intros H.
  destruct (String.eqb_spec k l) as [->|Hne]; [tauto|]. apply IH. tauto.
Qed.

Lemma with_label_present l d :
  In l (map fst d) -> exists v rest, with_label l d = (l, v) :: rest.
Proof.
  induction d as [|[k v] d IH]; simpl; [done|]. intros H.
  destruct (String.eqb_spec k l) as [->|Hne]; [by eauto|].
  apply IH. by destruct H.
Qed.

Lemma with_label_unique l d :
  NoDup (map fst d) -> In l (map fst d) -> exists v, with_label l d = [(l, v)].
Proof.
  induction d as [|[k v] d IH]; simpl; [done|].
  intros [Hk Hd]%NoDup_cons Hin.
  destruct (String.eqb_spec k l) as [->|Hne].
  - exists v. f_equal. apply with_label_absent.
    by rewrite <- list_elem_of_In.
  - apply IH; [done|]. by destruct Hin.
Qed.

Lemma with_label_fst l d c : In c (with_label l d) -> c.1 = l /\ In c d.
Proof.
  unfold with_label. rewrite filter_In. intros [H E].
  by apply String.eqb_eq in E.
Qed.
End Labels.

Lemma labelled_eq l df : Pd.labelled l df = with_label l (data df).
Proof. done. Qed.

(** With distinct labels, [df[label]] is the one column so labelled. *)
Lemma getitem_unique l df :
  unique_labels df -> In l (columns df) ->
  Pd.labelled l df = [(l, Pd.column l df)] /\ Pd.getitem l df = Ok (Pd.column l df).
Proof.
  intros Hu Hin. unfold Pd.getitem, Pd.column.
  destruct (with_label_unique l (data df) Hu Hin) as [v Hv].
  rewrite labelled_eq, Hv. done.
Qed.

Lemma columns_labelled l df : In l (columns df) -> Pd.labelled l df <> [].
Proof.
  intros Hin. destruct (with_label_present l (data df) Hin) as (v & rest & E).
  by rewrite labelled_eq, E.
Qed.

(** [df[labels]] succeeds exactly when every label is a column. *)
Lemma getitem_list_ok labels df :
  Forall (fun l => In l (columns df)) labels ->
  Pd.getitem_list labels df
  = Ok {| index := index df; data := flat_map (fun l => Pd.labelled l df) labels |}.
Proof.
  intros H. unfold Pd.getitem_list.
  assert (List.find (fun l => negb (Py.str_in l (columns df))) labels = None) as ->; [|done].
  apply find_none_iff. eapply Forall_impl; [exact H|].
  intros l Hl. simpl. apply str_in_In in Hl. by rewrite Hl.
Qed.

Lemma flat_map_labelled_unique labels df :
  unique_labels df -> Forall (fun l => In l (columns df)) labels ->
  flat_map (fun l => Pd.labelled l df) labels
  = map (fun l => (l, Pd.column l df)) labels.
Proof.
  intros Hu. induction 1 as [|l labels Hl _ IH]; simpl; [done|].
  destruct (getitem_unique l df Hu Hl) as [-> _]. by rewrite IH.
Qed.

Lemma in_flat_map_labelled x labels df :
  In x (map fst (flat_map (fun l => Pd.labelled l df) labels))
  <-> In x labels /\ In x (columns df).
Proof.
  rewrite in_map_iff. split.
  - intros (c & <- & Hc). apply in_flat_map in Hc as (l & Hl & Hc).
    apply with_label_fst in Hc as [<- Hc]. split; [done|].
    unfold columns. by apply in_map.
  - intros [Hx Hin].
    destruct (with_label_present x (data df) Hin) as (v & rest & E).
    exists (x, v). split; [done|]. apply in_flat_map. exists x. split; [done|].
    rewrite labelled_eq, E. by left.
Qed.

(** Renaming with a one-entry dict. *)
Lemma rename_one (old new : string) df :
  Pd.rename (Pd.dict_of [(old, new)]) df
  = {| index := index df;
       data := map (fun c => (if String.eqb c.1 old then new else c.1, c.2)) (data df) |}.
Proof.
  unfold Pd.rename, Pd.dict_of. simpl. f_equal. apply map_ext. intros [l s]. simpl.
  destruct (String.eqb_spec l old) as [->|Hne].
  - by rewrite lookup_insert_eq.
  - by rewrite lookup_insert_ne.
Qed.

(** ** Column projector *)

Lemma kept_optional joined c :
  kept joined (if Py.str_in c (columns joined) then Some c else None)
  = kept joined (Some c).
Proof.
  destruct (Py.str_in c (columns joined)) eqn:E; simpl; [done|].
  by rewrite E, andb_false_r.
Qed.

Lemma keep_cols_eq joined dc :
  keep_cols joined dc = omap (kept joined) (keep_names (outcome_name joined) dc).
Proof.
  apply list_omap_ext. unfold keep_candidates, keep_names, outcome_name.
  repeat (apply Forall2_cons_2; [first [reflexivity | apply kept_optional]|]).
  apply Forall2_nil_2.
Qed.

Lemma kept_Some joined c x :
  kept joined c = Some x <-> c = Some x /\ x <> EmptyString /\ In x (columns joined).
Proof.
  destruct c as [s|]; simpl; [|by split; [|intros [? _]]].
  destruct (Py.truthy s) eqn:Et; simpl.
  - destruct (Py.str_in s (columns joined)) eqn:Ei.
    + apply str_in_In in Ei. split.
      * intros [= ->]. by destruct x.
      * by intros ([= ->] & _ & _).
    + apply str_in_not_In in Ei. split; [done|]. by intros ([= ->] & _ & ?).
  - destruct s; [|done]. split; [done|]. by intros ([= <-] & ? & _).
Qed.

Lemma in_keep_cols joined dc x :
  In x (keep_cols joined dc)
  <-> In (Some x) (keep_names (outcome_name joined) dc)
      /\ x <> EmptyString /\ In x (columns joined).
Proof.
  rewrite keep_cols_eq. split.
  - intros H%list_elem_of_In%list_elem_of_omap.
    destruct H as (c & Hc%list_elem_of_In & Hk).
    by apply kept_Some in Hk as (-> & ? & ?).
  - intros (Hc & Hx & Hin). apply list_elem_of_In, list_elem_of_omap.
    exists (Some x). split; [by apply list_elem_of_In|]. by apply kept_Some.
Qed.

Lemma keep_cols_present joined dc :
  Forall (fun l => In l (columns joined)) (keep_cols joined dc).
Proof.
  apply Forall_forall. intros x Hx%list_elem_of_In%in_keep_cols. tauto.
Qed.

Lemma omap_kept_sublist joined (l : list (option string)) :
  sublist (omap (kept joined) l) (omap id l).
Proof.
  induction l as [|[s|] l IH]; simpl; [done| |done].
  destruct (Py.truthy s && Py.str_in s (columns joined)).
  - by apply sublist_skip.
  - by apply sublist_cons.
Qed.

(** The selectable names are distinct whichever outcome name and date
    column the table resolves to. *)
Lemma keep_names_NoDup joined acc :
  NoDup (omap id (keep_names (outcome_name joined) (date_col_of acc))).
Proof.
  unfold outcome_name.
  destruct (date_col_of acc) as [c|] eqn:E.
  - apply date_col_of_name in E as [-> | ->];
      destruct (Py.str_in "severity" (columns joined));
      apply (bool_decide_unpack _); by vm_compute.
  - destruct (Py.str_in "severity" (columns joined));
      apply (bool_decide_unpack _); by vm_compute.
Qed.

Lemma keep_cols_NoDup joined acc : NoDup (keep_cols joined (date_col_of acc)).
Proof.
  rewrite keep_cols_eq.
  eapply sublist_NoDup; [apply keep_names_NoDup | apply omap_kept_sublist].
Qed.

(** The projection never raises: every kept name is a column. *)
Lemma project_ok joined dc :
  Pd.getitem_list (keep_cols joined dc) joined
  = Ok {| index := index joined;
          data := flat_map (fun l => Pd.labelled l joined) (keep_cols joined dc) |}.
Proof. apply getitem_list_ok, keep_cols_present. Qed.

Lemma project_unique joined dc :
  unique_labels joined ->
  Pd.getitem_list (keep_cols joined dc) joined
  = Ok {| index := index joined;
          data := map (fun l => (l, Pd.column l joined)) (keep_cols joined dc) |}.
Proof.
  intros Hu. rewrite project_ok. do 2 f_equal.
  apply flat_map_labelled_unique; [done | apply keep_cols_present].
Qed.

Section LabelMaps.
Context {V : Type}.
Implicit Types (d : list (string * V)) (ks : list string).

Lemma with_label_app l d1 d2 :
  with_label l (d1 ++ d2) = with_label l d1 ++ with_label l d2.
Proof. apply List.filter_app. Qed.

Lemma with_label_twice l l' d :
  with_label l (with_label l' d) = if String.eqb l' l then with_label l d else [].
Proof.
  unfold with_label. induction d as [|[k v] d IH]; simpl.
  - by destruct (String.eqb l' l).
  - destruct (String.eqb_spec k l') as [E1|E1]; simpl; rewrite IH;
      destruct (String.eqb_spec l' l) as [E2|E2];
      destruct (String.eqb_spec k l) as [E3|E3]; simpl; congruence.
Qed.

(** Selecting distinct labels keeps, for each selected label, exactly the
    columns that carried it. *)
Lemma with_label_select l d ks :
  NoDup ks ->
  with_label l (flat_map (fun k => with_label k d) ks)
  = if Py.str_in l ks then with_label l d else [].
Proof.
  induction 1 as [|k ks Hk Hks IH]; simpl; [done|].
  rewrite with_label_app, with_label_twice, IH.
  destruct (String.eqb_spec l k) as [->|Hne]; simpl.
  - rewrite String.eqb_refl.
    assert (Py.str_in k ks = false) as ->; [|by rewrite app_nil_r].
    apply str_in_not_In. by rewrite <- list_elem_of_In.
  - destruct (String.eqb_spec k l); [congruence|done].
Qed.

Lemma with_label_rename l old new d :
  l <> old -> l <> new ->
  with_label l (map (fun c => (if String.eqb c.1 old then new else c.1, c.2)) d)
  = with_label l d.
Proof.
  intros Ho Hn. induction d as [|[k v] d IH]; simpl; [done|]. rewrite IH.
  destruct (String.eqb_spec k old) as [->|Hne].
  - destruct (String.eqb_spec new l); [congruence|].
    destruct (String.eqb_spec old l); [congruence|done].
  - done.
Qed.

(** In a list of columns built from distinct keys, the columns labelled
    [x] come from the one key that [f] sends to [x]. *)
Lemma with_label_map_one (f : string -> string) (g : string -> V) ks x k0 :
  NoDup ks -> In k0 ks -> f k0 = x ->
  (forall k, In k ks -> f k = x -> k = k0) ->
  with_label x (map (fun l => (f l, g l)) ks) = [(x, g k0)].
Proof.
  induction 1 as [|k ks Hk Hks IH]; simpl; [done|].
  intros Hin Hx Hone. rewrite list_elem_of_In in Hk.
  destruct (String.eqb_spec (f k) x) as [E|Hne].
  - assert (k = k0) as -> by (apply Hone; auto).
    rewrite Hx. f_equal. apply with_label_absent.
    rewrite map_map. simpl. intros (k & Ek & Hk')%in_map_iff.
    assert (k = k0) as -> by (apply Hone; auto). done.
  - destruct Hin as [->|Hin]; [done|]. apply IH; auto.
Qed.
End LabelMaps.

Lemma In_decide (x : option string) (l : list (option string)) :
  In x l -> bool_decide (x ∈ l) = true.
Proof. intros H. apply bool_decide_eq_true. by apply list_elem_of_In. Qed.

(** Neither spelling of the outcome is selectable under the other one's
    name, and the date column is never an outcome column. *)
Lemma keep_names_outcome acc sev x :
  In sev ["severity"; "casualty_severity"] ->
  In x ["severity"; "casualty_severity"] ->
  In (Some x) (keep_names sev (date_col_of acc)) -> x = sev.
Proof.
  intros Hs Hx Hin. apply In_decide in Hin.
  destruct (date_col_of acc) as [c|] eqn:E.
  - apply date_col_of_name in E.
    simpl in Hs, Hx.
    destruct E as [-> | ->], Hs as [<-|[<-|[]]], Hx as [<-|[<-|[]]];
      first [done | by vm_compute in Hin].
  - simpl in Hs, Hx.
    destruct Hs as [<-|[<-|[]]], Hx as [<-|[<-|[]]];
      first [done | by vm_compute in Hin].
Qed.

Lemma keep_names_has_outcome sev dc : In (Some sev) (keep_names sev dc).
Proof. simpl. tauto. Qed.

Lemma outcome_name_cases joined :
  In (outcome_name joined) ["severity"; "casualty_severity"].
Proof. unfold outcome_name. destruct (Py.str_in _ _); simpl; tauto. Qed.

Lemma save_ok joined dc tidy w :
  tidy_of joined dc = Ok tidy -> NoDup (columns tidy) ->
  save joined dc w
  = (mkWorld (<[out_path := tidy]> (files w))
             (stdout w ++ [(out_path, index tidy, length (columns tidy))]),
     Ok tt).
Proof.
  intros Ht Hn. unfold save, mbind, IO_bind, lift, to_parquet, print_saved.
  rewrite Ht. unfold Pd.parquet_writable. by rewrite bool_decide_eq_true_2.
Qed.

Lemma standardise_target_skip tidy :
  ~ In "casualty_severity" (columns tidy) \/ In "severity" (columns tidy) ->
  standardise_target tidy = tidy.
Proof.
  intros H. unfold standardise_target.
  destruct H as [H%str_in_not_In | H%str_in_In]; rewrite H; [done|].
  by rewrite andb_false_r.
Qed.

Lemma standardise_target_rename tidy :
  In "casualty_severity" (columns tidy) -> ~ In "severity" (columns tidy) ->
  standardise_target tidy
  = {| index := index tidy;
       data := map (fun c => (if String.eqb c.1 "casualty_severity"
                              then "severity" else c.1, c.2)) (data tidy) |}.
Proof.
  intros H1%str_in_In H2%str_in_not_In. unfold standardise_target.
  rewrite H1, H2. apply rename_one.
Qed.

Lemma columns_selected joined dc : columns (selected joined dc) = keep_cols joined dc.
Proof. unfold columns, selected. simpl. rewrite map_map. apply map_id. Qed.

Lemma tidy_of_unique joined dc :
  unique_labels joined ->
  tidy_of joined dc = Ok (standardise_target (selected joined dc)).
Proof. intros Hu. unfold tidy_of. by rewrite project_unique. Qed.

(** With distinct labels in the joined table the outcome column is saved
    once, as [severity]. *)
Lemma severity_saved_once (acc joined : DataFrame) (w : world) :
  unique_labels joined ->
  In "severity" (columns joined) \/ In "casualty_severity" (columns joined) ->
  exists tidy,
    tidy_of joined (date_col_of acc) = Ok tidy
    /\ save joined (date_col_of acc) w
       = (mkWorld (<[out_path := tidy]> (files w))
                  (stdout w ++ [(out_path, index tidy, length (columns tidy))]),
          Ok tt)
    /\ Pd.labelled "severity" tidy
       = [("severity", Pd.column (outcome_name joined) joined)]
    /\ ~ In "casualty_severity" (columns tidy).
Proof.
  intros Hu Hsev.
  pose proof (keep_cols_NoDup joined acc) as Hnd.
  pose proof (tidy_of_unique joined (date_col_of acc) Hu) as Ht.
  pose proof (columns_selected joined (date_col_of acc)) as Hcols.
  assert (In (outcome_name joined) (keep_cols joined (date_col_of acc))) as Hin.
  { apply in_keep_cols. split; [apply keep_names_has_outcome|].
    unfold outcome_name.
    destruct (Py.str_in "severity" (columns joined)) eqn:E.
    - apply str_in_In in E. done.
    - apply str_in_not_In in E. split; [done|]. tauto. }
  assert (forall x, In x ["severity"; "casualty_severity"] ->
                    In x (keep_cols joined (date_col_of acc)) ->
                    x = outcome_name joined) as Honly.
  { intros x Hx [Hk _]%in_keep_cols.
    eapply keep_names_outcome; [apply outcome_name_cases|done|done]. }
  destruct (Py.str_in "severity" (columns joined)) eqn:E.
  - (* the table already says [severity]: nothing to rename *)
    assert (outcome_name joined = "severity") as Eo by (unfold outcome_name; by rewrite E).
    rewrite Eo in *.
    assert (~ In "casualty_severity" (keep_cols joined (date_col_of acc))) as Hno.
    { intros Hc. apply Honly in Hc; [done|simpl; tauto]. }
    rewrite standardise_target_skip in Ht by (rewrite Hcols; tauto).
    exists (selected joined (date_col_of acc)).
    split; [done|]. split; [|split].
    + apply save_ok; [done|]. by rewrite Hcols.
    + rewrite labelled_eq. simpl.
      apply (with_label_map_one (fun l => l) (fun l => Pd.column l joined)); auto.
    + by rewrite Hcols.
  - (* only [casualty_severity]: renamed *)
    assert (outcome_name joined = "casualty_severity") as Eo
      by (unfold outcome_name; by rewrite E).
    rewrite Eo in *.
    assert (~ In "severity" (keep_cols joined (date_col_of acc))) as Hno.
    { intros Hc. apply Honly in Hc; [done|simpl; tauto]. }
    rewrite standardise_target_rename in Ht by (rewrite Hcols; tauto).
    eexists. split; [exact Ht|].
    set (f := fun l : string => if String.eqb l "casualty_severity" then "severity" else l).
    assert (forall l, f l = "casualty_severity" -> False) as Hf.
    { intros l. unfold f. destruct (String.eqb_spec l "casualty_severity"); [done|done]. }
    assert (map (fun c : string * Series =>
                   (if String.eqb c.1 "casualty_severity" then "severity" else c.1, c.2))
                (data (selected joined (date_col_of acc)))
            = map (fun l => (f l, Pd.column l joined)) (keep_cols joined (date_col_of acc)))
      as Hdata.
    { unfold selected. simpl. by rewrite map_map. }
    rewrite Hdata.
    assert (columns {| index := index (selected joined (date_col_of acc));
                       data := map (fun l => (f l, Pd.column l joined))
                                   (keep_cols joined (date_col_of acc)) |}
            = map f (keep_cols joined (date_col_of acc))) as Hc.
    { unfold columns. simpl. by rewrite map_map. }
    split; [|split].
    + apply save_ok; [by rewrite Ht, Hdata|]. rewrite Hc.
      apply (NoDup_fmap_2_strong f); [|done].
      intros x y Hx%list_elem_of_In Hy%list_elem_of_In. unfold f.
      destruct (String.eqb_spec x "casualty_severity") as [->|Hx'],
               (String.eqb_spec y "casualty_severity") as [->|Hy']; congruence.
    + rewrite labelled_eq. simpl.
      apply (with_label_map_one f (fun l => Pd.column l joined)); auto.
      intros k Hk. unfold f.
      destruct (String.eqb_spec k "casualty_severity") as [->|Hk']; [done|].
      intros ->. done.
    + rewrite Hc. intros (l & El & _)%in_map_iff. by apply Hf in El.
Qed.

Lemma labelled_nonempty l df : In l (columns df) <-> Pd.labelled l df <> [].
Proof.
  split; [apply columns_labelled|]. intros H.
  destruct (Pd.labelled l df) as [|c rest] eqn:E; [done|].
  assert (In c (Pd.labelled l df)) as Hc by (rewrite E; by left).
  apply with_label_fst in Hc as [<- Hc]. unfold columns. by apply in_map.
Qed.

Lemma labelled_standardise_target f tidy :
  f <> "casualty_severity" -> f <> "severity" ->
  Pd.labelled f (standardise_target tidy) = Pd.labelled f tidy.
Proof.
  intros H1 H2. unfold standardise_target.
  destruct (_ && _); [|done].
  rewrite rename_one, !labelled_eq. simpl. by apply with_label_rename.
Qed.

Lemma optional_field_selectable f sev dc :
  In f optional_fields ->
  In (Some f) (keep_names sev dc)
  /\ f <> EmptyString /\ f <> "casualty_severity" /\ f <> "severity".
Proof.
  unfold optional_fields. simpl.
  intros H. repeat (destruct H as [<-|H]; [by repeat split; auto 25|]). done.
Qed.

(** An optional field keeps, in the projected table, exactly the columns it
    had in the joined table: none when the joined table had none. *)
Lemma optional_field_projected acc joined f :
  In f optional_fields ->
  Pd.labelled f (standardise_target
                   {| index := index joined;
                      data := flat_map (fun l => Pd.labelled l joined)
                                       (keep_cols joined (date_col_of acc)) |})
  = Pd.labelled f joined.
Proof.
  intros Hf.
  destruct (optional_field_selectable f (outcome_name joined) (date_col_of acc) Hf)
    as (Hsel & Hne & H1 & H2).
  rewrite labelled_standardise_target by done.
  rewrite !labelled_eq. simpl.
  change (fun l => Pd.labelled l joined) with (fun l => with_label l (data joined)).
  rewrite with_label_select by apply keep_cols_NoDup.
  destruct (Py.str_in f (keep_cols joined (date_col_of acc))) eqn:E; [done|].
  symmetry. apply with_label_absent. intros Hin.
  apply str_in_not_In in E. apply E, in_keep_cols. done.
Qed.

(** ** Join engine *)

(** When the keys of the right rows are distinct, a left row has at most
    one partner: the first right row with its key. *)
Lemma filter_unique_key {K} `{EqDecision K} (f : nat -> K) (k : K) (js : list nat) :
  NoDup (map f js) ->
  List.filter (fun j => bool_decide (f j = k)) js
  = match List.find (fun j => bool_decide (f j = k)) js with
    | Some j => [j]
    | None => []
    end.
Proof.
  induction js as [|j js IH]; simpl; [done|].
  intros [Hj Hjs]%NoDup_cons.
  destruct (bool_decide (f j = k)) eqn:E.
  - f_equal. apply bool_decide_eq_true in E.
    rewrite IH by done.
    destruct (List.find _ js) as [j'|] eqn:E'; [|done].
    apply find_some in E' as [Hin E']. apply bool_decide_eq_true in E'.
    exfalso. apply Hj. rewrite E, <- E'. apply list_elem_of_In.
    by apply in_map.
  - by apply IH.
Qed.

Lemma left_indexer_unique lkeys rkeys nl nr :
  NoDup (map (Pd.row_key rkeys) (seq 0 nr)) ->
  Pd.left_indexer lkeys rkeys nl nr
  = map (fun i => (i, partner lkeys rkeys nr i)) (seq 0 nl).
Proof.
  intros Hu. unfold Pd.left_indexer.
  rewrite (flat_map_ext _ (fun i => [(i, partner lkeys rkeys nr i)])).
  - induction (seq 0 nl) as [|i rest IH]; simpl; by rewrite ?IH.
  - intros i. unfold Pd.matches, partner.
    rewrite (filter_unique_key (Pd.row_key rkeys)) by done.
    by destruct (List.find _ _).
Qed.

Lemma map_nth_seq (s : Series) : map (fun i => nth i s NA) (seq 0 (length s)) = s.
Proof.
  induction s as [|c s IH]; simpl; [done|].
  f_equal. by rewrite <- seq_shift, map_map.
Qed.

Lemma take_left_plan (p : nat -> option nat) (s : Series) :
  Pd.take_left (map (fun i => (i, p i)) (seq 0 (length s))) s = s.
Proof. unfold Pd.take_left. rewrite map_map. simpl. apply map_nth_seq. Qed.

Lemma take_right_plan (p : nat -> option nat) n (s : Series) :
  Pd.take_right (map (fun i => (i, p i)) (seq 0 n)) s
  = map (fun i => match p i with Some j => nth j s NA | None => NA end) (seq 0 n).
Proof. unfold Pd.take_right. by rewrite map_map. Qed.

Lemma zip_fst_snd {A B} (l : list (A * B)) : zip (map fst l) (map snd l) = l.
Proof. induction l as [|[a b] l IH]; simpl; by rewrite ?IH. Qed.

Lemma take_left_aligned (p : nat -> option nat) df :
  aligned df ->
  map (fun c : string * Series =>
         Pd.take_left (map (fun i => (i, p i)) (seq 0 (index df))) c.2) (data df)
  = map snd (data df).
Proof.
  intros Ha. apply map_ext_in. intros c Hc.
  unfold aligned in Ha. rewrite Forall_forall in Ha.
  rewrite <- (Ha c) by (by apply list_elem_of_In).
  apply take_left_plan.
Qed.

Lemma get_merge_keys_same left right (on : list string) :
  unique_labels left -> unique_labels right ->
  Forall (fun l => In l (columns left) /\ In l (columns right)) on ->
  Pd.get_merge_keys left right on on
  = Ok (map (fun l => Pd.column l left) on, map (fun l => Pd.column l right) on, on).
Proof.
  intros Hl Hr Hon. unfold Pd.get_merge_keys.
  assert (mapM_result (fun lr : string * string =>
                         rk ← Pd.getitem lr.2 right;
                         lk ← Pd.getitem lr.1 left;
                         Ok (lk, rk)) (zip on on)
          = Ok (map (fun l => (Pd.column l left, Pd.column l right)) on)) as ->.
  { induction Hon as [|l on [Hinl Hinr] _ IH]; simpl; [done|].
    destruct (getitem_unique _ _ Hl Hinl) as [_ ->].
    destruct (getitem_unique _ _ Hr Hinr) as [_ ->].
    simpl. by rewrite IH. }
  simpl. rewrite !map_map. simpl. do 2 f_equal.
  clear. induction on as [|l on IH]; simpl; [done|].
  rewrite String.eqb_refl. simpl. by rewrite IH.
Qed.

Lemma filter_none {A} (p : A -> bool) (l : list A) :
  (forall x, In x l -> p x = false) -> List.filter p l = [].
Proof.
  induction l as [|a l IH]; simpl; [done|]. intros H.
  rewrite (H a) by auto. apply IH. auto.
Qed.

Lemma items_overlap_disjoint (left right : list string) suffixes :
  (forall l, In l left -> ~ In l right) ->
  Pd.items_overlap_with_suffix left right suffixes = Ok (left, right).
Proof.
  intros H. unfold Pd.items_overlap_with_suffix.
  rewrite filter_none; [done|]. intros l Hl. by apply str_in_not_In, H.
Qed.

(** A frame whose columns are aligned and whose row plan is the identity
    is rebuilt as it was. *)
Lemma rebuild_left (p : nat -> option nat) df :
  aligned df ->
  zip (columns df)
      (map (fun c : string * Series =>
              Pd.take_left (map (fun i => (i, p i)) (seq 0 (index df))) c.2) (data df))
  = data df.
Proof. intros Ha. rewrite take_left_aligned by done. apply zip_fst_snd. Qed.

(** *** Key dtypes *)

Lemma coerce_keys_ok (lkeys rkeys : list Series) :
  Forall2 (fun lk rk => Pd.mergeable lk rk = true) lkeys rkeys ->
  Pd.maybe_coerce_merge_keys lkeys rkeys = Ok tt.
Proof.
  intros H. unfold Pd.maybe_coerce_merge_keys.
  assert (forallb (fun p : Series * Series => Pd.mergeable p.1 p.2) (zip lkeys rkeys)
          = true) as ->; [|done].
  induction H as [|lk rk lkeys rkeys E _ IH]; simpl; [done|]. by rewrite E, IH.
Qed.

Lemma coerce_keys_checked (lkeys rkeys : list Series) u :
  length lkeys = length rkeys ->
  Pd.maybe_coerce_merge_keys lkeys rkeys = Ok u ->
  Forall2 (fun lk rk => Pd.mergeable lk rk = true) lkeys rkeys.
Proof.
  unfold Pd.maybe_coerce_merge_keys. intros Hlen.
  destruct (forallb _ _) eqn:E; [|done]. intros _.
  revert rkeys Hlen E. induction lkeys as [|lk lkeys IH]; intros [|rk rkeys]; try done.
  simpl. intros [= Hlen] [E1 E2]%andb_true_iff. constructor; [done|by apply IH].
Qed.

(** *** The vehicle join *)

(** With distinct vehicle keys the first merge returns the casualty frame
    as it was: the right side brings only its two key columns and both are
    dropped as duplicates of the left keys. *)
Lemma join_vehicles_unique cas veh :
  unique_labels cas -> unique_labels veh -> aligned cas ->
  In cas_id (columns cas) -> In cas_ref (columns cas) ->
  In veh_id (columns veh) -> In veh_ref (columns veh) ->
  Pd.mergeable (Pd.column cas_id cas) (Pd.column veh_id veh) = true ->
  Pd.mergeable (Pd.column cas_ref cas) (Pd.column veh_ref veh) = true ->
  NoDup (Pd.key_rows [veh_id; veh_ref] veh) ->
  join_vehicles cas veh = Ok cas.
Proof.
  intros Hc Hv Ha Hci Hcr Hvi Hvr Hmi Hmr Hk.
  unfold join_vehicles.
  rewrite getitem_list_ok by (repeat constructor; done).
  rewrite flat_map_labelled_unique by (try done; repeat constructor; done).
  set (vk := {| index := index veh;
                data := map (fun l => (l, Pd.column l veh)) [veh_id; veh_ref] |}).
  change (Ok vk ≫= _)
    with (Pd.merge_left cas vk [cas_id; cas_ref] [cas_id; cas_ref] ("", "")).
  unfold Pd.merge_left.
  rewrite get_merge_keys_same; [|done| |].
  - change (Ok ?x ≫= ?k) with (k x). cbv beta iota.
    change (map (fun l => Pd.column l vk) [cas_id; cas_ref])
      with (map (fun l => Pd.column l veh) [veh_id; veh_ref]).
    rewrite coerce_keys_ok by (repeat constructor; done).
    change (Ok ?x ≫= ?k) with (k x). cbv beta iota.
    change (Pd.drop_labels [cas_id; cas_ref] vk) with (@nil (string * Series)).
    rewrite items_overlap_disjoint by (intros l _ []).
    change (Ok ?x ≫= ?k) with (k x). cbv beta iota.
    rewrite left_indexer_unique by exact Hk.
    rewrite length_map, length_seq. simpl app. rewrite app_nil_r.
    rewrite rebuild_left by done. by destruct cas.
  - apply (bool_decide_unpack _). by vm_compute.
  - repeat constructor; simpl; tauto.
Qed.


(** *** Suffixes *)

Lemma length_append (x y : string) :
  String.length (x +:+ y) = String.length x + String.length y.
Proof. induction x as [|c x IH]; simpl; by rewrite ?IH. Qed.

Lemma append_inj_r (x y s : string) : x +:+ s = y +:+ s -> x = y.
Proof.
  revert y. induction x as [|c x IH]; intros [|c' y] E; simpl in E.
  - done.
  - apply (f_equal String.length) in E. rewrite !length_append in E. simpl in E. lia.
  - apply (f_equal String.length) in E. rewrite !length_append in E. simpl in E. lia.
  - injection E as -> E. f_equal. by apply IH.
Qed.

(** Renaming is one-to-one on a side none of whose labels is a shared label
    followed by the suffix. *)
Lemma renamer_inj (to_rename side : list string) (suffix x y : string) :
  (forall l, In l to_rename -> ~ In (l +:+ suffix) side) ->
  In x side -> In y side ->
  Pd.renamer to_rename suffix x = Pd.renamer to_rename suffix y -> x = y.
Proof.
  intros Hfree Hx Hy. unfold Pd.renamer.
  destruct (Py.str_in x to_rename) eqn:Ex, (Py.str_in y to_rename) eqn:Ey;
    rewrite ?str_in_In in *; intros E.
  - by apply append_inj_r in E.
  - exfalso. apply (Hfree x Ex). by rewrite E.
  - exfalso. apply (Hfree y Ey). by rewrite <- E.
  - done.
Qed.

Lemma suffix_dups_none (f : string -> string) (seen old : list string) :
  NoDup (seen ++ old) ->
  (forall x y, In x (seen ++ old) -> In y (seen ++ old) -> f x = f y -> x = y) ->
  Pd.suffix_dups seen (map f seen) old (map f old) = false.
Proof.
  revert seen. induction old as [|o old IH]; intros seen Hnd Hinj; simpl; [done|].
  assert (Permutation (seen ++ o :: old) ((o :: seen) ++ old)) as Hp.
  { simpl. symmetry. apply Permutation_middle. }
  pose proof (IH (o :: seen)) as IH'. simpl in IH'. rewrite IH'.
  - rewrite orb_false_r. apply andb_false_intro1, str_in_not_In.
    intros (s & Es & Hs)%in_map_iff.
    assert (s = o) as ->.
    { apply Hinj; [apply in_or_app; by left | apply in_elt | done]. }
    apply NoDup_app in Hnd as (_ & Hdis & _).
    apply (Hdis o); [by apply list_elem_of_In | by left].
  - by rewrite <- Hp.
  - intros x y Hx Hy. apply Hinj.
    + apply list_elem_of_In. rewrite Hp. by apply list_elem_of_In.
    + apply list_elem_of_In. rewrite Hp. by apply list_elem_of_In.
Qed.

Lemma in_shared left right l : In l (shared left right) <-> In l left /\ In l right.
Proof. unfold shared. by rewrite filter_In, str_in_In. Qed.

Lemma items_overlap_suffixed (left right : list string) (suffixes : string * string) :
  NoDup left -> NoDup right ->
  Py.truthy suffixes.1 = true \/ Py.truthy suffixes.2 = true ->
  suffix_free left right suffixes ->
  Pd.items_overlap_with_suffix left right suffixes
  = Ok (map (Pd.renamer (shared left right) suffixes.1) left,
        map (Pd.renamer (shared left right) suffixes.2) right).
Proof.
  intros Hl Hr Ht Hfree. unfold Pd.items_overlap_with_suffix.
  fold (shared left right).
  destruct (shared left right) as [|l0 tr] eqn:E.
  - f_equal. f_equal; symmetry; apply map_id.
  - rewrite <- E.
    assert (negb (Py.truthy suffixes.1) && negb (Py.truthy suffixes.2) = false) as ->.
    { destruct Ht as [-> | ->]; [done|]. by rewrite andb_false_r. }
    pose proof (suffix_dups_none (Pd.renamer (shared left right) suffixes.1) [] left) as Hdl.
    pose proof (suffix_dups_none (Pd.renamer (shared left right) suffixes.2) [] right) as Hdr.
    simpl in Hdl, Hdr. rewrite Hdl, Hdr; try done.
    + intros x y Hx Hy. apply (renamer_inj _ right); [|done|done].
      intros l [Hll Hlr]%in_shared. by apply Hfree.
    + intros x y Hx Hy. apply (renamer_inj _ left); [|done|done].
      intros l [Hll Hlr]%in_shared. by apply Hfree.
Qed.

(** *** The collision join *)

Lemma NoDup_filter_labels {V} (p : string * V -> bool) (d : list (string * V)) :
  NoDup (map fst d) -> NoDup (map fst (List.filter p d)).
Proof.
  induction d as [|c d IH]; simpl; [done|].
  intros [Hc Hd]%NoDup_cons. destruct (p c); simpl; [|by apply IH].
  apply NoDup_cons. split; [|by apply IH].
  rewrite list_elem_of_In in *. intros (c' & E & Hin)%in_map_iff.
  apply filter_In in Hin as [Hin _]. apply Hc. rewrite <- E. by apply in_map.
Qed.

Lemma join_accidents_unique cas acc :
  unique_labels cas -> unique_labels acc -> aligned cas ->
  In cas_id (columns cas) -> In acc_id (columns acc) ->
  Pd.mergeable (Pd.column cas_id cas) (Pd.column acc_id acc) = true ->
  suffix_free (columns cas) (map fst (collision_side acc)) ("_cas", "_acc") ->
  NoDup (Pd.key_rows [acc_id] acc) ->
  join_accidents cas acc = Ok (joined_frame cas acc).
Proof.
  intros Hc Hacc Ha Hci Hai Hm Hfree Hk.
  unfold join_accidents, Pd.merge_left.
  change [acc_id] with [cas_id].
  rewrite get_merge_keys_same; [|done|done|by repeat constructor].
  change (Ok ?x ≫= ?k) with (k x). cbv beta iota.
  rewrite coerce_keys_ok by (repeat constructor; done).
  change (Ok ?x ≫= ?k) with (k x). cbv beta iota.
  fold (collision_side acc).
  rewrite items_overlap_suffixed;
    [|done|by apply NoDup_filter_labels|by left|done].
  change (Ok ?x ≫= ?k) with (k x). cbv beta iota.
  rewrite left_indexer_unique by exact Hk.
  rewrite length_map, length_seq.
  rewrite take_left_aligned by done.
  unfold joined_frame. do 4 f_equal.
  apply map_ext. intros c. apply take_right_plan.
Qed.

Lemma nth_map_seq {A} (g : nat -> A) (d : A) n i :
  i < n -> nth i (map g (seq 0 n)) d = g i.
Proof.
  intros Hi. rewrite (nth_indep _ d (g 0)) by (by rewrite length_map, length_seq).
  rewrite (map_nth g). by rewrite seq_nth.
Qed.


(** ** Where the labels of the joined table come from *)

Lemma append_cons c (x y : string) : String c x +:+ y = String c (x +:+ y).
Proof. reflexivity. Qed.

Lemma append_nil (y : string) : "" +:+ y = y.
Proof. reflexivity. Qed.

Lemma ends_with_append (y suffix : string) : ends_with suffix (y +:+ suffix) = true.
Proof.
  induction y as [|c y IH].
  - rewrite append_nil. destruct suffix; unfold ends_with; by rewrite String.eqb_refl.
  - rewrite append_cons. simpl. by rewrite IH, orb_true_r.
Qed.

Lemma append_empty_r (y : string) : y +:+ "" = y.
Proof.
  induction y as [|c y IH]; [done|]. by rewrite append_cons, IH.
Qed.

Lemma setitem_columns label s df x :
  In x (columns (Pd.setitem label s df)) -> In x (columns df) \/ x = label.
Proof.
  unfold columns, Pd.setitem. simpl. fold (columns df).
  destruct (Py.str_in label (columns df)).
  - rewrite map_map. intros (c & <- & Hc)%in_map_iff. left.
    destruct (String.eqb c.1 label); simpl; unfold columns; by apply in_map.
  - rewrite map_app, in_app_iff. simpl. intros [H|[->|[]]]; auto.
Qed.

Section Origins.
Variable parse_date : Series -> cell -> option date.

Lemma fix_dates_columns acc acc' x :
  fix_dates parse_date (date_col_of acc) acc = Ok acc' ->
  In x (columns acc') -> In x (columns acc) \/ x = "year" \/ x = "month".
Proof.
  unfold fix_dates. destruct (date_col_of acc) as [dc|] eqn:Edc.
  - apply date_col_of_in in Edc.
    destruct (Py.truthy dc); [|intros [= <-]; tauto].
    destruct (Pd.getitem dc acc) as [s|e]; [|done]. simpl.
    destruct (Pd.getitem dc _) as [s1|e]; [|done]. simpl.
    destruct (Pd.getitem dc _) as [s2|e]; [|done]. simpl.
    intros [= <-] H.
    apply setitem_columns in H as [H| ->]; [|tauto].
    apply setitem_columns in H as [H| ->]; [|tauto].
    apply setitem_columns in H as [H| ->]; tauto.
  - intros [= <-]. tauto.
Qed.
End Origins.

Lemma in_zip_fst {A B} (x : A) (l : list A) (k : list B) :
  In x (map fst (zip l k)) -> In x l.
Proof.
  revert k. induction l as [|a l IH]; intros [|b k]; simpl; try done.
  intros [->|H]; [by left|right; by eapply IH].
Qed.

Lemma items_overlap_labels left right suffixes ll rl :
  Pd.items_overlap_with_suffix left right suffixes = Ok (ll, rl) ->
  (forall x, In x ll -> exists y, In y left /\ (x = y \/ x = y +:+ suffixes.1))
  /\ (forall x, In x rl -> exists y, In y right /\ (x = y \/ x = y +:+ suffixes.2)).
Proof.
  unfold Pd.items_overlap_with_suffix.
  destruct (List.filter _ left) as [|l0 tr].
  - intros [= <- <-]. split; intros x Hx; exists x; tauto.
  - destruct (_ && _); [done|]. destruct (_ || _); [done|].
    intros [= <- <-].
    split; intros x (y & <- & Hy)%in_map_iff; exists y; (split; [done|]);
      unfold Pd.renamer; destruct (Py.str_in y _); tauto.
Qed.

(** Every label of a merge result is a label of one side, possibly with
    that side's suffix. *)
Lemma merge_left_columns left right left_on right_on suffixes out x :
  Pd.merge_left left right left_on right_on suffixes = Ok out ->
  In x (columns out) ->
  (exists y, In y (columns left) /\ (x = y \/ x = y +:+ suffixes.1))
  \/ (exists y, In y (columns right) /\ (x = y \/ x = y +:+ suffixes.2)).
Proof.
  unfold Pd.merge_left.
  destruct (Pd.get_merge_keys _ _ _ _) as [[[lk rk] rd]|e]; [|done]. simpl.
  destruct (Pd.maybe_coerce_merge_keys lk rk) as [[]|e]; [|done]. simpl.
  destruct (Pd.items_overlap_with_suffix _ _ _) as [[ll rl]|e] eqn:E; [|done].
  simpl. intros [= <-]. unfold columns at 1. simpl.
  apply items_overlap_labels in E as [Hl Hr].
  rewrite map_app, in_app_iff. intros [H|H]; apply in_zip_fst in H.
  - left. by apply Hl.
  - right. apply Hr in H as (y & Hy & Hx). exists y. split; [|done].
    apply in_map_iff in Hy as (c & <- & Hc). apply filter_In in Hc as [Hc _].
    unfold columns. by apply in_map.
Qed.

(** The vehicle join adds no label to the casualty table: the only columns
    taken from the vehicle table are its two keys. *)
Lemma join_vehicles_columns cas veh cas' x :
  join_vehicles cas veh = Ok cas' ->
  In x (columns cas') -> In x (columns cas) \/ x = veh_id \/ x = veh_ref.
Proof.
  unfold join_vehicles.
  destruct (Pd.getitem_list _ veh) as [vk|e] eqn:Evk; [|done]. simpl.
  intros Hm Hx. eapply merge_left_columns in Hm as [(y & Hy & E)|(y & Hy & E)]; [| |exact Hx].
  - left. simpl in E. rewrite append_empty_r in E. by destruct E as [-> | ->].
  - right. simpl in E. rewrite append_empty_r in E.
    assert (x = y) as -> by tauto.
    unfold Pd.getitem_list in Evk. destruct (List.find _ _); [done|].
    injection Evk as <-.
    change (In y (map fst (flat_map (fun l => Pd.labelled l veh) [veh_id; veh_ref]))) in Hy.
    apply in_flat_map_labelled in Hy as [Hy _].
    destruct Hy as [<-|[<-|[]]]; auto.
Qed.

Section JoinedLabels.
Variable parse_date : Series -> cell -> option date.

(** A label of the joined table that carries no merge suffix and is not a
    key or a derived date field was a label of the casualty or of the
    collision table. *)
Lemma joined_of_columns acc veh cas joined x :
  joined_of parse_date acc veh cas = Ok joined ->
  In x (columns joined) ->
  ends_with "_cas" x = false -> ends_with "_acc" x = false ->
  In x (columns cas) \/ In x (columns acc)
  \/ In x [veh_id; veh_ref; "year"; "month"].
Proof.
  unfold joined_of.
  destruct (fix_dates _ _ acc) as [acc'|e] eqn:Eacc; [|done]. simpl.
  destruct (join_vehicles cas veh) as [cas'|e] eqn:Ecas; [|done]. simpl.
  intros Hj Hx Hc Ha.
  eapply merge_left_columns in Hj as [(y & Hy & E)|(y & Hy & E)]; [| |exact Hx].
  - simpl in E. destruct E as [->|E].
    + eapply join_vehicles_columns in Hy; [|done].
      destruct Hy as [?|[->| ->]]; simpl; auto 10.
    + subst x. by rewrite ends_with_append in Hc.
  - simpl in E. destruct E as [->|E].
    + eapply fix_dates_columns in Hy; [|done].
      destruct Hy as [?|[->| ->]]; simpl; auto 10.
    + subst x. by rewrite ends_with_append in Ha.
Qed.
End JoinedLabels.

Lemma optional_field_plain f :
  In f optional_fields ->
  ends_with "_cas" f = false /\ ends_with "_acc" f = false
  /\ ~ In f [veh_id; veh_ref; "year"; "month"].
Proof.
  unfold optional_fields. simpl.
  intros H.
  repeat (destruct H as [<-|H];
          [split; [by vm_compute|split; [by vm_compute|]];
           intros [E|[E|[E|[E|[]]]]]; discriminate E|]).
  done.
Qed.

(** C8: each optional field is a column of the projected table exactly when
    it is a column of the joined table, and then with the joined table's
    values, never as a filled-in placeholder; and a field, [vehicle_type]
    among them, that neither the casualty nor the collision table has is no
    column of the output. *)
Theorem optional_fields_only_if_present
    (parse_date : Series -> cell -> option date) (acc joined : DataFrame) :
  exists tidy,
    tidy_of joined (date_col_of acc) = Ok tidy
    /\ Forall (fun f => (In f (columns tidy) <-> In f (columns joined))
                        /\ Pd.labelled f tidy = Pd.labelled f joined)
              optional_fields
    /\ In "vehicle_type" optional_fields
    /\ forall veh cas,
         joined_of parse_date acc veh cas = Ok joined ->
         Forall (fun f => ~ In f (columns acc) -> ~ In f (columns cas) ->
                          ~ In f (columns tidy))
                optional_fields.
Proof.
  unfold tidy_of. rewrite project_ok. eexists. split; [reflexivity|].
  assert (forall f, In f optional_fields ->
            (In f (columns (standardise_target
                     {| index := index joined;
                        data := flat_map (fun l => Pd.labelled l joined)
                                         (keep_cols joined (date_col_of acc)) |}))
             <-> In f (columns joined))) as Hiff.
  { intros f Hf.
    by rewrite !labelled_nonempty, optional_field_projected. }
  split; [|split].
  - apply Forall_forall. intros f Hf%list_elem_of_In. split.
    + by apply Hiff.
    + by apply optional_field_projected.
  - simpl. tauto.
  - intros veh cas Hj. apply Forall_forall. intros f Hf%list_elem_of_In Hacc Hcas.
    rewrite Hiff by done. intros Hin.
    destruct (optional_field_plain f Hf) as (Hc & Ha & Hk).
    destruct (joined_of_columns parse_date acc veh cas joined f Hj Hin Hc Ha)
      as [?|[?|?]]; done.
Qed.

(** ** Date deriver *)

(** Reading back the column just assigned. *)
Lemma column_setitem_same l s df : Pd.column l (Pd.setitem l s df) = s.
Proof.
  unfold Pd.column, Pd.setitem. rewrite labelled_eq. simpl.
  destruct (Py.str_in l (columns df)) eqn:E.
  - apply str_in_In in E.
    destruct (with_label_present l (data df) E) as (v & rest & Hv).
    revert Hv. clear E. unfold with_label.
    induction (data df) as [|c d IH]; simpl; [done|].
    destruct (String.eqb_spec c.1 l) as [Ec|Ec]; simpl.
    + by rewrite Ec, String.eqb_refl.
    + destruct (String.eqb_spec c.1 l); [done|]. apply IH.
  - apply str_in_not_In in E.
    change (List.filter _ (data df ++ [(l, s)])) with (with_label l (data df ++ [(l, s)])).
    rewrite with_label_app, (with_label_absent l (data df)) by done.
    simpl. by rewrite String.eqb_refl.
Qed.

(** Assigning one label leaves the columns under other labels alone. *)
Lemma column_setitem_other l l' s df :
  l' <> l -> Pd.column l' (Pd.setitem l s df) = Pd.column l' df.
Proof.
  intros Hne. unfold Pd.column, Pd.setitem. rewrite !labelled_eq. simpl.
  assert (with_label l' (if Py.str_in l (columns df)
                         then map (fun c : string * Series =>
                                     if String.eqb c.1 l then (c.1, s) else c) (data df)
                         else data df ++ [(l, s)])
          = with_label l' (data df)) as ->; [|done].
  destruct (Py.str_in l (columns df)).
  - unfold with_label. induction (data df) as [|c d IH]; simpl; [done|].
    destruct (String.eqb_spec c.1 l) as [Ec|Ec]; simpl.
    + destruct (String.eqb_spec c.1 l'); [congruence|done].
    + by rewrite IH.
  - rewrite with_label_app. simpl.
    destruct (String.eqb_spec l l'); [congruence|]. apply app_nil_r.
Qed.

Lemma lookup_map {A B} (f : A -> B) (l : list A) (i : nat) :
  map f l !! i = f <$> (l !! i).
Proof.
  revert i. induction l as [|a l IH]; intros [|i]; simpl; try done.
Qed.

Lemma labelled_setitem_other l l' s df :
  l' <> l -> Pd.labelled l' (Pd.setitem l s df) = Pd.labelled l' df.
Proof.
  intros Hne. unfold Pd.setitem. rewrite !labelled_eq. simpl.
  destruct (Py.str_in l (columns df)).
  - unfold with_label. induction (data df) as [|c d IH]; simpl; [done|].
    destruct (String.eqb_spec c.1 l) as [Ec|Ec]; simpl.
    + destruct (String.eqb_spec c.1 l'); [congruence|done].
    + by rewrite IH.
  - rewrite with_label_app. simpl.
    destruct (String.eqb_spec l l'); [congruence|]. apply app_nil_r.
Qed.

Lemma labelled_setitem_same l s df :
  In l (columns df) ->
  Pd.labelled l (Pd.setitem l s df) = map (fun c => (c.1, s)) (Pd.labelled l df).
Proof.
  intros H%str_in_In. unfold Pd.setitem. rewrite !labelled_eq. simpl. rewrite H.
  unfold with_label. induction (data df) as [|[k v] d IH]; simpl; [done|].
  destruct (String.eqb_spec k l) as [->|Ec]; simpl.
  - rewrite String.eqb_refl. by rewrite IH.
  - destruct (String.eqb_spec k l); [done|]. apply IH.
Qed.

Lemma getitem_single l df :
  length (Pd.labelled l df) = 1 -> Pd.getitem l df = Ok (Pd.column l df).
Proof.
  unfold Pd.getitem, Pd.column.
  by destruct (Pd.labelled l df) as [|c [|c' rest]].
Qed.

Section Derived.
Variable parse_date : Series -> cell -> option date.

(** When one column carries the resolved date label, the type fixes go
    through: the date column is parsed in place and [year] and [month] are
    derived from the parsed column. *)
Lemma fix_dates_resolved acc dc :
  date_col_of acc = Some dc -> length (Pd.labelled dc acc) = 1 ->
  exists acc',
    fix_dates parse_date (Some dc) acc = Ok acc'
    /\ index acc' = index acc
    /\ Pd.column dc acc' = Pd.to_datetime parse_date (Pd.column dc acc)
    /\ Pd.column "year" acc'
       = Pd.dt_year (Pd.to_datetime parse_date (Pd.column dc acc))
    /\ Pd.column "month" acc'
       = Pd.dt_month_start (Pd.to_datetime parse_date (Pd.column dc acc)).
Proof.
  intros Hdc Hone.
  assert (dc <> "year" /\ dc <> "month" /\ Py.truthy dc = true) as (Hy & Hm & Ht).
  { by destruct (date_col_of_name _ _ Hdc) as [-> | ->]. }
  apply date_col_of_in in Hdc.
  unfold fix_dates. rewrite Ht.
  set (s := Pd.to_datetime parse_date (Pd.column dc acc)).
  rewrite (getitem_single dc acc Hone).
  change (Ok ?x ≫= ?k) with (k x). cbv beta. fold s.
  set (acc1 := Pd.setitem dc s acc).
  assert (length (Pd.labelled dc acc1) = 1) as Hone1.
  { unfold acc1. by rewrite labelled_setitem_same, length_map. }
  assert (Pd.getitem dc acc1 = Ok s) as ->.
  { rewrite (getitem_single dc acc1 Hone1). unfold acc1.
    by rewrite column_setitem_same. }
  change (Ok ?x ≫= ?k) with (k x). cbv beta.
  set (acc2 := Pd.setitem "year" (Pd.dt_year s) acc1).
  assert (Pd.getitem dc acc2 = Ok s) as ->.
  { rewrite (getitem_single dc acc2).
    - unfold acc2, acc1.
      rewrite column_setitem_other by done. by rewrite column_setitem_same.
    - unfold acc2. by rewrite labelled_setitem_other. }
  change (Ok ?x ≫= ?k) with (k x). cbv beta.
  eexists. split; [reflexivity|]. split; [done|]. split; [|split].
  - unfold acc2, acc1.
    do 2 (rewrite column_setitem_other by done). apply column_setitem_same.
  - unfold acc2. rewrite column_setitem_other by done. apply column_setitem_same.
  - by rewrite column_setitem_same.
Qed.
End Derived.



(** ** Loading and saving *)

Section Run.
Variable parse_date : Series -> cell -> option date.

(** [main], step by step. *)
Lemma main_eq w :
  main parse_date w
  = let acc_file :=
        RAW // (if bool_decide (is_Some (files w !! (RAW // "Accidents.csv")))
                then "Accidents.csv" else "Collisions.csv") in
    match files w !! acc_file with
    | None => (w, Err (FileNotFoundError acc_file))
    | Some a =>
        match files w !! VEH_FILE with
        | None => (w, Err (FileNotFoundError VEH_FILE))
        | Some v =>
            match files w !! CAS_FILE with
            | None => (w, Err (FileNotFoundError CAS_FILE))
            | Some c =>
                match joined_of parse_date (normalise_cols a) (normalise_cols v)
                                (normalise_cols c) with
                | Err e => (w, Err e)
                | Ok joined => save joined (date_col_of (normalise_cols a)) w
                end
            end
        end
    end.
Proof.
  unfold main, ACC_FILE, path_exists, read_csv_fast, lift.
  unfold mbind, mret, fmap, IO_bind, IO_ret, IO_fmap. cbv zeta.
  destruct (files w !! _) as [a|]; [|done].
  destruct (files w !! VEH_FILE) as [v|]; [|done].
  destruct (files w !! CAS_FILE) as [c|]; [|done].
  by destruct (joined_of _ _ _ _).
Qed.

(** [save] writes only the output path and the summary line. *)
Lemma save_eq joined dc w :
  save joined dc w
  = match tidy_of joined dc with
    | Err e => (w, Err e)
    | Ok tidy =>
        if Pd.parquet_writable tidy
        then (mkWorld (<[out_path := tidy]> (files w))
                      (stdout w ++ [(out_path, index tidy, length (columns tidy))]),
              Ok tt)
        else (w, Err (ValueError "Duplicate column names found"))
    end.
Proof.
  unfold save, lift, to_parquet, print_saved, mbind, IO_bind.
  destruct (tidy_of joined dc) as [tidy|e]; [|done].
  by destruct (Pd.parquet_writable tidy).
Qed.

Lemma collisions_path_distinct :
  RAW // "Collisions.csv" <> RAW // "Accidents.csv"
  /\ RAW // "Collisions.csv" <> VEH_FILE
  /\ RAW // "Collisions.csv" <> CAS_FILE
  /\ RAW // "Collisions.csv" <> out_path.
Proof. by vm_compute. Qed.

(** C6: when neither Accidents.csv nor Collisions.csv exists, the run ends
    with the FileNotFoundError of the fallback name, and nothing is written
    or printed. *)
Theorem missing_collision_table_aborts (w : world) :
  files w !! (RAW // "Accidents.csv") = None ->
  files w !! (RAW // "Collisions.csv") = None ->
  main parse_date w = (w, Err (FileNotFoundError (RAW // "Collisions.csv"))).
Proof.
  intros Ha Hc. rewrite main_eq. cbv zeta. rewrite Ha.
  rewrite bool_decide_eq_false_2 by (by intros [? ?]).
  by rewrite Hc.
Qed.

(** [main_from], step by step. *)
Lemma main_from_eq acc w :
  main_from parse_date acc w
  = match files w !! VEH_FILE with
    | None => (w, Err (FileNotFoundError VEH_FILE))
    | Some v =>
        match files w !! CAS_FILE with
        | None => (w, Err (FileNotFoundError CAS_FILE))
        | Some c =>
            match joined_of parse_date acc (normalise_cols v) (normalise_cols c) with
            | Err e => (w, Err e)
            | Ok joined => save joined (date_col_of acc) w
            end
        end
    end.
Proof.
  unfold main_from, read_csv_fast, lift.
  unfold mbind, mret, fmap, IO_bind, IO_ret, IO_fmap.
  destruct (files w !! VEH_FILE) as [v|]; [|done].
  destruct (files w !! CAS_FILE) as [c|]; [|done].
  by destruct (joined_of _ _ _ _).
Qed.

(** The run reads its collision table from the file [ACC_FILE] names. *)
Lemma main_reads_acc_file w path a :
  ACC_FILE w = (w, Ok path) -> files w !! path = Some a ->
  main parse_date w = main_from parse_date (normalise_cols a) w.
Proof.
  intros Hacc Ha. rewrite main_eq, main_from_eq. cbv zeta.
  assert (RAW // (if bool_decide (is_Some (files w !! (RAW // "Accidents.csv")))
                  then "Accidents.csv" else "Collisions.csv") = path) as ->.
  { unfold ACC_FILE, path_exists, mbind, mret, IO_bind, IO_ret in Hacc. congruence. }
  by rewrite Ha.
Qed.

(** C9: when Accidents.csv exists it is the file the collision table is
    read from: the run is the rest of [main] on the table stored there,
    what a successful run saves is computed from that table, and neither
    the outcome nor the output depends on what is stored as
    Collisions.csv.  Only without Accidents.csv is Collisions.csv named
    and read. *)
Theorem accidents_csv_takes_precedence (w : world) (a : DataFrame) :
  files w !! (RAW // "Accidents.csv") = Some a ->
  ACC_FILE w = (w, Ok (RAW // "Accidents.csv"))
  /\ (ACC_FILE ≫= read_csv_fast) w = (w, Ok a)
  /\ main parse_date w = main_from parse_date (normalise_cols a) w
  /\ (forall w' : world,
        main parse_date w = (w', Ok tt) ->
        exists v c joined tidy,
          files w !! VEH_FILE = Some v /\ files w !! CAS_FILE = Some c
          /\ joined_of parse_date (normalise_cols a) (normalise_cols v) (normalise_cols c)
             = Ok joined
          /\ tidy_of joined (date_col_of (normalise_cols a)) = Ok tidy
          /\ files w' !! out_path = Some tidy)
  /\ (forall c : DataFrame,
        main parse_date (with_file (RAW // "Collisions.csv") c w)
        = main_from parse_date (normalise_cols a) (with_file (RAW // "Collisions.csv") c w)
        /\ main parse_date (with_file (RAW // "Collisions.csv") c w)
           = let (w', r) := main parse_date w in
             (with_file (RAW // "Collisions.csv") c w', r))
  /\ (forall w0 : world,
        files w0 !! (RAW // "Accidents.csv") = None ->
        ACC_FILE w0 = (w0, Ok (RAW // "Collisions.csv"))
        /\ forall c : DataFrame,
             files w0 !! (RAW // "Collisions.csv") = Some c ->
             main parse_date w0 = main_from parse_date (normalise_cols c) w0).
Proof.
  intros Ha.
  assert (forall w0 : world,
            ACC_FILE w0
            = (w0, Ok (RAW // (if bool_decide (is_Some (files w0 !! (RAW // "Accidents.csv")))
                               then "Accidents.csv" else "Collisions.csv")))) as Hacc.
  { done. }
  assert (forall (w0 : world) (a0 : DataFrame),
            files w0 !! (RAW // "Accidents.csv") = Some a0 ->
            ACC_FILE w0 = (w0, Ok (RAW // "Accidents.csv"))) as Hfirst.
  { intros w0 a0 H0. rewrite Hacc, H0. by rewrite bool_decide_eq_true_2. }
  destruct collisions_path_distinct as (Hn1 & Hn2 & Hn3 & Hn4).
  assert (forall c, files (with_file (RAW // "Collisions.csv") c w)
                      !! (RAW // "Accidents.csv") = Some a) as Hkept.
  { intros c. unfold with_file. simpl files. by rewrite lookup_insert_ne. }
  pose proof (Hfirst w a Ha) as Haccw.
  pose proof (main_reads_acc_file w _ a Haccw Ha) as Hmain.
  assert (forall c, main parse_date (with_file (RAW // "Collisions.csv") c w)
                    = main_from parse_date (normalise_cols a)
                                (with_file (RAW // "Collisions.csv") c w)) as Hmainc.
  { intros c. apply (main_reads_acc_file _ (RAW // "Accidents.csv") a); [|done].
    by apply Hfirst with a. }
  split; [done|]. split; [|split; [|split; [|split]]].
  - unfold mbind, IO_bind. rewrite Haccw.
    unfold read_csv_fast. by rewrite Ha.
  - done.
  - intros w'. rewrite Hmain, main_from_eq.
    destruct (files w !! VEH_FILE) as [v|]; [|done].
    destruct (files w !! CAS_FILE) as [c|]; [|done].
    destruct (joined_of _ _ _ _) as [joined|e] eqn:Ej; [|done].
    rewrite save_eq.
    destruct (tidy_of _ _) as [tidy|e] eqn:Et; [|done].
    destruct (Pd.parquet_writable tidy); [|done].
    intros [= <-]. exists v, c, joined, tidy. simpl files.
    by rewrite lookup_insert_eq.
  - intros c. split; [done|].
    rewrite Hmainc, Hmain, !main_from_eq. unfold with_file at 1 2. simpl files.
    rewrite !(lookup_insert_ne _ (RAW // "Collisions.csv") VEH_FILE) by done.
    destruct (files w !! VEH_FILE) as [v|]; [|done].
    rewrite !(lookup_insert_ne _ (RAW // "Collisions.csv") CAS_FILE) by done.
    destruct (files w !! CAS_FILE) as [cs|]; [|done].
    destruct (joined_of _ _ _ _) as [joined|e]; [|done].
    rewrite !save_eq.
    destruct (tidy_of _ _) as [tidy|e]; [|done].
    destruct (Pd.parquet_writable tidy); [|done].
    unfold with_file. simpl. by rewrite insert_insert_ne.
  - intros w0 H0.
    assert (ACC_FILE w0 = (w0, Ok (RAW // "Collisions.csv"))) as Hfall.
    { rewrite Hacc, H0. by rewrite bool_decide_eq_false_2 by (by intros [? ?]). }
    split; [done|]. intros c Hc. exact (main_reads_acc_file w0 _ c Hfall Hc).
Qed.
End Run.

Lemma with_label_renamed {V} (old new : string) (d : list (string * V)) :
  with_label new d = [] ->
  with_label new (map (fun c => (if String.eqb c.1 old then new else c.1, c.2)) d)
  = map (fun c => (new, c.2)) (with_label old d).
Proof.
  unfold with_label. induction d as [|[k v] d IH]; simpl; [done|].
  destruct (String.eqb_spec k new) as [->|Hk]; [done|]. intros H.
  destruct (String.eqb_spec k old) as [->|Hko]; simpl.
  - rewrite String.eqb_refl. simpl. by rewrite IH.
  - destruct (String.eqb_spec k new); [done|]. by apply IH.
Qed.

Lemma columns_rename_one (old new : string) (d : list (string * Series)) x :
  In x (map fst (map (fun c : string * Series =>
                        (if String.eqb c.1 old then new else c.1, c.2)) d)) ->
  x = new \/ (x <> old /\ In x (map fst d)).
Proof.
  rewrite map_map. simpl. intros (c & <- & Hc)%in_map_iff.
  destruct (String.eqb_spec c.1 old) as [E|E]; [by left|right].
  split; [done|]. by apply in_map.
Qed.

(** C4: when the joined table has a [severity] or a [casualty_severity]
    column, the projected table has a [severity] column with the values of
    that column and no [casualty_severity] column; every table the run
    saves has exactly one [severity] column; and the run does save when
    the labels of the joined table are distinct. *)
Theorem severity_is_canonical (acc joined : DataFrame) :
  In "severity" (columns joined) \/ In "casualty_severity" (columns joined) ->
  exists tidy,
    tidy_of joined (date_col_of acc) = Ok tidy
    /\ In "severity" (columns tidy)
    /\ ~ In "casualty_severity" (columns tidy)
    /\ map snd (Pd.labelled "severity" tidy)
       = map snd (Pd.labelled (outcome_name joined) joined)
    /\ (forall w w' r,
          save joined (date_col_of acc) w = (w', Ok r) ->
          files w' !! out_path = Some tidy
          /\ Pd.labelled "severity" tidy
             = [("severity", Pd.column (outcome_name joined) joined)])
    /\ (unique_labels joined ->
        forall w,
          save joined (date_col_of acc) w
          = (mkWorld (<[out_path := tidy]> (files w))
                     (stdout w ++ [(out_path, index tidy, length (columns tidy))]),
             Ok tt)).
Proof.
  intros Hsev.
  set (dc := date_col_of acc).
  set (tidy0 := {| index := index joined;
                   data := flat_map (fun l => Pd.labelled l joined)
                                    (keep_cols joined dc) |}).
  pose proof (keep_cols_NoDup joined acc) as Hnd. fold dc in Hnd.
  assert (tidy_of joined dc = Ok (standardise_target tidy0)) as Ht.
  { unfold tidy_of. by rewrite project_ok. }
  assert (forall x, In x (columns tidy0) <-> In x (keep_cols joined dc)) as Hcols.
  { intros x. unfold columns at 1, tidy0. simpl. rewrite in_flat_map_labelled.
    split; [tauto|]. intros Hx. split; [done|]. apply in_keep_cols in Hx. tauto. }
  assert (forall x, Pd.labelled x tidy0
                    = if Py.str_in x (keep_cols joined dc)
                      then Pd.labelled x joined else []) as Hlab.
  { intros x. rewrite !labelled_eq. unfold tidy0. simpl.
    by apply (with_label_select x (data joined)). }
  clearbody tidy0.
  assert (In (outcome_name joined) (keep_cols joined dc)) as Hin.
  { apply in_keep_cols. split; [apply keep_names_has_outcome|].
    unfold outcome_name.
    destruct (Py.str_in "severity" (columns joined)) eqn:E.
    - apply str_in_In in E. done.
    - apply str_in_not_In in E. split; [done|]. tauto. }
  assert (forall x, In x ["severity"; "casualty_severity"] ->
                    In x (keep_cols joined dc) -> x = outcome_name joined) as Honly.
  { intros x Hx [Hk _]%in_keep_cols.
    eapply keep_names_outcome; [apply outcome_name_cases|done|done]. }
  assert (exists tidy,
            standardise_target tidy0 = tidy
            /\ In "severity" (columns tidy)
            /\ ~ In "casualty_severity" (columns tidy)
            /\ map snd (Pd.labelled "severity" tidy)
               = map snd (Pd.labelled (outcome_name joined) joined))
    as (tidy & Etidy & Hhas & Hnot & Hvals).
  { destruct (Py.str_in "severity" (columns joined)) eqn:E.
    - assert (outcome_name joined = "severity") as Eo
        by (unfold outcome_name; by rewrite E).
      rewrite Eo in *.
      assert (~ In "casualty_severity" (columns tidy0)) as Hno.
      { rewrite Hcols. intros Hc. apply Honly in Hc; [done|simpl; tauto]. }
      exists tidy0. split; [apply standardise_target_skip; tauto|].
      split; [by apply Hcols|]. split; [done|].
      rewrite Hlab. apply str_in_In in Hin. by rewrite Hin.
    - assert (outcome_name joined = "casualty_severity") as Eo
        by (unfold outcome_name; by rewrite E).
      rewrite Eo in *.
      assert (~ In "severity" (columns tidy0)) as Hno.
      { rewrite Hcols. intros Hc. apply Honly in Hc; [done|simpl; tauto]. }
      eexists. split; [apply standardise_target_rename; [by apply Hcols|done]|].
      split; [|split].
      + unfold columns. simpl. rewrite map_map. simpl.
        apply Hcols in Hin. unfold columns in Hin.
        apply in_map_iff in Hin as (c & Ec & Hc).
        apply in_map_iff. exists c. split; [|done]. by rewrite Ec.
      + unfold columns. simpl. intros [H|[H _]]%columns_rename_one; done.
      + rewrite labelled_eq. simpl.
        rewrite with_label_renamed.
        * rewrite map_map. simpl. rewrite <- labelled_eq, Hlab.
          apply str_in_In in Hin. by rewrite Hin.
        * rewrite <- labelled_eq. apply dec_stable. intros Hne.
          by apply labelled_nonempty in Hne. }
  exists tidy. rewrite <- Etidy at 1. split; [exact Ht|].
  split; [done|]. split; [done|]. split; [done|]. split.
  - intros w w' r. rewrite save_eq, Ht, Etidy.
    unfold Pd.parquet_writable. case_bool_decide as Hw; [|done].
    intros [= <- _]. simpl. split; [apply lookup_insert_eq|].
    destruct (with_label_unique "severity" (data tidy) Hw Hhas) as [v Hv].
    rewrite labelled_eq, Hv. rewrite labelled_eq, Hv in Hvals. simpl in Hvals.
    unfold Pd.column. destruct (Pd.labelled _ joined) as [|c [|c' rest]]; try done.
    simpl in Hvals. by injection Hvals as ->.
  - intros Hu w.
    destruct (severity_saved_once acc joined w Hu Hsev) as (t & Ht' & Hsave & _).
    fold dc in Ht', Hsave. rewrite Ht in Ht'. injection Ht' as <-.
    by rewrite <- Etidy.
Qed.

(** * Further properties of the script *)

(** ** Normalised names *)

Lemma chars_of_map_chars (f : ascii -> ascii) (s : string) (ch : ascii) :
  In ch (list_ascii_of_string (Py.map_chars f s)) ->
  exists x, In x (list_ascii_of_string s) /\ ch = f x.
Proof.
  induction s as [|a s IH]; simpl; [done|].
  intros [<-|H]; [by exists a; auto|].
  destruct (IH H) as (x & Hx & ->). exists x. auto.
Qed.

Lemma norm_char_plain (x : ascii) :
  Py.space_to_underscore (Py.lower_char x) <> " "%char
  /\ Py.lower_char (Py.space_to_underscore (Py.lower_char x))
     = Py.space_to_underscore (Py.lower_char x)
  /\ Py.space_to_underscore (Py.space_to_underscore (Py.lower_char x))
     = Py.space_to_underscore (Py.lower_char x).
Proof.
  destruct x as [[|] [|] [|] [|] [|] [|] [|] [|]]; vm_compute; repeat split; congruence.
Qed.

Lemma normalise_name_chars (c : string) :
  normalise_name c
  = Py.map_chars (fun x => Py.space_to_underscore (Py.lower_char x)) (Py.strip c).
Proof.
  unfold normalise_name, Py.replace, Py.lower.
  by rewrite PyFacts.map_chars_compose.
Qed.

(** X1: a normalised column name has no whitespace at either end, contains
    no space and no upper-case ASCII letter, and each of the three steps of
    the normaliser leaves it as it is. *)
Theorem normalise_name_normal_form (c : string) :
  Py.strip (normalise_name c) = normalise_name c
  /\ Py.lower (normalise_name c) = normalise_name c
  /\ Py.replace " " "_" (normalise_name c) = normalise_name c
  /\ forall ch, In ch (list_ascii_of_string (normalise_name c)) ->
       ch <> " "%char /\ Py.lower_char ch = ch.
Proof.
  destruct (normalise_name_clean c) as [Hs He].
  split; [by apply PyFacts.strip_id|].
  rewrite normalise_name_chars. unfold Py.lower, Py.replace.
  rewrite !PyFacts.map_chars_compose.
  split; [|split].
  - apply PyFacts.map_chars_ext. intros x. apply norm_char_plain.
  - apply PyFacts.map_chars_ext. intros x. apply (norm_char_plain x).
  - intros ch (x & _ & ->)%chars_of_map_chars.
    destruct (norm_char_plain x) as (H1 & H2 & _). done.
Qed.

(** ** The target rename *)

Lemma columns_standardise_target tidy x :
  In x (columns (standardise_target tidy)) ->
  (x = "severity" /\ In "casualty_severity" (columns tidy))
  \/ (In x (columns tidy)
      /\ (x = "casualty_severity" -> In "severity" (columns tidy))).
Proof.
  unfold standardise_target.
  destruct (Py.str_in "casualty_severity" (columns tidy)) eqn:Ec;
    destruct (Py.str_in "severity" (columns tidy)) eqn:Es; simpl.
  - apply str_in_In in Es. auto.
  - apply str_in_In in Ec. rewrite rename_one. unfold columns at 1. simpl.
    intros [->|[Hne Hin]]%columns_rename_one; [by left|right].
    split; [done|]. by intros ->.
  - apply str_in_In in Es. auto.
  - apply str_in_not_In in Ec. right. split; [done|]. by intros ->.
Qed.

(** X2: after the target rename a table has a [casualty_severity] column
    only beside a [severity] column it already had; a table with
    [casualty_severity] alone has it renamed, with the same values; and
    renaming twice is renaming once. *)
Theorem standardise_target_canonical (tidy : DataFrame) :
  (In "casualty_severity" (columns (standardise_target tidy)) ->
   In "severity" (columns tidy))
  /\ (In "casualty_severity" (columns tidy) \/ In "severity" (columns tidy) ->
      In "severity" (columns (standardise_target tidy)))
  /\ (~ In "severity" (columns tidy) ->
      map snd (Pd.labelled "severity" (standardise_target tidy))
      = map snd (Pd.labelled "casualty_severity" tidy))
  /\ index (standardise_target tidy) = index tidy
  /\ map snd (data (standardise_target tidy)) = map snd (data tidy)
  /\ standardise_target (standardise_target tidy) = standardise_target tidy.
Proof.
  assert (In "casualty_severity" (columns (standardise_target tidy)) ->
          In "severity" (columns tidy)) as H1.
  { intros [[? _]|[_ H]]%columns_standardise_target; [done|by apply H]. }
  assert (In "casualty_severity" (columns tidy) \/ In "severity" (columns tidy) ->
          In "severity" (columns (standardise_target tidy))) as H2.
  { intros H.
    destruct (in_dec string_dec "severity" (columns tidy)) as [Hs|Hs].
    - rewrite standardise_target_skip by auto. done.
    - destruct H as [Hc|Hc]; [|done].
      rewrite standardise_target_rename by done.
      unfold columns. simpl. rewrite map_map. simpl.
      unfold columns in Hc. apply in_map_iff in Hc as (c & Ec & Hc).
      apply in_map_iff. exists c. split; [|done]. by rewrite Ec. }
  split; [exact H1|]. split; [exact H2|]. split; [|split; [|split]].
  - intros Hs.
    destruct (in_dec string_dec "casualty_severity" (columns tidy)) as [Hc|Hc].
    + rewrite standardise_target_rename by done. rewrite !labelled_eq. simpl.
      rewrite with_label_renamed.
      * by rewrite map_map.
      * apply with_label_absent. exact Hs.
    + rewrite standardise_target_skip by auto.
      rewrite !labelled_eq.
      by rewrite (with_label_absent "severity"), (with_label_absent "casualty_severity").
  - unfold standardise_target. by destruct (_ && _).
  - unfold standardise_target. destruct (_ && _); [|done].
    rewrite rename_one. simpl. by rewrite map_map.
  - apply standardise_target_skip.
    destruct (in_dec string_dec "casualty_severity" (columns (standardise_target tidy)))
      as [Hc|Hc]; [|by left].
    right. apply H2. right. by apply H1.
Qed.

(** ** The projected table *)

Lemma columns_rename_map (old new : string) (df : DataFrame) :
  columns (Pd.rename (Pd.dict_of [(old, new)]) df)
  = map (fun l => if String.eqb l old then new else l) (columns df).
Proof. rewrite rename_one. unfold columns. simpl. by rewrite !map_map. Qed.

Lemma keep_names_swap (s s' : string) dc x :
  In (Some x) (keep_names s dc) -> x = s \/ In (Some x) (keep_names s' dc).
Proof.
  unfold keep_names. simpl.
  intros [H|[H|[H|H]]]; [auto|auto|left; congruence|auto 30].
Qed.

Lemma schema_of_renamed acc :
  map (fun l => if String.eqb l "casualty_severity" then "severity" else l)
      (omap id (keep_names "casualty_severity" (date_col_of acc)))
  = tidy_schema (date_col_of acc).
Proof.
  unfold tidy_schema. destruct (date_col_of acc) as [c|] eqn:E; [|by vm_compute].
  apply date_col_of_name in E as [-> | ->]; by vm_compute.
Qed.

Lemma keep_cols_in_names joined dc x :
  In x (keep_cols joined dc) -> In x (omap id (keep_names (outcome_name joined) dc)).
Proof.
  intros [H _]%in_keep_cols. apply list_elem_of_In, list_elem_of_omap.
  exists (Some x). split; [by apply list_elem_of_In|done].
Qed.

Lemma NoDup_map_inj (f : string -> string) (ks : list string) :
  (forall x y, In x ks -> In y ks -> f x = f y -> x = y) ->
  NoDup ks -> NoDup (map f ks).
Proof.
  intros Hinj Hnd. apply NoDup_fmap_2_strong; [|done].
  intros x y Hx%list_elem_of_In Hy%list_elem_of_In. by apply Hinj.
Qed.

Lemma sublist_map (f : string -> string) (l1 l2 : list string) :
  sublist l1 l2 -> sublist (map f l1) (map f l2).
Proof. apply (fmap_sublist f). Qed.

(** X3: the table the projection yields has its columns among the fixed
    schema (the keys, [severity], the casualty fields, the driver fields,
    the date column, [year], [month], the collision fields); when the
    labels of the joined table are distinct the columns are distinct and
    stand in the schema's order, whatever the column order of the joined
    table. *)
Theorem tidy_columns_follow_schema (acc joined : DataFrame) :
  exists tidy,
    tidy_of joined (date_col_of acc) = Ok tidy
    /\ (forall x, In x (columns tidy) -> In x (tidy_schema (date_col_of acc)))
    /\ (unique_labels joined ->
        NoDup (columns tidy)
        /\ sublist (columns tidy) (tidy_schema (date_col_of acc))).
Proof.
  set (dc := date_col_of acc).
  set (tidy0 := {| index := index joined;
                   data := flat_map (fun l => Pd.labelled l joined) (keep_cols joined dc) |}).
  assert (tidy_of joined dc = Ok (standardise_target tidy0)) as Ht.
  { unfold tidy_of. by rewrite project_ok. }
  exists (standardise_target tidy0). split; [done|].
  assert (forall x, In x (columns tidy0) -> In x (keep_cols joined dc)) as Hcols.
  { intros x. unfold columns at 1, tidy0. simpl. rewrite in_flat_map_labelled. tauto. }
  assert (outcome_name joined = "severity"
          \/ (outcome_name joined = "casualty_severity"
              /\ ~ In "severity" (columns joined))) as Ho.
  { unfold outcome_name. destruct (Py.str_in _ _) eqn:E; [by left|right].
    by apply str_in_not_In in E. }
  split.
  - intros x [[-> _]|[Hx Hcs]]%columns_standardise_target.
    + unfold tidy_schema, keep_names. simpl. auto.
    + apply Hcols in Hx. pose proof Hx as [Hn _]%in_keep_cols.
      destruct Ho as [Eo|[Eo Hno]]; rewrite Eo in Hn.
      * apply list_elem_of_In, list_elem_of_omap. exists (Some x).
        split; [by apply list_elem_of_In|done].
      * apply (keep_names_swap _ "severity") in Hn as [->|Hn].
        -- specialize (Hcs eq_refl). apply Hcols, in_keep_cols in Hcs. tauto.
        -- apply list_elem_of_In, list_elem_of_omap. exists (Some x).
           split; [by apply list_elem_of_In|done].
  - intros Hu.
    pose proof (keep_cols_NoDup joined acc) as Hnd. fold dc in Hnd.
    assert (standardise_target tidy0 = standardise_target (selected joined dc)) as ->.
    { pose proof (tidy_of_unique joined dc Hu) as Ht'. rewrite Ht in Ht'.
      by injection Ht'. }
    pose proof (columns_selected joined dc) as Hsel.
    pose proof (omap_kept_sublist joined (keep_names (outcome_name joined) dc)) as Hsub.
    rewrite <- keep_cols_eq in Hsub.
    unfold standardise_target.
    destruct (Py.str_in "casualty_severity" _) eqn:Ec;
      destruct (Py.str_in "severity" (columns (selected joined dc))) eqn:Es; simpl.
    + rewrite Hsel in *. split; [done|].
      apply str_in_In in Es. apply in_keep_cols in Es.
      destruct Ho as [Eo|[_ Hno]]; [|tauto]. by rewrite Eo in Hsub.
    + rewrite columns_rename_map, Hsel.
      apply str_in_In in Ec. apply str_in_not_In in Es. rewrite Hsel in Ec, Es.
      assert (outcome_name joined = "casualty_severity") as Eo.
      { destruct Ho as [Eo|[Eo _]]; [|done]. exfalso.
        pose proof Ec as [Hn _]%in_keep_cols. rewrite Eo in Hn.
        apply In_decide in Hn. unfold dc in Hn.
        destruct (date_col_of acc) as [c|] eqn:E.
        - apply date_col_of_name in E as [-> | ->]; by vm_compute in Hn.
        - by vm_compute in Hn. }
      rewrite Eo in Hsub. split.
      * apply NoDup_map_inj; [|done]. intros x y Hx Hy.
        destruct (String.eqb_spec x "casualty_severity") as [->|Hx'],
                 (String.eqb_spec y "casualty_severity") as [->|Hy']; congruence.
      * unfold dc. rewrite <- schema_of_renamed. by apply sublist_map.
    + rewrite Hsel in *. split; [done|].
      apply str_in_In in Es. apply in_keep_cols in Es.
      destruct Ho as [Eo|[_ Hno]]; [|tauto]. by rewrite Eo in Hsub.
    + rewrite Hsel in *. split; [done|].
      apply str_in_not_In in Ec.
      destruct Ho as [Eo|[Eo Hno]]; rewrite Eo in Hsub; [done|].
      (* the outcome column is absent altogether *)
      assert (keep_cols joined dc
              = omap (kept joined) (keep_names "severity" dc)) as ->.
      { rewrite keep_cols_eq, Eo. unfold keep_names.
        apply list_omap_ext.
        repeat (apply Forall2_cons_2; [first [reflexivity|idtac]|]); [|apply Forall2_nil_2].
        simpl.
        assert (Py.str_in "casualty_severity" (columns joined) = false) as ->.
        { apply str_in_not_In. intros Hin. apply Ec, in_keep_cols.
          rewrite Eo. split; [apply keep_names_has_outcome|]. done. }
        apply str_in_not_In in Hno. by rewrite Hno. }
      apply omap_kept_sublist.
Qed.

Lemma aligned_standardise_target tidy : aligned tidy -> aligned (standardise_target tidy).
Proof.
  unfold standardise_target. destruct (_ && _); [|done].
  rewrite rename_one. unfold aligned. simpl.
  rewrite !Forall_forall. intros H c (c0 & <- & Hc)%list_elem_of_In%in_map_iff.
  simpl. by apply H, list_elem_of_In.
Qed.

(** X4: the projection never fails, keeps the number of rows, and every
    column it yields under a label other than the outcome's is a column of
    the joined table under that label, values untouched: all of them when
    the label is kept, none otherwise.  Columns as long as the index stay
    so. *)
Theorem projection_keeps_values (acc joined : DataFrame) :
  exists tidy,
    tidy_of joined (date_col_of acc) = Ok tidy
    /\ index tidy = index joined
    /\ (forall l, l <> "severity" -> l <> "casualty_severity" ->
          Pd.labelled l tidy
          = if Py.str_in l (keep_cols joined (date_col_of acc))
            then Pd.labelled l joined else [])
    /\ (aligned joined -> aligned tidy).
Proof.
  unfold tidy_of. rewrite project_ok. eexists. split; [reflexivity|].
  split; [|split].
  - unfold standardise_target. by destruct (_ && _).
  - intros l Hs Hc. rewrite labelled_standardise_target by done.
    rewrite !labelled_eq. simpl.
    apply (with_label_select l (data joined)), keep_cols_NoDup.
  - intros Ha. apply aligned_standardise_target.
    unfold aligned in *. simpl. rewrite !Forall_forall in *.
    intros c (l & _ & Hc)%list_elem_of_In%in_flat_map.
    apply with_label_fst in Hc as [_ Hc]. by apply Ha, list_elem_of_In.
Qed.

(** ** The merges in general *)

Lemma getitem_Ok l df s :
  Pd.getitem l df = Ok s -> s = Pd.column l df /\ length (Pd.labelled l df) = 1.
Proof.
  unfold Pd.getitem, Pd.column.
  destruct (Pd.labelled l df) as [|c [|c' rest]]; [done| |done].
  by intros [= <-].
Qed.

Lemma getitem_missing l df : ~ In l (columns df) -> Pd.getitem l df = Err (KeyError l).
Proof.
  intros H. unfold Pd.getitem. by rewrite labelled_eq, with_label_absent.
Qed.

Lemma get_merge_keys_Ok left right (on : list string) lk rk rd :
  Pd.get_merge_keys left right on on = Ok (lk, rk, rd) ->
  lk = map (fun l => Pd.column l left) on
  /\ rk = map (fun l => Pd.column l right) on
  /\ rd = on.
Proof.
  unfold Pd.get_merge_keys.
  destruct (mapM_result _ _) as [keys|e] eqn:E; [|done]. simpl.
  intros [= <- <- <-].
  assert (keys = map (fun l => (Pd.column l left, Pd.column l right)) on) as ->.
  { revert keys E. induction on as [|l on IH]; simpl; intros keys.
    - by intros [= <-].
    - destruct (Pd.getitem l right) as [r|] eqn:Er; [|done]. simpl.
      destruct (Pd.getitem l left) as [s|] eqn:El; [|done]. simpl.
      destruct (mapM_result _ _) as [ks|]; [|done]. simpl.
      intros [= <-]. apply getitem_Ok in Er as [-> _]. apply getitem_Ok in El as [-> _].
      by rewrite (IH ks). }
  rewrite !map_map. simpl. split; [done|]. split; [done|].
  clear. induction on as [|l on IH]; simpl; [done|].
  rewrite String.eqb_refl. simpl. by rewrite IH.
Qed.

Lemma rows_for_length lk rk nr (i : nat) :
  length (match Pd.matches lk rk nr i with
          | [] => [(i, @None nat)]
          | js => map (fun j => (i, Some j)) js
          end) = rows_for lk rk nr i
  /\ 1 <= rows_for lk rk nr i.
Proof.
  unfold rows_for. destruct (Pd.matches lk rk nr i) as [|j js]; simpl; [lia|].
  rewrite length_map. lia.
Qed.

Lemma length_left_indexer lk rk nl nr :
  length (Pd.left_indexer lk rk nl nr)
  = sum_list (map (rows_for lk rk nr) (seq 0 nl))
  /\ nl <= length (Pd.left_indexer lk rk nl nr).
Proof.
  unfold Pd.left_indexer.
  assert (forall l : list nat,
            length (flat_map (fun i => match Pd.matches lk rk nr i with
                                       | [] => [(i, None)]
                                       | js => map (fun j => (i, Some j)) js
                                       end) l)
            = sum_list (map (rows_for lk rk nr) l)
            /\ length l <= sum_list (map (rows_for lk rk nr) l)) as H.
  { induction l as [|i l [IH1 IH2]]; [done|].
    destruct (rows_for_length lk rk nr i) as [E Hge].
    change (flat_map ?f (i :: l)) with (f i ++ flat_map f l).
    rewrite length_app, E, IH1. simpl. lia. }
  destruct (H (seq 0 nl)) as [H1 H2]. rewrite length_seq in H2. split; [done|lia].
Qed.

Lemma fst_zip_map {A B C} (ls : list A) (f : B -> C) (d : list B) :
  length ls = length d -> map fst (zip ls (map f d)) = ls.
Proof.
  revert d. induction ls as [|a ls IH]; intros [|b d]; simpl; try done.
  intros [= H]. by rewrite IH.
Qed.

Lemma items_overlap_length left right suffixes ll rl :
  Pd.items_overlap_with_suffix left right suffixes = Ok (ll, rl) ->
  ll = map (Pd.renamer (shared left right) suffixes.1) left
  /\ rl = map (Pd.renamer (shared left right) suffixes.2) right.
Proof.
  unfold Pd.items_overlap_with_suffix. fold (shared left right).
  destruct (shared left right) as [|l0 tr] eqn:E.
  - intros [= <- <-]. split; symmetry; apply map_id.
  - destruct (_ && _); [done|]. destruct (_ || _); [done|]. by intros [= <- <-].
Qed.

(** What a successful merge on equally named keys returns. *)
Lemma merge_left_Ok left right (on : list string) suffixes out :
  Pd.merge_left left right on on suffixes = Ok out ->
  let side := Pd.drop_labels on right in
  let overlap := shared (columns left) (map fst side) in
  let ix := merge_plan left right on on in
  out = {| index := length ix;
           data := zip (map (Pd.renamer overlap suffixes.1) (columns left))
                       (map (fun c => Pd.take_left ix c.2) (data left))
                   ++ zip (map (Pd.renamer overlap suffixes.2) (map fst side))
                          (map (fun c => Pd.take_right ix c.2) side) |}.
Proof.
  unfold Pd.merge_left.
  destruct (Pd.get_merge_keys _ _ _ _) as [[[lk rk] rd]|e] eqn:Ek; [|done].
  apply get_merge_keys_Ok in Ek as (-> & -> & ->). simpl.
  destruct (Pd.maybe_coerce_merge_keys _ _) as [[]|e]; [|done]. simpl.
  destruct (Pd.items_overlap_with_suffix _ _ _) as [[ll rl]|e] eqn:Eo; [|done].
  apply items_overlap_length in Eo as [-> ->]. simpl. by intros [= <-].
Qed.

Lemma columns_merged (ll rl : list string) {A B}
    (f : A -> Series) (g : B -> Series) (dl : list A) (dr : list B) :
  length ll = length dl -> length rl = length dr ->
  map fst (zip ll (map f dl) ++ zip rl (map g dr)) = ll ++ rl.
Proof. intros Hl Hr. by rewrite map_app, !fst_zip_map. Qed.

(** The frame [veh[[veh_id, veh_ref]]] has the key columns of [veh]. *)
Lemma vehicle_keys_columns veh :
  let vk := {| index := index veh;
               data := flat_map (fun l => Pd.labelled l veh) [veh_id; veh_ref] |} in
  Pd.column veh_id vk = Pd.column veh_id veh
  /\ Pd.column veh_ref vk = Pd.column veh_ref veh
  /\ Pd.drop_labels [cas_id; cas_ref] vk = [].
Proof.
  cbv zeta.
  change (flat_map _ _) with (Pd.labelled veh_id veh ++ (Pd.labelled veh_ref veh ++ [])).
  rewrite app_nil_r.
  assert (forall l, In l [veh_id; veh_ref] ->
            Pd.labelled l {| index := index veh;
                             data := Pd.labelled veh_id veh ++ Pd.labelled veh_ref veh |}
            = Pd.labelled l veh) as Hl.
  { intros l Hl. rewrite !labelled_eq. cbn [data].
    rewrite with_label_app, !with_label_twice.
    destruct Hl as [<-|[<-|[]]].
    - change (String.eqb veh_id veh_id) with true.
      change (String.eqb veh_ref veh_id) with false. apply app_nil_r.
    - change (String.eqb veh_id veh_ref) with false.
      change (String.eqb veh_ref veh_ref) with true. done. }
  unfold Pd.column. rewrite !Hl by (simpl; auto).
  split; [done|]. split; [done|].
  unfold Pd.drop_labels. cbn [data]. apply filter_none.
  intros c [Hc|Hc]%in_app_iff; apply with_label_fst in Hc as [-> _]; done.
Qed.

Lemma join_vehicles_Ok cas veh cas' :
  join_vehicles cas veh = Ok cas' ->
  cas' = {| index := length (merge_plan cas veh [cas_id; cas_ref] [veh_id; veh_ref]);
            data := zip (columns cas)
                        (map (fun c => Pd.take_left
                                         (merge_plan cas veh [cas_id; cas_ref] [veh_id; veh_ref])
                                         c.2) (data cas)) |}.
Proof.
  unfold join_vehicles.
  destruct (Pd.getitem_list _ veh) as [vk|e] eqn:Evk; [|done]. simpl.
  unfold Pd.getitem_list in Evk. destruct (List.find _ _); [done|].
  assert (vk = {| index := index veh;
                  data := flat_map (fun l => Pd.labelled l veh) [veh_id; veh_ref] |})
    as -> by (by injection Evk).
  intros H. apply (merge_left_Ok cas _ [cas_id; cas_ref]) in H. rewrite H.
  destruct (vehicle_keys_columns veh) as (E1 & E2 & E3).
  cbv zeta in E1, E2, E3 |- *. rewrite E3.
  unfold merge_plan.
  change (map (fun l => Pd.column l ?df) [cas_id; cas_ref])
    with [Pd.column cas_id df; Pd.column cas_ref df].
  change (map (fun l => Pd.column l ?df) [veh_id; veh_ref])
    with [Pd.column veh_id df; Pd.column veh_ref df].
  change cas_id with veh_id in E1 |- *. change cas_ref with veh_ref in E2 |- *.
  rewrite E1, E2. cbn [index map]. rewrite app_nil_r.
  unfold shared. rewrite (filter_none _ (columns cas)) by done.
  rewrite (map_ext _ id) by done. by rewrite map_id.
Qed.

(** ** The joins on distinct right keys *)

(** A vehicle join that succeeds on distinct vehicle keys returns the
    casualty frame. *)
Lemma join_vehicles_identity cas veh cas' :
  join_vehicles cas veh = Ok cas' -> aligned cas ->
  NoDup (Pd.key_rows [veh_id; veh_ref] veh) ->
  cas' = cas.
Proof.
  intros H Ha Hk. apply join_vehicles_Ok in H. rewrite H.
  unfold merge_plan. rewrite left_indexer_unique by exact Hk.
  rewrite length_map, length_seq, rebuild_left by done. by destruct cas.
Qed.

(** A collision join that succeeds on distinct collision ids returns
    [joined_frame]. *)
Lemma join_accidents_frame cas acc joined :
  join_accidents cas acc = Ok joined -> aligned cas ->
  NoDup (Pd.key_rows [acc_id] acc) ->
  joined = joined_frame cas acc.
Proof.
  unfold join_accidents. change [acc_id] with [cas_id]. intros H Ha Hk.
  apply merge_left_Ok in H. rewrite H. cbv zeta. unfold merge_plan.
  rewrite left_indexer_unique by exact Hk.
  rewrite length_map, length_seq, take_left_aligned by done.
  unfold joined_frame, collision_side. cbv zeta. do 3 f_equal.
  apply map_ext. intros c. apply take_right_plan.
Qed.

(** What [joined_frame] holds: the casualty columns, then the collision
    columns, each with the cell of the casualty's collision row. *)
Lemma joined_frame_rows cas acc :
  index (joined_frame cas acc) = index cas
  /\ map snd (take (length (data cas)) (data (joined_frame cas acc)))
     = map snd (data cas)
  /\ map snd (drop (length (data cas)) (data (joined_frame cas acc)))
     = map (fun c => collision_cells cas acc c.2) (collision_side acc)
  /\ forall i s, i < index cas ->
       In s (map snd (drop (length (data cas)) (data (joined_frame cas acc)))) ->
       match collision_of cas acc i with
       | Some j =>
           j < index acc
           /\ nth j (Pd.column acc_id acc) NA = nth i (Pd.column cas_id cas) NA
           /\ exists c, In c (collision_side acc) /\ nth i s NA = nth j c.2 NA
       | None =>
           (forall j, j < index acc ->
              nth j (Pd.column acc_id acc) NA <> nth i (Pd.column cas_id cas) NA)
           /\ nth i s NA = NA
       end.
Proof.
  split; [done|].
  set (left_part := zip (map (Pd.renamer (shared (columns cas) (map fst (collision_side acc))) "_cas")
                             (columns cas)) (map snd (data cas))).
  set (right_part := zip (map (Pd.renamer (shared (columns cas) (map fst (collision_side acc))) "_acc")
                              (map fst (collision_side acc)))
                         (map (fun c => collision_cells cas acc c.2) (collision_side acc))).
  assert (length left_part = length (data cas)) as Hlen.
  { unfold left_part, columns. rewrite length_zip, !length_map. lia. }
  assert (map snd left_part = map snd (data cas)) as Hleft.
  { unfold left_part. apply snd_zip. unfold columns. by rewrite !length_map. }
  assert (map snd right_part
          = map (fun c => collision_cells cas acc c.2) (collision_side acc)) as Hright.
  { unfold right_part. apply snd_zip. by rewrite !length_map. }
  change (data (joined_frame cas acc)) with (left_part ++ right_part).
  rewrite <- Hlen, take_app_length, drop_app_length.
  split; [done|]. split; [done|].
  intros i s Hi Hs. rewrite Hright in Hs.
  apply in_map_iff in Hs as (c & <- & Hc').
  unfold collision_cells. rewrite nth_map_seq by done.
  destruct (collision_of cas acc i) as [j|] eqn:E.
  - apply find_some in E as [Hj%in_seq E]. apply bool_decide_eq_true in E.
    simpl in E. split; [lia|]. split; [by injection E|]. by exists c.
  - split; [|done]. intros j Hj Ekey.
    unfold collision_of, partner in E. rewrite find_none_iff, Forall_forall in E.
    assert (j ∈ seq 0 (index acc)) as Hin by (apply list_elem_of_In, in_seq; lia).
    apply E, bool_decide_eq_false in Hin. apply Hin. simpl. by rewrite Ekey.
Qed.

(** C2: with distinct vehicle keys and distinct collision ids, the table
    the two left joins produce has one row per casualty row: the casualty
    columns come first, values and order unchanged, and every collision
    column holds, row by row, the cell of the casualty's collision or a
    missing value when there is none.  The joins do produce a table when
    the labels are distinct, the key columns present and of compatible
    dtype, and no label collides with a suffixed one. *)
Theorem joins_keep_casualty_rows (cas veh acc : DataFrame) :
  aligned cas ->
  NoDup (Pd.key_rows [veh_id; veh_ref] veh) ->
  NoDup (Pd.key_rows [acc_id] acc) ->
  (forall joined,
     (cas' ← join_vehicles cas veh; join_accidents cas' acc) = Ok joined ->
     index joined = index cas
     /\ map snd (take (length (data cas)) (data joined)) = map snd (data cas)
     /\ map snd (drop (length (data cas)) (data joined))
        = map (fun c => collision_cells cas acc c.2) (collision_side acc)
     /\ forall i s, i < index cas ->
          In s (map snd (drop (length (data cas)) (data joined))) ->
          match collision_of cas acc i with
          | Some j =>
              j < index acc
              /\ nth j (Pd.column acc_id acc) NA = nth i (Pd.column cas_id cas) NA
              /\ exists c, In c (collision_side acc) /\ nth i s NA = nth j c.2 NA
          | None =>
              (forall j, j < index acc ->
                 nth j (Pd.column acc_id acc) NA <> nth i (Pd.column cas_id cas) NA)
              /\ nth i s NA = NA
          end)
  /\ (unique_labels cas -> unique_labels veh -> unique_labels acc ->
      In cas_id (columns cas) -> In cas_ref (columns cas) ->
      In veh_id (columns veh) -> In veh_ref (columns veh) ->
      In acc_id (columns acc) ->
      Pd.mergeable (Pd.column cas_id cas) (Pd.column veh_id veh) = true ->
      Pd.mergeable (Pd.column cas_ref cas) (Pd.column veh_ref veh) = true ->
      Pd.mergeable (Pd.column cas_id cas) (Pd.column acc_id acc) = true ->
      suffix_free (columns cas) (map fst (collision_side acc)) ("_cas", "_acc") ->
      exists joined,
        (cas' ← join_vehicles cas veh; join_accidents cas' acc) = Ok joined).
Proof.
  intros Ha Hkv Hka. split.
  - intros joined H.
    destruct (join_vehicles cas veh) as [cas'|e] eqn:Ev; [|done].
    apply join_vehicles_identity in Ev as ->; [|done..].
    change (Ok cas ≫= ?k) with (k cas) in H. cbv beta in H.
    apply join_accidents_frame in H as ->; [|done..].
    apply joined_frame_rows.
  - intros Hc Hv Hacc Hci Hcr Hvi Hvr Hai Hmi Hmr Hma Hfree.
    exists (joined_frame cas acc).
    rewrite join_vehicles_unique by done.
    change (Ok cas ≫= ?k) with (k cas). cbv beta.
    by apply join_accidents_unique.
Qed.

(** ** Row counts of the two joins *)

(** X5: whatever the vehicle table holds, a vehicle join that succeeds
    returns the casualty columns under their own labels and no other
    column; every casualty row is kept, once per vehicle row with its key
    and once when there is none, so rows are never lost and are repeated
    exactly when a vehicle key occurs more than once. *)
Theorem vehicle_join_adds_no_column (cas veh cas' : DataFrame) :
  join_vehicles cas veh = Ok cas' ->
  columns cas' = columns cas
  /\ index cas' = sum_list (map (rows_for [Pd.column cas_id cas; Pd.column cas_ref cas]
                                          [Pd.column veh_id veh; Pd.column veh_ref veh]
                                          (index veh))
                                (seq 0 (index cas)))
  /\ index cas <= index cas'
  /\ map snd (data cas')
     = map (fun c => Pd.take_left (merge_plan cas veh [cas_id; cas_ref] [veh_id; veh_ref]) c.2)
           (data cas).
Proof.
  intros H. apply join_vehicles_Ok in H. rewrite H. clear H.
  unfold columns at 1. cbn [data index].
  split; [apply fst_zip_map; unfold columns; by rewrite length_map|].
  unfold merge_plan. cbn [map].
  destruct (length_left_indexer [Pd.column cas_id cas; Pd.column cas_ref cas]
              [Pd.column veh_id veh; Pd.column veh_ref veh] (index cas) (index veh))
    as [Hsum Hge].
  split; [exact Hsum|]. split; [exact Hge|].
  apply snd_zip. unfold columns. by rewrite !length_map.
Qed.

(** X6: with distinct vehicle keys, a vehicle join that succeeds returns
    the casualty table exactly as it was; and the join does succeed when
    the labels are distinct, the key columns present and the key columns
    of the two tables of compatible dtype. *)
Theorem vehicle_join_changes_nothing (cas veh : DataFrame) :
  aligned cas ->
  NoDup (Pd.key_rows [veh_id; veh_ref] veh) ->
  (forall cas', join_vehicles cas veh = Ok cas' -> cas' = cas)
  /\ (unique_labels cas -> unique_labels veh ->
      In cas_id (columns cas) -> In cas_ref (columns cas) ->
      In veh_id (columns veh) -> In veh_ref (columns veh) ->
      Pd.mergeable (Pd.column cas_id cas) (Pd.column veh_id veh) = true ->
      Pd.mergeable (Pd.column cas_ref cas) (Pd.column veh_ref veh) = true ->
      join_vehicles cas veh = Ok cas).
Proof.
  intros Ha Hk. split.
  - intros cas' H. by apply (join_vehicles_identity cas veh).
  - intros. by apply join_vehicles_unique.
Qed.

(** X7: a collision join that succeeds keeps every casualty row, once per
    collision row with its [accident_index] and once when there is none. *)
Theorem collision_join_row_count (cas acc joined : DataFrame) :
  join_accidents cas acc = Ok joined ->
  index joined = sum_list (map (rows_for [Pd.column cas_id cas] [Pd.column acc_id acc]
                                         (index acc))
                               (seq 0 (index cas)))
  /\ index cas <= index joined.
Proof.
  unfold join_accidents. change [acc_id] with [cas_id].
  intros H. apply merge_left_Ok in H. rewrite H. clear H.
  cbn [index]. unfold merge_plan. cbn [map]. apply length_left_indexer.
Qed.

(** ** Missing and repeated key columns *)

Lemma getitem_repeated l df :
  2 <= length (Pd.labelled l df) ->
  Pd.getitem l df = Err (ValueError "label is not unique").
Proof.
  unfold Pd.getitem. destruct (Pd.labelled l df) as [|c [|c' rest]]; simpl; [lia|lia|done].
Qed.

Lemma get_merge_keys_right_error left right l e :
  Pd.getitem l right = Err e ->
  Pd.get_merge_keys left right [l] [l] = Err e.
Proof.
  intros H. unfold Pd.get_merge_keys. cbn [zip zip_with mapM_result fst snd].
  by rewrite H.
Qed.

Lemma get_merge_keys_left_error left right l s e :
  Pd.getitem l right = Ok s -> Pd.getitem l left = Err e ->
  Pd.get_merge_keys left right [l] [l] = Err e.
Proof.
  intros Hr Hl. unfold Pd.get_merge_keys. cbn [zip zip_with mapM_result fst snd].
  by rewrite Hr, Hl.
Qed.

(** X8: the joins fail on a missing or repeated key column, naming it: the
    vehicle join with the KeyError of the first key the vehicle table
    lacks; the collision join with the KeyError of [accident_index] when
    the collision table lacks it, or when the casualty table does, and
    with a ValueError when the collision table carries it twice. *)
Theorem joins_need_their_keys (cas veh acc : DataFrame) :
  (~ In veh_id (columns veh) -> join_vehicles cas veh = Err (KeyError veh_id))
  /\ (In veh_id (columns veh) -> ~ In veh_ref (columns veh) ->
      join_vehicles cas veh = Err (KeyError veh_ref))
  /\ (~ In acc_id (columns acc) -> join_accidents cas acc = Err (KeyError acc_id))
  /\ (2 <= length (Pd.labelled acc_id acc) ->
      join_accidents cas acc = Err (ValueError "label is not unique"))
  /\ (length (Pd.labelled acc_id acc) = 1 -> ~ In cas_id (columns cas) ->
      join_accidents cas acc = Err (KeyError cas_id)).
Proof.
  split; [|split; [|split; [|split]]].
  - intros H%str_in_not_In. unfold join_vehicles, Pd.getitem_list.
    cbn [List.find]. by rewrite H.
  - intros H1%str_in_In H2%str_in_not_In. unfold join_vehicles, Pd.getitem_list.
    cbn [List.find]. by rewrite H1, H2.
  - intros H. unfold join_accidents, Pd.merge_left. change [cas_id] with [acc_id].
    by rewrite (get_merge_keys_right_error _ _ _ _ (getitem_missing _ _ H)).
  - intros H. unfold join_accidents, Pd.merge_left. change [cas_id] with [acc_id].
    by rewrite (get_merge_keys_right_error _ _ _ _ (getitem_repeated _ _ H)).
  - intros H1 H2. unfold join_accidents, Pd.merge_left. change [cas_id] with [acc_id].
    by rewrite (get_merge_keys_left_error _ _ _ _ _ (getitem_single _ _ H1)
                                          (getitem_missing _ _ H2)).
Qed.

(** ** Labels the casualty and collision tables share *)

Lemma join_accidents_columns cas acc joined :
  join_accidents cas acc = Ok joined ->
  columns joined
  = map (Pd.renamer (shared (columns cas) (map fst (collision_side acc))) "_cas")
        (columns cas)
    ++ map (Pd.renamer (shared (columns cas) (map fst (collision_side acc))) "_acc")
           (map fst (collision_side acc)).
Proof.
  unfold join_accidents. change [acc_id] with [cas_id].
  intros H. apply merge_left_Ok in H. rewrite H. clear H.
  unfold columns at 1. cbn [data fst snd]. fold (collision_side acc).
  apply columns_merged; unfold columns; by rewrite !length_map.
Qed.

Lemma columns_of_selection (ks : list string) (joined : DataFrame) (x : string) :
  In x (columns {| index := index joined;
                   data := flat_map (fun l => Pd.labelled l joined) ks |}) ->
  In x ks /\ In x (columns joined).
Proof. intros H. by apply in_flat_map_labelled in H. Qed.

Lemma Ok_inj {A} (a b : A) : Ok a = Ok b -> a = b.
Proof. by intros [= ->]. Qed.

Lemma tidy_columns_from_joined joined dc tidy x :
  tidy_of joined dc = Ok tidy ->
  In x (columns tidy) -> x = "severity" \/ In x (columns joined).
Proof.
  unfold tidy_of. rewrite project_ok. intros <-%Ok_inj.
  intros [[-> _]|[Hx _]]%columns_standardise_target; [by left|right].
  apply columns_of_selection in Hx. tauto.
Qed.

(** X9: a label that both the casualty table and the collision table carry
    (other than the join key) reaches the joined table only as
    [label_cas] and [label_acc], never under its own name; so such a field
    is not a column of the projected table, even when it is one of the
    fields to keep. *)
Theorem shared_labels_are_suffixed (cas acc joined : DataFrame) :
  join_accidents cas acc = Ok joined ->
  suffix_free (columns cas) (map fst (collision_side acc)) ("_cas", "_acc") ->
  forall l, In l (columns cas) -> In l (map fst (collision_side acc)) ->
    In (l +:+ "_cas") (columns joined)
    /\ In (l +:+ "_acc") (columns joined)
    /\ ~ In l (columns joined)
    /\ forall dc tidy, tidy_of joined dc = Ok tidy ->
         l <> "severity" -> ~ In l (columns tidy).
Proof.
  intros Hj Hfree l Hl Hr.
  pose proof (join_accidents_columns cas acc joined Hj) as Hcols.
  set (ov := shared (columns cas) (map fst (collision_side acc))) in *.
  assert (In l ov) as Hov by (by apply in_shared).
  assert (Pd.renamer ov "_cas" l = l +:+ "_cas"
          /\ Pd.renamer ov "_acc" l = l +:+ "_acc") as [Ec Ea].
  { unfold Pd.renamer. apply str_in_In in Hov. by rewrite Hov. }
  assert (~ In l (columns joined)) as Hno.
  { rewrite Hcols, in_app_iff.
    intros [(x & Ex & Hx)%in_map_iff|(x & Ex & Hx)%in_map_iff];
      unfold Pd.renamer in Ex;
      destruct (Py.str_in x ov) eqn:E.
    - apply str_in_In, in_shared in E as [E1 E2].
      destruct (Hfree x E1 E2) as [Hf _]. apply Hf. simpl. by rewrite Ex.
    - apply str_in_not_In in E. by subst x.
    - apply str_in_In, in_shared in E as [E1 E2].
      destruct (Hfree x E1 E2) as [_ Hf]. apply Hf. simpl. by rewrite Ex.
    - apply str_in_not_In in E. by subst x. }
  split; [|split; [|split; [exact Hno|]]].
  - rewrite Hcols, in_app_iff. left. rewrite <- Ec. by apply in_map.
  - rewrite Hcols, in_app_iff. right. rewrite <- Ea. by apply in_map.
  - intros dc tidy Ht Hs [->|Hin]%(tidy_columns_from_joined joined dc tidy); done.
Qed.

(** ** The type fixes in general *)

Lemma setitem_has_label l s df : In l (columns (Pd.setitem l s df)).
Proof.
  apply labelled_nonempty.
  destruct (in_dec string_dec l (columns df)) as [H|H].
  - rewrite labelled_setitem_same by done.
    apply labelled_nonempty in H. by destruct (Pd.labelled l df).
  - unfold Pd.setitem. rewrite labelled_eq. cbn [data].
    apply str_in_not_In in H. rewrite H.
    rewrite with_label_app. cbn [with_label List.filter fst].
    rewrite String.eqb_refl. by destruct (with_label l (data df)).
Qed.

Lemma setitem_keeps_labels l s df x :
  In x (columns df) -> In x (columns (Pd.setitem l s df)).
Proof.
  intros Hx. destruct (string_dec x l) as [->|Hne]; [apply setitem_has_label|].
  apply labelled_nonempty. rewrite labelled_setitem_other by done.
  by apply labelled_nonempty.
Qed.

Section TypeFixes.
Variable parse_date : Series -> cell -> option date.

(** The frame the [if date_col:] block leaves. *)
Lemma fix_dates_eq acc dc :
  date_col_of acc = Some dc -> length (Pd.labelled dc acc) = 1 ->
  fix_dates parse_date (Some dc) acc
  = Ok (Pd.setitem "month"
          (Pd.dt_month_start (Pd.to_datetime parse_date (Pd.column dc acc)))
          (Pd.setitem "year"
             (Pd.dt_year (Pd.to_datetime parse_date (Pd.column dc acc)))
             (Pd.setitem dc (Pd.to_datetime parse_date (Pd.column dc acc)) acc))).
Proof.
  intros Hdc Hone.
  assert (dc <> "year" /\ dc <> "month" /\ Py.truthy dc = true) as (Hy & Hm & Ht).
  { by destruct (date_col_of_name _ _ Hdc) as [-> | ->]. }
  apply date_col_of_in in Hdc.
  unfold fix_dates. rewrite Ht.
  set (s := Pd.to_datetime parse_date (Pd.column dc acc)).
  rewrite (getitem_single dc acc Hone).
  change (Ok ?x ≫= ?k) with (k x). cbv beta. fold s.
  set (acc1 := Pd.setitem dc s acc).
  assert (length (Pd.labelled dc acc1) = 1) as Hone1.
  { unfold acc1. by rewrite labelled_setitem_same, length_map. }
  assert (Pd.getitem dc acc1 = Ok s) as ->.
  { rewrite (getitem_single dc acc1 Hone1). unfold acc1.
    by rewrite column_setitem_same. }
  change (Ok ?x ≫= ?k) with (k x). cbv beta.
  set (acc2 := Pd.setitem "year" (Pd.dt_year s) acc1).
  assert (Pd.getitem dc acc2 = Ok s) as ->; [|done].
  rewrite (getitem_single dc acc2).
  - unfold acc2, acc1.
    rewrite column_setitem_other by done. by rewrite column_setitem_same.
  - unfold acc2. by rewrite labelled_setitem_other.
Qed.

(** X10: the type fixes leave a table with no date column as it is; they
    fail with a ValueError exactly when the resolved date label is carried
    by more than one column; otherwise they keep the number of rows, every
    label, and every column under a label other than the date label,
    [year] and [month], and the result has a [year] and a [month]
    column. *)
Theorem fix_dates_touches_only_dates (acc : DataFrame) :
  (date_col_of acc = None -> fix_dates parse_date (date_col_of acc) acc = Ok acc)
  /\ (forall dc, date_col_of acc = Some dc ->
        2 <= length (Pd.labelled dc acc) ->
        fix_dates parse_date (date_col_of acc) acc
        = Err (ValueError "label is not unique"))
  /\ (forall dc, date_col_of acc = Some dc ->
        length (Pd.labelled dc acc) = 1 ->
        exists acc',
          fix_dates parse_date (date_col_of acc) acc = Ok acc'
          /\ index acc' = index acc
          /\ (forall x, In x (columns acc) -> In x (columns acc'))
          /\ In "year" (columns acc') /\ In "month" (columns acc')
          /\ forall l, l <> dc -> l <> "year" -> l <> "month" ->
               Pd.labelled l acc' = Pd.labelled l acc).
Proof.
  split; [by intros ->|]. split.
  - intros dc Hdc Hrep. rewrite Hdc.
    assert (Py.truthy dc = true) as Ht.
    { by destruct (date_col_of_name _ _ Hdc) as [-> | ->]. }
    unfold fix_dates. by rewrite Ht, getitem_repeated.
  - intros dc Hdc Hone. rewrite Hdc, (fix_dates_eq acc dc Hdc Hone).
    eexists. split; [reflexivity|]. split; [done|]. split; [|split; [|split]].
    + intros x Hx. by do 3 apply setitem_keeps_labels.
    + apply setitem_keeps_labels, setitem_has_label.
    + apply setitem_has_label.
    + intros l H1 H2 H3. by rewrite !labelled_setitem_other.
Qed.

(** X11: however [pd.to_datetime] reads the column (the reading of a cell
    may depend on the whole column, as an inferred format does), when one
    column carries the resolved date label each row of the fixed table has
    in the date column the date read from the row's cell, in [year] that
    date's year and in [month] the first day of that date's month; a cell
    that is not read gives a missing value in all three. *)
Theorem derived_fields_follow_date (acc : DataFrame) (dc : string) :
  date_col_of acc = Some dc -> length (Pd.labelled dc acc) = 1 ->
  exists acc',
    fix_dates parse_date (date_col_of acc) acc = Ok acc'
    /\ length (Pd.column dc acc') = length (Pd.column dc acc)
    /\ forall (i : nat) (c : cell),
         Pd.column dc acc !! i = Some c ->
         match parse_date (Pd.column dc acc) c with
         | Some d =>
             Pd.column dc acc' !! i = Some (Ts d)
             /\ Pd.column "year" acc' !! i = Some (Num (d_year d))
             /\ Pd.column "month" acc' !! i = Some (Ts (mkDate (d_year d) (d_month d) 1))
         | None =>
             Pd.column dc acc' !! i = Some NA
             /\ Pd.column "year" acc' !! i = Some NA
             /\ Pd.column "month" acc' !! i = Some NA
         end.
Proof.
  intros Hdc Hone.
  destruct (fix_dates_resolved parse_date acc dc Hdc Hone)
    as (acc' & Hfix & _ & Hd & Hy & Hm).
  exists acc'. rewrite Hdc. split; [done|].
  rewrite Hd, Hy, Hm. unfold Pd.dt_month_start, Pd.dt_year, Pd.to_datetime, Series.
  split; [by rewrite length_map|].
  intros i c Hc. rewrite !lookup_map, Hc. simpl.
  by destruct (parse_date _ c).
Qed.
End TypeFixes.

(** ** The run as a whole *)

Lemma join_vehicles_rows cas veh cas' :
  join_vehicles cas veh = Ok cas' -> index cas <= index cas'.
Proof.
  intros H. apply join_vehicles_Ok in H. rewrite H. cbn [index].
  apply length_left_indexer.
Qed.

Lemma join_accidents_rows cas acc joined :
  join_accidents cas acc = Ok joined -> index cas <= index joined.
Proof.
  unfold join_accidents. change [acc_id] with [cas_id].
  intros H. apply merge_left_Ok in H. rewrite H. cbn [index].
  apply length_left_indexer.
Qed.

Lemma index_standardise_target tidy : index (standardise_target tidy) = index tidy.
Proof. unfold standardise_target. by destruct (_ && _). Qed.

Lemma tidy_of_index joined dc tidy :
  tidy_of joined dc = Ok tidy -> index tidy = index joined.
Proof.
  unfold tidy_of. rewrite project_ok. intros <-%Ok_inj.
  by rewrite index_standardise_target.
Qed.

Section WholeRun.
Variable parse_date : Series -> cell -> option date.

Lemma joined_of_rows acc veh cas joined :
  joined_of parse_date acc veh cas = Ok joined -> index cas <= index joined.
Proof.
  unfold joined_of.
  destruct (fix_dates _ _ acc) as [acc'|e]; [|done]. simpl.
  destruct (join_vehicles cas veh) as [cas'|e] eqn:Ev; [|done]. simpl.
  intros Ha. apply join_vehicles_rows in Ev. apply join_accidents_rows in Ha. lia.
Qed.

(** X12: a run that ends in an error has written nothing and printed
    nothing, whichever step failed. *)
Theorem failed_run_leaves_no_trace (w w' : world) (e : error) :
  main parse_date w = (w', Err e) -> w' = w.
Proof.
  rewrite main_eq. cbv zeta.
  destruct (files w !! _) as [a|]; [|by intros [= <- _]].
  destruct (files w !! VEH_FILE) as [v|]; [|by intros [= <- _]].
  destruct (files w !! CAS_FILE) as [c|]; [|by intros [= <- _]].
  destruct (joined_of _ _ _ _) as [joined|e']; [|by intros [= <- _]].
  rewrite save_eq.
  destruct (tidy_of _ _) as [tidy|e']; [|by intros [= <- _]].
  destruct (Pd.parquet_writable tidy); [done|by intros [= <- _]].
Qed.

(** X13: a run that succeeds has found the vehicle and casualty files,
    stored one table at the output path and changed no other file, and
    printed one line, giving the path and the row and column counts of
    that table; the table has distinct labels and at least as many rows as
    the casualty file. *)
Theorem successful_run_effect (w w' : world) (r : unit) :
  main parse_date w = (w', Ok r) ->
  exists (v c tidy : DataFrame),
    files w !! VEH_FILE = Some v
    /\ files w !! CAS_FILE = Some c
    /\ files w' = <[out_path := tidy]> (files w)
    /\ stdout w' = stdout w ++ [(out_path, index tidy, length (columns tidy))]
    /\ NoDup (columns tidy)
    /\ index c <= index tidy.
Proof.
  rewrite main_eq. cbv zeta.
  destruct (files w !! _) as [a|]; [|done].
  destruct (files w !! VEH_FILE) as [v|]; [|done].
  destruct (files w !! CAS_FILE) as [c|]; [|done].
  destruct (joined_of _ _ _ _) as [joined|e'] eqn:Ej; [|done].
  rewrite save_eq.
  destruct (tidy_of _ _) as [tidy|e'] eqn:Et; [|done].
  unfold Pd.parquet_writable. case_bool_decide as Hnd; [|done].
  intros [= <- _]. exists v, c, tidy. repeat split; try done.
  apply joined_of_rows in Ej. apply tidy_of_index in Et.
  rewrite normalise_cols_eq in Ej. cbn [index] in Ej. lia.
Qed.

(** X14: the three files are read in the order collision, vehicle,
    casualty, and the first one missing stops the run: with the collision
    file in place, a missing Vehicles.csv gives its FileNotFoundError
    whether or not Casualties.csv exists, and a missing Casualties.csv
    gives its own once Vehicles.csv exists; nothing is written. *)
Theorem missing_vehicle_or_casualty_file (w : world) (a : DataFrame) :
  (ACC_FILE ≫= read_csv_fast) w = (w, Ok a) ->
  (files w !! VEH_FILE = None ->
   main parse_date w = (w, Err (FileNotFoundError VEH_FILE)))
  /\ (is_Some (files w !! VEH_FILE) -> files w !! CAS_FILE = None ->
      main parse_date w = (w, Err (FileNotFoundError CAS_FILE))).
Proof.
  intros Ha. rewrite main_eq. cbv zeta.
  assert ((ACC_FILE ≫= read_csv_fast) w
          = (w, match files w !! (RAW // (if bool_decide
                                            (is_Some (files w !! (RAW // "Accidents.csv")))
                                          then "Accidents.csv" else "Collisions.csv")) with
                | Some df => Ok df
                | None => Err (FileNotFoundError
                                 (RAW // (if bool_decide
                                            (is_Some (files w !! (RAW // "Accidents.csv")))
                                          then "Accidents.csv" else "Collisions.csv")))
                end)) as Hload by done.
  rewrite Hload in Ha. clear Hload.
  destruct (files w !! (RAW // (if bool_decide _ then _ else _))) as [a'|]; [|done].
  split.
  - by intros ->.
  - by intros [v ->] ->.
Qed.
End WholeRun.

(** ** Repeated labels at the save *)

Lemma fst_with_label {V} (l : string) (d : list (string * V)) :
  map fst (with_label l d) = repeat l (length (with_label l d)).
Proof.
  unfold with_label. induction d as [|[k v] d IH]; simpl; [done|].
  destruct (String.eqb_spec k l) as [->|Hne]; simpl; [by rewrite IH|done].
Qed.

Lemma NoDup_repeat (l : string) (n : nat) : NoDup (repeat l n) <-> n <= 1.
Proof.
  destruct n as [|[|n]]; simpl.
  - split; [lia|intros _; apply NoDup_nil_2].
  - split; [lia|intros _; apply NoDup_singleton].
  - split; [|lia]. intros [H _]%NoDup_cons. exfalso. apply H. by left.
Qed.

(** Selecting distinct labels gives distinct labels exactly when each
    selected label is carried by one column. *)
Lemma NoDup_selection {V} (d : list (string * V)) (ks : list string) :
  NoDup ks -> Forall (fun l => In l (map fst d)) ks ->
  NoDup (map fst (flat_map (fun l => with_label l d) ks))
  <-> Forall (fun l => length (with_label l d) = 1) ks.
Proof.
  induction 1 as [|k ks Hk Hks IH]; intros Hin.
  - simpl. split; [by constructor|intros _; apply NoDup_nil_2].
  - apply Forall_cons in Hin as [Hkin Hin]. specialize (IH Hin).
    cbn [flat_map]. rewrite map_app, NoDup_app, Forall_cons, IH, fst_with_label, NoDup_repeat.
    destruct (with_label_present k d Hkin) as (v & rest & E).
    assert (1 <= length (with_label k d)) as Hge by (rewrite E; simpl; lia).
    split.
    + intros (H1 & _ & H3). split; [lia|done].
    + intros [H1 H3]. split; [lia|]. split; [|done].
      intros x Hx%list_elem_of_In%repeat_spec Hx'%list_elem_of_In. subst x.
      apply in_map_iff in Hx' as (c & Ec & Hc).
      apply in_flat_map in Hc as (l & Hl & Hc).
      apply with_label_fst in Hc as [Ec' _].
      apply Hk, list_elem_of_In. congruence.
Qed.

Lemma NoDup_columns_standardise_target tidy :
  NoDup (columns (standardise_target tidy)) <-> NoDup (columns tidy).
Proof.
  unfold standardise_target.
  destruct (Py.str_in "casualty_severity" (columns tidy)) eqn:Ec;
    destruct (Py.str_in "severity" (columns tidy)) eqn:Es; simpl; try done.
  rewrite columns_rename_map. apply str_in_not_In in Es.
  generalize dependent (columns tidy). intros cols _ Hs. split.
  - apply (NoDup_fmap_1 (fun l : string => if String.eqb l "casualty_severity"
                                           then "severity" else l)).
  - apply NoDup_map_inj. intros x y Hx Hy.
    destruct (String.eqb_spec x "casualty_severity") as [->|Hx'],
             (String.eqb_spec y "casualty_severity") as [->|Hy']; congruence.
Qed.

(** The columns of [joined[ks]] are distinct exactly when each label of
    [ks] names one column of [joined]. *)
Lemma selection_writable (ks : list string) (joined : DataFrame) :
  NoDup ks -> Forall (fun l => In l (columns joined)) ks ->
  NoDup (columns (standardise_target
                    {| index := index joined;
                       data := flat_map (fun l => Pd.labelled l joined) ks |}))
  <-> Forall (fun l => length (Pd.labelled l joined) = 1) ks.
Proof.
  intros Hnd Hin. rewrite NoDup_columns_standardise_target.
  apply (NoDup_selection (data joined) ks Hnd Hin).
Qed.

Lemma repeated_label_exists (ks : list string) (joined : DataFrame) :
  Forall (fun l => In l (columns joined)) ks ->
  ~ Forall (fun l => length (Pd.labelled l joined) = 1) ks
  <-> exists l, In l ks /\ 2 <= length (Pd.labelled l joined).
Proof.
  intros Hin. split.
  - intros H. apply not_Forall_Exists in H; [|intros l; apply _].
    apply Exists_exists in H as (l & Hl & Hne). exists l.
    split; [by apply list_elem_of_In|].
    rewrite Forall_forall in Hin. apply Hin, labelled_nonempty in Hl.
    simpl in Hne. destruct (Pd.labelled l joined) as [|c [|c' rest]]; simpl in *; [done|done|lia].
  - intros (l & Hl & Hge) H. rewrite Forall_forall in H.
    apply list_elem_of_In, H in Hl. lia.
Qed.

(** X15: for a joined table the save fails, with the ValueError of the
    Parquet writer and nothing written, exactly when some kept label is
    carried by two or more columns of the joined table; labels that are
    not kept may repeat freely. *)
Theorem save_refuses_repeated_labels (acc joined : DataFrame) (w : world) :
  (save joined (date_col_of acc) w
   = (w, Err (ValueError "Duplicate column names found"))
   <-> exists l, In l (keep_cols joined (date_col_of acc))
                 /\ 2 <= length (Pd.labelled l joined))
  /\ ((forall l, In l (keep_cols joined (date_col_of acc)) ->
         length (Pd.labelled l joined) = 1) ->
      exists tidy,
        tidy_of joined (date_col_of acc) = Ok tidy
        /\ save joined (date_col_of acc) w
           = (mkWorld (<[out_path := tidy]> (files w))
                      (stdout w ++ [(out_path, index tidy, length (columns tidy))]),
              Ok tt)).
Proof.
  pose proof (keep_cols_NoDup joined acc) as Hnd.
  pose proof (keep_cols_present joined (date_col_of acc)) as Hin.
  pose proof (selection_writable _ joined Hnd Hin) as Hw.
  pose proof (repeated_label_exists _ joined Hin) as Hrep.
  assert (tidy_of joined (date_col_of acc)
          = Ok (standardise_target
                  {| index := index joined;
                     data := flat_map (fun l => Pd.labelled l joined)
                                      (keep_cols joined (date_col_of acc)) |})) as Ht.
  { unfold tidy_of. by rewrite project_ok. }
  revert Hw Hrep Ht.
  generalize (standardise_target
                {| index := index joined;
                   data := flat_map (fun l => Pd.labelled l joined)
                                    (keep_cols joined (date_col_of acc)) |}).
  intros tidy Hw Hrep Ht. split.
  - rewrite <- Hrep, <- Hw, save_eq, Ht. unfold Pd.parquet_writable.
    case_bool_decide as Hd; split; done.
  - intros Hall. exists tidy. split; [done|]. apply save_ok; [done|].
    apply Hw, Forall_forall. intros l Hl%list_elem_of_In. by apply Hall.
Qed.

(** ** Key columns of different dtypes *)

(** The key columns of [veh[[veh_id, veh_ref]]] are those of [veh]. *)
Lemma labelled_vehicle_keys veh l :
  In l [veh_id; veh_ref] ->
  Pd.labelled l {| index := index veh;
                   data := flat_map (fun l => Pd.labelled l veh) [veh_id; veh_ref] |}
  = Pd.labelled l veh.
Proof.
  intros Hl.
  change (flat_map _ _) with (Pd.labelled veh_id veh ++ (Pd.labelled veh_ref veh ++ [])).
  rewrite app_nil_r, !labelled_eq. cbn [data].
  rewrite with_label_app, !with_label_twice.
  destruct Hl as [<-|[<-|[]]].
  - change (String.eqb veh_id veh_id) with true.
    change (String.eqb veh_ref veh_id) with false. apply app_nil_r.
  - change (String.eqb veh_id veh_ref) with false.
    change (String.eqb veh_ref veh_ref) with true. done.
Qed.

(** The key columns [get_merge_keys] returns when each is there once. *)
Lemma merge_keys_found left right (on : list (string * string))
    (keys : list (Series * Series)) :
  Forall2 (fun (lr : string * string) (k : Series * Series) =>
             Pd.getitem lr.1 left = Ok k.1 /\ Pd.getitem lr.2 right = Ok k.2) on keys ->
  Pd.get_merge_keys left right (map fst on) (map snd on)
  = Ok (map fst keys, map snd keys,
        map fst (List.filter (fun lr : string * string => String.eqb lr.1 lr.2) on)).
Proof.
  intros H. unfold Pd.get_merge_keys.
  assert (zip (map fst on) (map snd on) = on) as -> by apply zip_fst_snd.
  assert (mapM_result (fun lr : string * string =>
                         rk ← Pd.getitem lr.2 right;
                         lk ← Pd.getitem lr.1 left;
                         Ok (lk, rk)) on = Ok keys) as ->; [|done].
  induction H as [|lr [lk rk] on keys [El Er] _ IH]; simpl; [done|].
  simpl in El, Er. by rewrite Er, El, IH.
Qed.

(** A column with text and no number is an object column that infers as
    text; a column of numbers and missing values is numeric. *)
Lemma text_against_numbers (lk rk : Series) (s : string) :
  In (Str s) lk -> Forall (fun c => Pd.is_number c = false) lk ->
  rk <> [] -> Forall (fun c => c = NA \/ Pd.is_number c = true) rk ->
  Pd.mergeable lk rk = false /\ Pd.mergeable rk lk = false.
Proof.
  intros Hs Hl Hr Hn.
  assert (forall p, (forall t, p (Str t) = false) -> forallb p lk = false) as Hnot.
  { intros p Hp. apply not_true_is_false. intros H.
    rewrite forallb_forall in H. specialize (H _ Hs). by rewrite Hp in H. }
  assert (Pd.dtype_of lk = Pd.object) as El.
  { unfold Pd.dtype_of. by rewrite !Hnot. }
  assert (Pd.dtype_of rk = Pd.numeric) as Er.
  { unfold Pd.dtype_of.
    assert (forallb (fun c => match c with NA | Num _ => true | _ => false end) rk = true)
      as ->; [|done].
    apply forallb_forall. intros c Hc. rewrite Forall_forall in Hn.
    apply list_elem_of_In, Hn in Hc as [->|Hc]; [done|]. by destruct c. }
  assert (existsb Pd.is_number lk = false) as Ex.
  { apply not_true_is_false. intros (c & Hc & E)%existsb_exists.
    rewrite Forall_forall in Hl. apply list_elem_of_In, Hl in Hc. congruence. }
  assert (Nat.eqb (length lk) 0 = false) as Ll by (by destruct lk).
  assert (Nat.eqb (length rk) 0 = false) as Lr by (by destruct rk).
  unfold Pd.mergeable. by rewrite Ll, Lr, El, Er, Ex.
Qed.

(** X16: a join whose key column holds text on one side and numbers on
    the other fails.  When the key columns are there, once each, the
    collision join ends in the ValueError of the dtype check if the two
    [accident_index] columns do not pass it, and so does the vehicle join
    if either pair of key columns does not, whatever else the tables hold.
    A column with text and no number does not pass against a column of
    numbers and missing values, in either order. *)
Theorem joins_refuse_text_against_numbers (cas veh acc : DataFrame) :
  (forall lk rk,
     Pd.getitem cas_id cas = Ok lk -> Pd.getitem acc_id acc = Ok rk ->
     Pd.mergeable lk rk = false ->
     join_accidents cas acc
     = Err (ValueError "You are trying to merge on columns of incompatible dtypes"))
  /\ (forall lk1 lk2 rk1 rk2,
        Pd.getitem cas_id cas = Ok lk1 -> Pd.getitem cas_ref cas = Ok lk2 ->
        Pd.getitem veh_id veh = Ok rk1 -> Pd.getitem veh_ref veh = Ok rk2 ->
        Pd.mergeable lk1 rk1 && Pd.mergeable lk2 rk2 = false ->
        join_vehicles cas veh
        = Err (ValueError "You are trying to merge on columns of incompatible dtypes"))
  /\ (forall (lk rk : Series) (s : string),
        In (Str s) lk -> Forall (fun c => Pd.is_number c = false) lk ->
        rk <> [] -> Forall (fun c => c = NA \/ Pd.is_number c = true) rk ->
        Pd.mergeable lk rk = false /\ Pd.mergeable rk lk = false).
Proof.
  split; [|split].
  - intros lk rk Hl Hr Hm. unfold join_accidents, Pd.merge_left.
    change (Pd.get_merge_keys cas acc [cas_id] [acc_id])
      with (Pd.get_merge_keys cas acc (map fst [(cas_id, acc_id)])
                              (map snd [(cas_id, acc_id)])).
    rewrite (merge_keys_found cas acc [(cas_id, acc_id)] [(lk, rk)])
      by (repeat constructor; done).
    change (Ok ?x ≫= ?k) with (k x). cbv beta iota.
    unfold Pd.maybe_coerce_merge_keys.
    cbn [map zip zip_with forallb fst snd]. by rewrite Hm.
  - intros lk1 lk2 rk1 rk2 Hl1 Hl2 Hr1 Hr2 Hm. unfold join_vehicles.
    assert (In veh_id (columns veh) /\ In veh_ref (columns veh)) as [Hi1 Hi2].
    { split; apply labelled_nonempty; intros E; unfold Pd.getitem in *;
        rewrite E in *; done. }
    rewrite getitem_list_ok by (repeat constructor; done).
    change (Ok ?x ≫= ?k) with (k x). cbv beta.
    unfold Pd.merge_left.
    assert (forall l, In l [veh_id; veh_ref] ->
              Pd.getitem l {| index := index veh;
                              data := flat_map (fun l => Pd.labelled l veh)
                                               [veh_id; veh_ref] |}
              = Pd.getitem l veh) as Hk.
    { intros l Hl. unfold Pd.getitem. by rewrite labelled_vehicle_keys. }
    change (Pd.get_merge_keys cas ?vk [cas_id; cas_ref] [veh_id; veh_ref])
      with (Pd.get_merge_keys cas vk (map fst [(cas_id, veh_id); (cas_ref, veh_ref)])
                              (map snd [(cas_id, veh_id); (cas_ref, veh_ref)])).
    rewrite (merge_keys_found cas _ [(cas_id, veh_id); (cas_ref, veh_ref)]
                              [(lk1, rk1); (lk2, rk2)]).
    + change (Ok ?x ≫= ?k) with (k x). cbv beta iota.
      unfold Pd.maybe_coerce_merge_keys.
      cbn [map zip zip_with forallb fst snd]. rewrite andb_true_r. by rewrite Hm.
    + repeat constructor; cbn [fst snd]; rewrite ?Hk by (simpl; auto); done.
  - apply text_against_numbers.
Qed.
(** ** A joined table without outcome column *)

(** The table the first line of [main] loads is stored under the name
    [ACC_FILE] gives. *)
Lemma loaded_collision_table (w : world) (a : DataFrame) :
  (ACC_FILE ≫= read_csv_fast) w = (w, Ok a) ->
  exists path, ACC_FILE w = (w, Ok path) /\ files w !! path = Some a.
Proof.
  unfold mbind, IO_bind.
  assert (ACC_FILE w
          = (w, Ok (RAW // (if bool_decide (is_Some (files w !! (RAW // "Accidents.csv")))
                            then "Accidents.csv" else "Collisions.csv")))) as -> by done.
  unfold read_csv_fast. intros H. eexists. split; [done|].
  destruct (files w !! _); congruence.
Qed.

(** C10, amended: in a run whose joined table has neither a [severity] nor
    a [casualty_severity] column, the candidate [casualty_severity] is
    dropped by the filter, the projection does not fail, the rename is
    skipped and the projected table has no outcome column.  The run
    completes, saving that table, when every kept label names one column
    of the joined table; when a kept label is carried by two or more
    columns the write is refused and the run ends in its ValueError. *)
Theorem missing_outcome_is_not_an_error
    (parse_date : Series -> cell -> option date) (w : world) (a v c joined : DataFrame) :
  (ACC_FILE ≫= read_csv_fast) w = (w, Ok a) ->
  files w !! VEH_FILE = Some v ->
  files w !! CAS_FILE = Some c ->
  joined_of parse_date (normalise_cols a) (normalise_cols v) (normalise_cols c)
  = Ok joined ->
  ~ In "severity" (columns joined) ->
  ~ In "casualty_severity" (columns joined) ->
  exists tidy,
    In (Some "casualty_severity")
       (keep_candidates joined (date_col_of (normalise_cols a)))
    /\ ~ In "casualty_severity" (keep_cols joined (date_col_of (normalise_cols a)))
    /\ Pd.getitem_list (keep_cols joined (date_col_of (normalise_cols a))) joined
       = Ok tidy
    /\ standardise_target tidy = tidy
    /\ ~ In "severity" (columns tidy)
    /\ ~ In "casualty_severity" (columns tidy)
    /\ ((forall l, In l (keep_cols joined (date_col_of (normalise_cols a))) ->
           length (Pd.labelled l joined) = 1) ->
        main parse_date w
        = (mkWorld (<[out_path := tidy]> (files w))
                   (stdout w ++ [(out_path, index tidy, length (columns tidy))]),
           Ok tt))
    /\ ((exists l, In l (keep_cols joined (date_col_of (normalise_cols a)))
                   /\ 2 <= length (Pd.labelled l joined)) ->
        main parse_date w = (w, Err (ValueError "Duplicate column names found"))).
Proof.
  intros Hload Hv Hc Hj Hsev Hcas.
  set (acc := normalise_cols a) in *. set (dc := date_col_of acc).
  assert (main parse_date w = save joined dc w) as Hmain.
  { destruct (loaded_collision_table w a Hload) as (path & Hacc & Hpath).
    rewrite (main_reads_acc_file parse_date w path a Hacc Hpath), main_from_eq.
    fold acc. by rewrite Hv, Hc, Hj. }
  pose proof (keep_cols_NoDup joined acc : NoDup (keep_cols joined dc)) as Hnd.
  pose proof (keep_cols_present joined dc) as Hin.
  pose proof (selection_writable (keep_cols joined dc) joined Hnd Hin) as Hw.
  pose proof (repeated_label_exists (keep_cols joined dc) joined Hin) as Hrep.
  assert (forall x, ~ In x (columns joined) -> ~ In x (keep_cols joined dc)) as Hdrop.
  { intros x Hx Hk%in_keep_cols. tauto. }
  assert (In (Some "casualty_severity") (keep_candidates joined dc)) as Hcand.
  { unfold keep_candidates. apply str_in_not_In in Hsev. rewrite Hsev. simpl. tauto. }
  assert (tidy_of joined dc
          = Ok (standardise_target
                  {| index := index joined;
                     data := flat_map (fun l => Pd.labelled l joined)
                                      (keep_cols joined dc) |})) as Ht.
  { unfold tidy_of. by rewrite project_ok. }
  pose proof (project_ok joined dc) as Hp.
  fold dc. revert Hw Hrep Hp Ht Hdrop. generalize (keep_cols joined dc).
  intros ks Hw Hrep Hp Ht Hdrop.
  set (sel := {| index := index joined;
                 data := flat_map (fun l => Pd.labelled l joined) ks |}) in *.
  assert (forall x, ~ In x (columns joined) -> ~ In x (columns sel)) as Hnone.
  { intros x Hx Hk%columns_of_selection. tauto. }
  assert (standardise_target sel = sel) as Hskip.
  { apply standardise_target_skip. left. by apply Hnone. }
  rewrite Hskip in Hw, Ht.
  exists sel. split; [done|]. split; [by apply Hdrop|]. split; [done|].
  split; [done|]. split; [by apply Hnone|]. split; [by apply Hnone|]. split.
  - intros Hall. rewrite Hmain. apply save_ok; [done|].
    apply Hw, Forall_forall. intros l Hl%list_elem_of_In. by apply Hall.
  - intros Hex%Hrep. rewrite Hmain, save_eq, Ht. unfold Pd.parquet_writable.
    rewrite bool_decide_eq_false_2; [done|]. intros Hn. by apply Hex, Hw.
Qed.

(** ** The sample release *)

Example sample_joined :
  joined_of DayFirst.parse_cell Sample.acc Sample.veh Sample.cas = Ok Sample.joined.
Proof. by vm_compute. Qed.

(** C1 (evaluation): the vehicle table of the sample release has the three
    vehicle attributes and its row (A1, 1) matches the first casualty, yet
    the table the run saves has none of the three columns: the vehicle
    merge takes only the two key columns of the vehicle table. *)
Theorem vehicle_attributes_not_carried :
  (In "vehicle_type" (columns Sample.veh)
   /\ In "sex_of_driver" (columns Sample.veh)
   /\ In "age_band_of_driver" (columns Sample.veh))
  /\ Pd.row_key [Pd.column veh_id Sample.veh; Pd.column veh_ref Sample.veh] 0
     = Pd.row_key [Pd.column cas_id Sample.cas; Pd.column cas_ref Sample.cas] 0
  /\ join_vehicles Sample.cas Sample.veh = Ok Sample.cas
  /\ main DayFirst.parse_cell Sample.release
     = (mkWorld (<[out_path := Sample.tidy]> (files Sample.release))
                [(out_path, 3, 8)], Ok tt)
  /\ ~ In "vehicle_type" (columns Sample.tidy)
  /\ ~ In "sex_of_driver" (columns Sample.tidy)
  /\ ~ In "age_band_of_driver" (columns Sample.tidy).
Proof.
  split; [by vm_compute; auto 10|]. split; [by vm_compute|].
  split; [by vm_compute|]. split; [by vm_compute|].
  repeat split; apply (bool_decide_unpack _); by vm_compute.
Qed.

(** C2 on the sample release: its tables meet the conditions of the join
    theorem, and the joins produce a table. *)
Lemma joins_keep_casualty_rows_sample :
  exists joined,
    (cas' ← join_vehicles Sample.cas Sample.veh; join_accidents cas' Sample.acc)
    = Ok joined
    /\ index joined = index Sample.cas
    /\ map snd (take (length (data Sample.cas)) (data joined))
       = map snd (data Sample.cas)
    /\ map snd (drop (length (data Sample.cas)) (data joined))
       = map (fun c => collision_cells Sample.cas Sample.acc c.2)
             (collision_side Sample.acc)
    /\ forall i s, i < index Sample.cas ->
         In s (map snd (drop (length (data Sample.cas)) (data joined))) ->
         match collision_of Sample.cas Sample.acc i with
         | Some j =>
             j < index Sample.acc
             /\ nth j (Pd.column acc_id Sample.acc) NA
                = nth i (Pd.column cas_id Sample.cas) NA
             /\ exists c, In c (collision_side Sample.acc)
                          /\ nth i s NA = nth j c.2 NA
         | None =>
             (forall j, j < index Sample.acc ->
                nth j (Pd.column acc_id Sample.acc) NA
                <> nth i (Pd.column cas_id Sample.cas) NA)
             /\ nth i s NA = NA
         end.
Proof.
  destruct (joins_keep_casualty_rows Sample.cas Sample.veh Sample.acc) as [Hrows Hok].
  - unfold aligned. vm_compute. repeat constructor.
  - decided.
  - decided.
  - destruct Hok as [joined Hj].
    + unfold unique_labels. decided.
    + unfold unique_labels. decided.
    + unfold unique_labels. decided.
    + vm_compute. auto 10.
    + vm_compute. auto 10.
    + vm_compute. auto 10.
    + vm_compute. auto 10.
    + vm_compute. auto 10.
    + vm_compute. reflexivity.
    + vm_compute. reflexivity.
    + vm_compute. reflexivity.
    + intros l Hl Hr. exfalso. vm_compute in Hl, Hr.
      repeat (destruct Hl as [Hl|Hl]; [subst l; intuition discriminate|]). done.
    + exists joined. split; [exact Hj|]. exact (Hrows joined Hj).
Defined.

(** C4 on the joined table of the sample release. *)
Lemma severity_is_canonical_sample :
  exists tidy,
    tidy_of Sample.joined (date_col_of Sample.acc) = Ok tidy
    /\ In "severity" (columns tidy)
    /\ ~ In "casualty_severity" (columns tidy)
    /\ map snd (Pd.labelled "severity" tidy)
       = map snd (Pd.labelled (outcome_name Sample.joined) Sample.joined)
    /\ (forall w w' r,
          save Sample.joined (date_col_of Sample.acc) w = (w', Ok r) ->
          files w' !! out_path = Some tidy
          /\ Pd.labelled "severity" tidy
             = [("severity", Pd.column (outcome_name Sample.joined) Sample.joined)])
    /\ (unique_labels Sample.joined ->
        forall w,
          save Sample.joined (date_col_of Sample.acc) w
          = (mkWorld (<[out_path := tidy]> (files w))
                     (stdout w ++ [(out_path, index tidy, length (columns tidy))]),
             Ok tt)).
Proof.
  apply (severity_is_canonical Sample.acc Sample.joined).
  right. vm_compute. auto 10.
Defined.

(** C10 on a release without outcome column. *)
Lemma missing_outcome_is_not_an_error_sample :
  exists tidy,
    In (Some "casualty_severity")
       (keep_candidates Sample.joined_plain (date_col_of (normalise_cols Sample.accidents)))
    /\ ~ In "casualty_severity"
         (keep_cols Sample.joined_plain (date_col_of (normalise_cols Sample.accidents)))
    /\ Pd.getitem_list
         (keep_cols Sample.joined_plain (date_col_of (normalise_cols Sample.accidents)))
         Sample.joined_plain = Ok tidy
    /\ standardise_target tidy = tidy
    /\ ~ In "severity" (columns tidy)
    /\ ~ In "casualty_severity" (columns tidy)
    /\ ((forall l,
           In l (keep_cols Sample.joined_plain
                           (date_col_of (normalise_cols Sample.accidents))) ->
           length (Pd.labelled l Sample.joined_plain) = 1) ->
        main DayFirst.parse_cell Sample.plain
        = (mkWorld (<[out_path := tidy]> (files Sample.plain))
                   (stdout Sample.plain
                    ++ [(out_path, index tidy, length (columns tidy))]),
           Ok tt))
    /\ ((exists l,
           In l (keep_cols Sample.joined_plain
                           (date_col_of (normalise_cols Sample.accidents)))
           /\ 2 <= length (Pd.labelled l Sample.joined_plain)) ->
        main DayFirst.parse_cell Sample.plain
        = (Sample.plain, Err (ValueError "Duplicate column names found"))).
Proof.
  apply (missing_outcome_is_not_an_error DayFirst.parse_cell Sample.plain
           Sample.accidents Sample.vehicles Sample.casualties_plain Sample.joined_plain).
  - vm_compute. reflexivity.
  - vm_compute. reflexivity.
  - vm_compute. reflexivity.
  - vm_compute. reflexivity.
  - decided.
  - decided.
Defined.

(** C10 as first stated fails on a release whose joined table has no
    outcome column but carries [casualty_class] twice: the projection
    keeps both columns and the write is refused. *)
Lemma missing_outcome_with_repeated_label :
  joined_of DayFirst.parse_cell (normalise_cols Sample.accidents)
            (normalise_cols Sample.vehicles)
            (normalise_cols Sample.casualties_twice_classed)
  = Ok Sample.joined_twice_classed
  /\ ~ In "severity" (columns Sample.joined_twice_classed)
  /\ ~ In "casualty_severity" (columns Sample.joined_twice_classed)
  /\ main DayFirst.parse_cell Sample.twice_classed
     = (Sample.twice_classed, Err (ValueError "Duplicate column names found")).
Proof.
  split; [by vm_compute|]. split; [decided|]. split; [decided|]. by vm_compute.
Qed.



(** C6 on an empty source directory. *)
Lemma missing_collision_table_aborts_sample :
  main DayFirst.parse_cell Sample.nothing
  = (Sample.nothing, Err (FileNotFoundError (RAW // "Collisions.csv"))).
Proof.
  apply (missing_collision_table_aborts DayFirst.parse_cell Sample.nothing).
  - vm_compute. reflexivity.
  - vm_compute. reflexivity.
Defined.

(** C9 on the sample release with a Collisions.csv added beside its
    Accidents.csv. *)
Lemma accidents_csv_takes_precedence_sample :
  ACC_FILE Sample.both_named = (Sample.both_named, Ok (RAW // "Accidents.csv"))
  /\ (ACC_FILE ≫= read_csv_fast) Sample.both_named
     = (Sample.both_named, Ok Sample.accidents)
  /\ main DayFirst.parse_cell Sample.both_named
     = main_from DayFirst.parse_cell (normalise_cols Sample.accidents) Sample.both_named
  /\ (forall w' : world,
        main DayFirst.parse_cell Sample.both_named = (w', Ok tt) ->
        exists v c joined tidy,
          files Sample.both_named !! VEH_FILE = Some v
          /\ files Sample.both_named !! CAS_FILE = Some c
          /\ joined_of DayFirst.parse_cell (normalise_cols Sample.accidents)
                       (normalise_cols v) (normalise_cols c)
             = Ok joined
          /\ tidy_of joined (date_col_of (normalise_cols Sample.accidents)) = Ok tidy
          /\ files w' !! out_path = Some tidy)
  /\ (forall c : DataFrame,
        main DayFirst.parse_cell (with_file (RAW // "Collisions.csv") c Sample.both_named)
        = main_from DayFirst.parse_cell (normalise_cols Sample.accidents)
                    (with_file (RAW // "Collisions.csv") c Sample.both_named)
        /\ main DayFirst.parse_cell
                (with_file (RAW // "Collisions.csv") c Sample.both_named)
           = let (w', r) := main DayFirst.parse_cell Sample.both_named in
             (with_file (RAW // "Collisions.csv") c w', r))
  /\ (forall w0 : world,
        files w0 !! (RAW // "Accidents.csv") = None ->
        ACC_FILE w0 = (w0, Ok (RAW // "Collisions.csv"))
        /\ forall c : DataFrame,
             files w0 !! (RAW // "Collisions.csv") = Some c ->
             main DayFirst.parse_cell w0
             = main_from DayFirst.parse_cell (normalise_cols c) w0).
Proof.
  apply (accidents_csv_takes_precedence DayFirst.parse_cell Sample.both_named
           Sample.accidents).
  vm_compute. reflexivity.
Defined.

(** ** The further properties on sample tables *)

(** X5 on a vehicle table with a repeated key: four rows from three. *)
Lemma vehicle_join_adds_no_column_sample :
  columns Sample.cas_twice = columns Sample.cas
  /\ index Sample.cas_twice
     = sum_list (map (rows_for [Pd.column cas_id Sample.cas; Pd.column cas_ref Sample.cas]
                               [Pd.column veh_id Sample.veh_twice;
                                Pd.column veh_ref Sample.veh_twice]
                               (index Sample.veh_twice))
                     (seq 0 (index Sample.cas)))
  /\ index Sample.cas <= index Sample.cas_twice
  /\ map snd (data Sample.cas_twice)
     = map (fun c => Pd.take_left
                       (merge_plan Sample.cas Sample.veh_twice
                                   [cas_id; cas_ref] [veh_id; veh_ref]) c.2)
           (data Sample.cas).
Proof.
  apply (vehicle_join_adds_no_column Sample.cas Sample.veh_twice Sample.cas_twice).
  vm_compute. reflexivity.
Defined.

(** X6 on the sample release. *)
Lemma vehicle_join_changes_nothing_sample :
  (forall cas', join_vehicles Sample.cas Sample.veh = Ok cas' -> cas' = Sample.cas)
  /\ join_vehicles Sample.cas Sample.veh = Ok Sample.cas.
Proof.
  destruct (vehicle_join_changes_nothing Sample.cas Sample.veh) as [Hsame Hok].
  - unfold aligned. vm_compute. repeat constructor.
  - decided.
  - split; [exact Hsame|]. apply Hok.
    + unfold unique_labels. decided.
    + unfold unique_labels. decided.
    + vm_compute. auto 10.
    + vm_compute. auto 10.
    + vm_compute. auto 10.
    + vm_compute. auto 10.
    + vm_compute. reflexivity.
    + vm_compute. reflexivity.
Defined.

(** X7 on two tables with one collision per casualty. *)
Lemma collision_join_row_count_sample :
  index Sample.joined_year
  = sum_list (map (rows_for [Pd.column cas_id Sample.cas_year]
                            [Pd.column acc_id Sample.acc_year]
                            (index Sample.acc_year))
                  (seq 0 (index Sample.cas_year)))
  /\ index Sample.cas_year <= index Sample.joined_year.
Proof.
  apply (collision_join_row_count Sample.cas_year Sample.acc_year Sample.joined_year).
  vm_compute. reflexivity.
Defined.

(** X9 on two tables sharing [accident_year]. *)
Lemma shared_labels_are_suffixed_sample :
  In "accident_year_cas" (columns Sample.joined_year)
  /\ In "accident_year_acc" (columns Sample.joined_year)
  /\ ~ In "accident_year" (columns Sample.joined_year)
  /\ forall dc tidy, tidy_of Sample.joined_year dc = Ok tidy ->
       "accident_year" <> "severity" -> ~ In "accident_year" (columns tidy).
Proof.
  refine (shared_labels_are_suffixed Sample.cas_year Sample.acc_year Sample.joined_year
            _ _ "accident_year" _ _).
  - vm_compute. reflexivity.
  - intros l Hl Hr. vm_compute in Hl, Hr |- *.
    repeat (destruct Hl as [Hl|Hl];
            [subst l; repeat (destruct Hr as [Hr|Hr]; [try discriminate Hr|]);
             try done; split; intuition discriminate|]).
    done.
  - vm_compute. auto 10.
  - vm_compute. auto 10.
Defined.

(** X11 on the collision table of the sample release. *)
Lemma derived_fields_follow_date_sample :
  exists acc',
    fix_dates DayFirst.parse_cell (date_col_of Sample.acc) Sample.acc = Ok acc'
    /\ length (Pd.column "date" acc') = length (Pd.column "date" Sample.acc)
    /\ forall (i : nat) (c : cell),
         Pd.column "date" Sample.acc !! i = Some c ->
         match DayFirst.parse_cell (Pd.column "date" Sample.acc) c with
         | Some d =>
             Pd.column "date" acc' !! i = Some (Ts d)
             /\ Pd.column "year" acc' !! i = Some (Num (d_year d))
             /\ Pd.column "month" acc' !! i
                = Some (Ts (mkDate (d_year d) (d_month d) 1))
         | None =>
             Pd.column "date" acc' !! i = Some NA
             /\ Pd.column "year" acc' !! i = Some NA
             /\ Pd.column "month" acc' !! i = Some NA
         end.
Proof.
  apply (derived_fields_follow_date DayFirst.parse_cell Sample.acc "date").
  - vm_compute. reflexivity.
  - vm_compute. reflexivity.
Defined.

(** X12 on a source directory that has the collision file only: the run
    fails on Vehicles.csv and the directory is as before. *)
Lemma failed_run_leaves_no_trace_sample :
  main DayFirst.parse_cell Sample.only_accidents
  = (Sample.only_accidents, Err (FileNotFoundError VEH_FILE))
  /\ Sample.only_accidents = Sample.only_accidents.
Proof.
  assert (main DayFirst.parse_cell Sample.only_accidents
          = (Sample.only_accidents, Err (FileNotFoundError VEH_FILE))) as H.
  { vm_compute. reflexivity. }
  split; [exact H|].
  exact (failed_run_leaves_no_trace DayFirst.parse_cell Sample.only_accidents
           Sample.only_accidents (FileNotFoundError VEH_FILE) H).
Defined.

(** X13 on the sample release. *)
Lemma successful_run_effect_sample :
  exists (v c tidy : DataFrame),
    files Sample.release !! VEH_FILE = Some v
    /\ files Sample.release !! CAS_FILE = Some c
    /\ files Sample.released = <[out_path := tidy]> (files Sample.release)
    /\ stdout Sample.released
       = stdout Sample.release ++ [(out_path, index tidy, length (columns tidy))]
    /\ NoDup (columns tidy)
    /\ index c <= index tidy.
Proof.
  apply (successful_run_effect DayFirst.parse_cell Sample.release Sample.released tt).
  vm_compute. reflexivity.
Defined.

(** X14 on a source directory that has the collision file only. *)
Lemma missing_vehicle_or_casualty_file_sample :
  (files Sample.only_accidents !! VEH_FILE = None ->
   main DayFirst.parse_cell Sample.only_accidents
   = (Sample.only_accidents, Err (FileNotFoundError VEH_FILE)))
  /\ (is_Some (files Sample.only_accidents !! VEH_FILE) ->
      files Sample.only_accidents !! CAS_FILE = None ->
      main DayFirst.parse_cell Sample.only_accidents
      = (Sample.only_accidents, Err (FileNotFoundError CAS_FILE))).
Proof.
  apply (missing_vehicle_or_casualty_file DayFirst.parse_cell Sample.only_accidents
           Sample.accidents).
  vm_compute. reflexivity.
Defined.
